(** * Hybrid decision core of the retail decision-support engine

    Shallow embedding of [backend/disruption.py], [backend/forecasting.py],
    [backend/scenario_simulation.py] and [filter_data] of
    [backend/data_utils.py].

    Conventions.
    - A Python/NumPy float is an exact rational [Q]; a cell of a pandas
      column that may be missing is a [num] ([None] is NaN).  Orders and
      bounds are stated on the rationals; rounding and NaN produced by a
      predictor are outside that model.  Exact values of [apply_scenario]
      are stated on a second embedding in binary64 ([Scenario64]).
    - A frame carries data for the columns of the data set only.
    - A date is a day number ([Z]); time of day is not modelled.
    - A Python exception leaving a function is the outcome [Raised].
    - The NumPy global generator is an explicit stream of unit samples that
      every draw advances. *)

From Stdlib Require Import String Ascii DecimalString ZArith QArith Lia Lqa Bool
  Arith List.
From Stdlib Require Floats.
Import ListNotations.

(* ================================================================== *)
(** * Part I: definitions *)
(* ================================================================== *)

Definition date := Z.

(** Result of a call that may leave through an exception. *)
Inductive outcome (A : Type) : Type :=
| Returned (a : A)
| Raised.
Arguments Returned {A} a.
Arguments Raised {A}.

Definition bind {A B : Type} (o : outcome A) (k : A -> outcome B) : outcome B :=
  match o with
  | Returned a => k a
  | Raised => Raised
  end.

Notation "x <- c ;; k" := (bind c (fun x => k))
  (at level 61, c at next level, right associativity).

(** Indexing a sequence: [IndexError] outside the range. *)
Definition index {A : Type} (l : list A) (i : nat) : outcome A :=
  match nth_error l i with
  | Some a => Returned a
  | None => Raised
  end.

(** Element-wise equality of two float series, up to the representation of
    a rational. *)
Definition series_eq (xs ys : list Q) : Prop := Forall2 Qeq xs ys.

(** ** NumPy primitives used by the core *)
Module Np.

Definition Qltb (x y : Q) : bool :=
  (Qnum x * QDen y <? Qnum y * QDen x)%Z.

(** [arr < t], element-wise. *)
Definition less (arr : list Q) (t : Q) : list bool :=
  map (fun x => Qltb x t) arr.

(** [np.where(mask)[0]]: the positions that hold [True], ascending. *)
Fixpoint where_from (i : nat) (mask : list bool) : list nat :=
  match mask with
  | [] => []
  | b :: m => if b then i :: where_from (S i) m else where_from (S i) m
  end.

Definition where_ (mask : list bool) : list nat := where_from 0 mask.

(** [np.diff] of an index array. *)
Fixpoint diff (l : list nat) : list Z :=
  match l with
  | a :: ((b :: _) as t) => (Z.of_nat b - Z.of_nat a)%Z :: diff t
  | _ => []
  end.

(** [arr != 1], element-wise. *)
Definition neq1 (l : list Z) : list bool :=
  map (fun d => negb (d =? 1)%Z) l.

(** [arr + 1] on an index array. *)
Definition add1 (l : list nat) : list nat := map S l.

(** [arr[a:b]]. *)
Definition slice {A : Type} (l : list A) (a b : nat) : list A :=
  firstn (b - a) (skipn a l).

(** [np.split(arr, cuts)] for ascending cut positions: the pieces
    [arr[:c1]], [arr[c1:c2]], ..., [arr[ck:]]. *)
Fixpoint split_from {A : Type} (start : nat) (l : list A) (cuts : list nat)
  : list (list A) :=
  match cuts with
  | [] => [skipn start l]
  | c :: cs => slice l start c :: split_from c l cs
  end.

Definition split {A : Type} (l : list A) (cuts : list nat) : list (list A) :=
  split_from 0 l cuts.

(** [np.zeros(n)] and [np.full(n, v)]. *)
Definition zeros (n : nat) : list Q := repeat 0%Q n.
Definition full (n : nat) (v : Q) : list Q := repeat v n.

(** [np.maximum(a, b)] and [np.minimum(a, b)] on scalars. *)
Definition maximum (a b : Q) : Q := if Qltb a b then b else a.
Definition minimum (a b : Q) : Q := if Qltb b a then b else a.

(** [np.clip(arr, lo, hi)] is [minimum(hi, maximum(arr, lo))]. *)
Definition clip1 (x lo hi : Q) : Q := minimum hi (maximum x lo).
Definition clip (arr : list Q) (lo hi : Q) : list Q :=
  map (fun x => clip1 x lo hi) arr.

Definition sum (arr : list Q) : Q := fold_left Qplus arr 0%Q.

(** [np.mean]: NaN ([None]) on an empty array. *)
Definition mean (arr : list Q) : option Q :=
  match arr with
  | [] => None
  | _ => Some (sum arr / inject_Z (Z.of_nat (length arr)))%Q
  end.

(** [np.max]: [ValueError] on an empty array. *)
Definition max (arr : list Q) : outcome Q :=
  match arr with
  | [] => Raised
  | x :: xs => Returned (fold_left maximum xs x)
  end.

End Np.

(** Python's [max(iterable, key=len)]: the first element of greatest
    length ([best] is replaced only by a strictly longer one). *)
Fixpoint max_by_len {A : Type} (best : list A) (rest : list (list A)) : list A :=
  match rest with
  | [] => best
  | g :: r => if length best <? length g then max_by_len g r else max_by_len best r
  end.

(** ** pandas frames *)

(** A numeric cell: [None] is NaN. *)
Definition num : Type := option Q.

(** One observed or projected day.  A frame that lacks a column ignores the
    corresponding field. *)
Record Row : Type := mk_row {
  r_date : date;
  r_temperature : num;
  r_rainfall : num;
  r_holiday_flag : num;
  r_promotion_flag : num;
  r_congestion_index : num;
  r_product : string;
  r_location : string;
  r_units_sold : num
}.

(** A [pd.DataFrame] over the columns of the data set: the column names it
    has, in order, and its rows. *)
Record DataFrame : Type := mk_df {
  df_columns : list string;
  df_rows : list Row
}.

(** A column of a feature frame, by dtype. *)
Inductive column : Type :=
| NumCol (xs : list num)
| StrCol (xs : list string)
| DateCol (xs : list date).

(** A frame under feature engineering: named columns in order. *)
Definition frame : Type := list (string * column).

(** The feature matrix handed to a model: numeric columns without NaN. *)
Definition Matrix : Type := list (string * list Q).

(** What the host libraries compute and the model leaves open: the
    calendar accessors of [Series.dt], the square root behind a rolling
    standard deviation, and [str] of a number in a dummy column name. *)
Record Host : Type := mk_host {
  dt_dayofweek : date -> Z;
  dt_isoweek : date -> Z;
  dt_month : date -> Z;
  dt_year : date -> Z;
  np_sqrt : Q -> Q;
  py_str : Q -> string
}.

Module Pd.

Local Open Scope string_scope.
Local Open Scope list_scope.

(** [len(df)]. *)
Definition len (df : DataFrame) : nat := length (df_rows df).

(** [c in df.columns]. *)
Definition df_has (df : DataFrame) (c : string) : bool :=
  existsb (String.eqb c) (df_columns df).

(** [pd.DataFrame()]. *)
Definition empty : DataFrame := mk_df [] [].

(** [df.tail(n)]. *)
Definition tail (n : nat) (df : DataFrame) : DataFrame :=
  mk_df (df_columns df) (skipn (length (df_rows df) - n) (df_rows df)).

Definition column_of (df : DataFrame) (c : string) : option column :=
  let rows := df_rows df in
  if c =? "date" then Some (DateCol (map r_date rows))
  else if c =? "temperature" then Some (NumCol (map r_temperature rows))
  else if c =? "rainfall" then Some (NumCol (map r_rainfall rows))
  else if c =? "holiday_flag" then Some (NumCol (map r_holiday_flag rows))
  else if c =? "promotion_flag" then Some (NumCol (map r_promotion_flag rows))
  else if c =? "congestion_index" then Some (NumCol (map r_congestion_index rows))
  else if c =? "product" then Some (StrCol (map r_product rows))
  else if c =? "location" then Some (StrCol (map r_location rows))
  else if c =? "units_sold" then Some (NumCol (map r_units_sold rows))
  else None.

(** [df.copy()] as a feature frame.  A frame of this embedding carries
    data for the columns of the data set only: a column under another name
    is not represented. *)
Definition to_frame (df : DataFrame) : frame :=
  flat_map (fun c => match column_of df c with
                     | Some col => [(c, col)]
                     | None => []
                     end) (df_columns df).

Definition has (f : frame) (c : string) : bool :=
  existsb (fun kv => String.eqb (fst kv) c) f.

Fixpoint get (f : frame) (c : string) : option column :=
  match f with
  | [] => None
  | (c', v) :: r => if String.eqb c' c then Some v else get r c
  end.

(** [f[c] = v]: replaces the column in place or appends it. *)
Fixpoint set (f : frame) (c : string) (v : column) : frame :=
  match f with
  | [] => [(c, v)]
  | (c', v') :: r =>
      if String.eqb c' c then (c', v) :: r else (c', v') :: set r c v
  end.

(** A scalar assigned to a column. *)
Definition scalar (n : nat) (v : Q) : column := NumCol (repeat (Some v) n).

(** The 0/1 column of [mask.astype(int)]. *)
Definition of_mask (mask : list bool) : column :=
  NumCol (map (fun b : bool => Some (if b then 1%Q else 0%Q)) mask).

(** Comparison of a cell with a constant: [False] on NaN. *)
Definition lt_c (x : num) (c : Q) : bool :=
  match x with Some v => Np.Qltb v c | None => false end.
Definition gt_c (x : num) (c : Q) : bool :=
  match x with Some v => Np.Qltb c v | None => false end.

(** [Series.shift(k)]. *)
Definition shift (k : nat) (xs : list num) : list num :=
  firstn (length xs) (repeat None k ++ xs).

Fixpoint all_some (xs : list num) : option (list Q) :=
  match xs with
  | [] => Some []
  | Some x :: r => match all_some r with
                   | Some l => Some (x :: l)
                   | None => None
                   end
  | None :: _ => None
  end.

(** The window of [rolling(w)] that ends at row [i]: it needs [w]
    observations, none of them NaN. *)
Definition window_at (w : nat) (xs : list num) (i : nat) : option (list Q) :=
  if (S i <? w)%nat then None
  else all_some (firstn w (skipn (S i - w) xs)).

Definition rolling (w : nat) (agg : list Q -> num) (xs : list num) : list num :=
  map (fun i => match window_at w xs i with
                | Some v => agg v
                | None => None
                end) (seq 0 (length xs)).

(** Sample variance ([ddof=1]). *)
Definition var (v : list Q) : num :=
  match Np.mean v with
  | Some m =>
      if (length v <=? 1)%nat then None
      else Some (Np.sum (map (fun x => (x - m) * (x - m))%Q v)
                 / inject_Z (Z.of_nat (length v - 1)))%Q
  | None => None
  end.

Definition std (h : Host) (v : list Q) : num :=
  match var v with
  | Some x => Some (np_sqrt h x)
  | None => None
  end.

(** [Series.mean()]: NaN cells are skipped. *)
Definition mean_skipna (xs : list num) : num :=
  Np.mean (flat_map (fun x => match x with Some v => [v] | None => [] end) xs).

Definition fillna0 (x : num) : Q :=
  match x with Some v => v | None => 0%Q end.

(** Sorted distinct values, as [get_dummies] orders the levels. *)
Fixpoint insert_str (x : string) (l : list string) : list string :=
  match l with
  | [] => [x]
  | y :: r => if String.eqb x y then l
              else if String.leb x y then x :: l else y :: insert_str x r
  end.

Fixpoint insert_num (x : Q) (l : list Q) : list Q :=
  match l with
  | [] => [x]
  | y :: r => if Qeq_bool x y then l
              else if Qle_bool x y then x :: l else y :: insert_num x r
  end.

(** The dummy columns of one encoded column, named [prefix_level]. *)
Definition dummies (h : Host) (prefix : string) (c : column) : frame :=
  match c with
  | StrCol xs =>
      map (fun level =>
             (prefix ++ "_" ++ level, of_mask (map (String.eqb level) xs))%string)
          (fold_right insert_str [] xs)
  | NumCol xs =>
      map (fun level =>
             (prefix ++ "_" ++ py_str h level,
              of_mask (map (fun x => match x with
                                     | Some v => Qeq_bool v level
                                     | None => false
                                     end) xs))%string)
          (fold_right insert_num []
             (flat_map (fun x => match x with Some v => [v] | None => [] end) xs))
  | DateCol _ => []
  end.

(** [pd.get_dummies(f, columns=cs, drop_first=False)]: the other columns
    in their order, then the dummies of each encoded column. *)
Definition get_dummies (h : Host) (f : frame) (cs : list string) : frame :=
  filter (fun kv => negb (existsb (String.eqb (fst kv)) cs)) f
  ++ flat_map (fun c => match get f c with
                        | Some col => dummies h c col
                        | None => []
                        end) cs.

(** [f.fillna(0)] followed by the selection of the numeric columns whose
    name is not in [exclude]. *)
Definition numeric_matrix (f : frame) (exclude : list string) : Matrix :=
  flat_map (fun kv => match snd kv with
                      | NumCol xs =>
                          if existsb (String.eqb (fst kv)) exclude then []
                          else [(fst kv, map fillna0 xs)]
                      | _ => []
                      end) f.

(** [pd.date_range(start, periods=n, freq='D')]. *)
Definition date_range (start : date) (periods : nat) : list date :=
  map (fun i => (start + Z.of_nat i)%Z) (seq 0 periods).

End Pd.

(** ** [backend/data_utils.py]: selection of a product and a location *)
Module DataUtils.

Local Open Scope string_scope.
Local Open Scope list_scope.

(** [x and x != "All"] for an optional argument: [None] and the empty
    string are false. *)
Definition selects (x : option string) : bool :=
  match x with
  | Some v => negb (v =? "") && negb (v =? "All")
  | None => false
  end.

Definition value_of (x : option string) : string :=
  match x with Some v => v | None => "" end.

(** [df[df[c] == v]] on the product or location column: [KeyError] when the
    column is missing. *)
Definition where_eq (df : DataFrame) (c : string) (field : Row -> string)
    (v : string) : outcome DataFrame :=
  if Pd.df_has df c
  then Returned (mk_df (df_columns df)
                   (filter (fun r => field r =? v) (df_rows df)))
  else Raised.

Definition filter_data (df : option DataFrame) (product location : option string)
  : outcome (option DataFrame) :=
  match df with
  | None => Returned None
  | Some df =>
      let filtered_df := df in
      filtered_df <-
        (if selects product
         then where_eq filtered_df "product" r_product (value_of product)
         else Returned filtered_df) ;;
      filtered_df <-
        (if selects location
         then where_eq filtered_df "location" r_location (value_of location)
         else Returned filtered_df) ;;
      Returned (Some filtered_df)
  end.

End DataUtils.

(** ** Models and process state *)

(** A loaded model: [predict] may raise; [predict_proba] is present on
    classifiers and returns one row of class probabilities per input row. *)
Record Model : Type := mk_model {
  predict : Matrix -> outcome (list Q);
  predict_proba : option (Matrix -> outcome (list (list Q)))
}.

(** The NumPy global generator: the unit samples it will deliver next. *)
Definition rng : Type := nat -> Q.

(** The process state the core reads: the two cached model handles
    ([None]: not loaded) and the generator. *)
Record World : Type := mk_world {
  forecast_model : option Model;
  risk_model : option Model;
  generator : rng
}.

(** [np.random.uniform(low, high, n)]: [n] samples are consumed. *)
Definition uniform (low high : Q) (n : nat) (g : rng) : list Q * rng :=
  (map (fun i => low + (high - low) * g i)%Q (seq 0 n),
   fun i => g (n + i)%nat).

(** ** [backend/disruption.py] *)
Module Disruption.

Local Open Scope string_scope.
Local Open Scope list_scope.

Definition expected_features : list string :=
  ["temperature"; "rainfall"; "congestion_index"; "extreme_temp";
   "heavy_rain"; "high_congestion"; "day_of_week"; "month"; "is_weekend"].

Definition num_of_Z (z : Z) : num := Some (inject_Z z).

(** The derived risk features added to a copy of the input. *)
Definition risk_features (h : Host) (input_df : DataFrame) : frame :=
  let feature_df := Pd.to_frame input_df in
  let feature_df :=
    match Pd.get feature_df "temperature" with
    | Some (NumCol t) =>
        Pd.set feature_df "extreme_temp"
          (Pd.of_mask (map (fun x => Pd.lt_c x 0 || Pd.gt_c x 35) t))
    | _ => feature_df
    end in
  let feature_df :=
    match Pd.get feature_df "rainfall" with
    | Some (NumCol r) =>
        Pd.set feature_df "heavy_rain"
          (Pd.of_mask (map (fun x => Pd.gt_c x 50) r))
    | _ => feature_df
    end in
  let feature_df :=
    match Pd.get feature_df "congestion_index" with
    | Some (NumCol c) =>
        Pd.set feature_df "high_congestion"
          (Pd.of_mask (map (fun x => Pd.gt_c x 0.7) c))
    | _ => feature_df
    end in
  match Pd.get feature_df "date" with
  | Some (DateCol d) =>
      let day_of_week := map (dt_dayofweek h) d in
      let feature_df :=
        Pd.set feature_df "day_of_week" (NumCol (map num_of_Z day_of_week)) in
      let feature_df :=
        Pd.set feature_df "month" (NumCol (map num_of_Z (map (dt_month h) d))) in
      Pd.set feature_df "is_weekend"
        (Pd.of_mask (map (fun x => (x =? 5)%Z || (x =? 6)%Z) day_of_week))
  | _ => feature_df
  end.

(** [feature_df[cols].fillna(0)]. *)
Definition select_filled (f : frame) (cols : list string) : Matrix :=
  flat_map (fun c => match Pd.get f c with
                     | Some (NumCol xs) => [(c, map Pd.fillna0 xs)]
                     | _ => []
                     end) cols.

(** [proba[:, 1]]: [IndexError] when a row has no second entry. *)
Fixpoint column1 (rows : list (list Q)) : outcome (list Q) :=
  match rows with
  | [] => Returned []
  | r :: rs =>
      x <- index r 1 ;;
      xs <- column1 rs ;;
      Returned (x :: xs)
  end.

Definition predict_disruption (h : Host) (w : World) (input_df : DataFrame)
  : list Q * World :=
  match risk_model w with
  | None =>
      let (dummy, g) := uniform 0.1 0.4 (Pd.len input_df) (generator w) in
      (dummy, mk_world (forecast_model w) (risk_model w) g)
  | Some model =>
      let feature_df := risk_features h input_df in
      let available_features := filter (Pd.has feature_df) expected_features in
      if (length available_features =? 0)%nat then
        (Np.full (Pd.len input_df) 0.3, w)
      else
        let X := select_filled feature_df available_features in
        let attempt :=
          match predict_proba model with
          | Some proba => rows <- proba X ;; column1 rows
          | None =>
              predictions <- predict model X ;;
              Returned (Np.clip predictions 0 1)
          end in
        match attempt with
        | Returned predictions => (predictions, w)
        | Raised => (Np.full (Pd.len input_df) 0.3, w)
        end
  end.

(** The triple [(start_date, end_date, num_safe_days)]; the sentinel is
    [(None, None, 0)]. *)
Definition window : Type := (option date * option date * nat)%type.
Definition no_window : window := (None, None, 0%nat).

Definition safe_groups (risk_probabilities : list Q) (threshold : Q)
  : list (list nat) :=
  let safe_indices := Np.where_ (Np.less risk_probabilities threshold) in
  Np.split safe_indices
    (Np.add1 (Np.where_ (Np.neq1 (Np.diff safe_indices)))).

Definition calculate_safe_purchase_window
    (dates : list date) (risk_probabilities : list Q) (threshold : Q)
  : outcome window :=
  if ((length dates =? 0) || (length risk_probabilities =? 0))%nat then
    Returned no_window
  else
    let safe_indices := Np.where_ (Np.less risk_probabilities threshold) in
    if (length safe_indices =? 0)%nat then Returned no_window
    else
      match safe_groups risk_probabilities threshold with
      | [] => Raised (* max() of an empty sequence *)
      | g :: gs =>
          let longest_group := max_by_len g gs in
          if (length longest_group =? 0)%nat then Returned no_window
          else
            start_idx <- index longest_group 0 ;;
            end_idx <- index longest_group (length longest_group - 1) ;;
            start_date <- index dates start_idx ;;
            end_date <- index dates end_idx ;;
            Returned (Some start_date, Some end_date, length longest_group)
      end.

(** *** The window as the specification words it *)

(** Index [i] is safe: it exists and its risk is strictly below the
    threshold. *)
Definition below (risk : list Q) (t : Q) (i : nat) : Prop :=
  exists r, nth_error risk i = Some r /\ (r < t)%Q.

(** [s..e] is a run of consecutive safe positions. *)
Definition safe_run (risk : list Q) (t : Q) (s e : nat) : Prop :=
  (s <= e)%nat /\ forall i, (s <= i <= e)%nat -> below risk t i.

(** [s..e] is a maximal run of greatest length, the earliest such. *)
Definition longest_earliest_run (risk : list Q) (t : Q) (s e : nat) : Prop :=
  safe_run risk t s e
  /\ ~ below risk t (S e)
  /\ (forall p, S p = s -> ~ below risk t p)
  /\ forall s' e', safe_run risk t s' e' ->
       (e' - s' <= e - s)%nat /\ ((e' - s' = e - s)%nat -> (s <= s')%nat).

(** *** [get_risk_level_label] *)

(** The five labels; the decoration that precedes the words of a label is
    not modelled. *)
Inductive risk_level : Type := VeryLow | Low | Moderate | High | VeryHigh.

Definition level_words (l : risk_level) : string :=
  match l with
  | VeryLow => "Very Low"
  | Low => "Low"
  | Moderate => "Moderate"
  | High => "High"
  | VeryHigh => "Very High"
  end.

Definition level_rank (l : risk_level) : nat :=
  match l with
  | VeryLow => 0
  | Low => 1
  | Moderate => 2
  | High => 3
  | VeryHigh => 4
  end.

Definition get_risk_level_label (risk_prob : Q) : risk_level :=
  if Np.Qltb risk_prob 0.2 then VeryLow
  else if Np.Qltb risk_prob 0.4 then Low
  else if Np.Qltb risk_prob 0.6 then Moderate
  else if Np.Qltb risk_prob 0.8 then High
  else VeryHigh.

End Disruption.

(** ** [backend/forecasting.py] *)
Module Forecasting.

Local Open Scope string_scope.
Local Open Scope list_scope.

Definition nat_str (n : nat) : string :=
  NilEmpty.string_of_uint (Nat.to_uint n).

Definition num_of_Z (z : Z) : num := Some (inject_Z z).

(** Steps 1 to 7 of the feature engineering, on a copy of the input. *)
Definition forecast_features (h : Host) (input_df : DataFrame) : frame :=
  let n := Pd.len input_df in
  let feature_df := Pd.to_frame input_df in
  (* 1. time features *)
  let feature_df :=
    match Pd.get feature_df "date" with
    | Some (DateCol d) =>
        let f := Pd.set feature_df "dow"
                   (NumCol (map num_of_Z (map (dt_dayofweek h) d))) in
        let f := Pd.set f "week"
                   (NumCol (map num_of_Z (map (dt_isoweek h) d))) in
        let f := Pd.set f "month"
                   (NumCol (map num_of_Z (map (dt_month h) d))) in
        Pd.set f "year" (NumCol (map num_of_Z (map (dt_year h) d)))
    | _ => feature_df
    end in
  (* 2. lag features *)
  let feature_df :=
    match Pd.get feature_df "units_sold" with
    | Some (NumCol u) =>
        fold_left (fun f lag =>
                     Pd.set f ("lag_" ++ nat_str lag) (NumCol (Pd.shift lag u)))
                  [7; 14; 28]%nat feature_df
    | _ =>
        fold_left (fun f lag => Pd.set f ("lag_" ++ nat_str lag) (Pd.scalar n 0))
                  [7; 14; 28]%nat feature_df
    end in
  (* 3. rolling statistics *)
  let feature_df :=
    match Pd.get feature_df "units_sold" with
    | Some (NumCol u) =>
        fold_left (fun f window =>
                     let f := Pd.set f ("roll_mean_" ++ nat_str window)
                                (NumCol (Pd.rolling window Np.mean (Pd.shift 1 u))) in
                     Pd.set f ("roll_std_" ++ nat_str window)
                       (NumCol (Pd.rolling window (Pd.std h) (Pd.shift 1 u))))
                  [7; 28]%nat feature_df
    | _ =>
        fold_left (fun f window =>
                     let f := Pd.set f ("roll_mean_" ++ nat_str window)
                                (Pd.scalar n 0) in
                     Pd.set f ("roll_std_" ++ nat_str window) (Pd.scalar n 0))
                  [7; 28]%nat feature_df
    end in
  (* 4. numeric features exist *)
  let feature_df :=
    fold_left (fun f feat =>
                 if Pd.has f feat then f else Pd.set f feat (Pd.scalar n 0))
              ["temperature"; "rainfall"; "congestion_index"] feature_df in
  (* 5. categorical features exist *)
  let categorical_features :=
    ["product"; "location"; "holiday_flag"; "promotion_flag"] in
  let feature_df :=
    fold_left (fun f feat =>
                 if Pd.has f feat then f
                 else Pd.set f feat
                        (if existsb (String.eqb feat) ["product"; "location"]
                         then StrCol (repeat "Unknown" n)
                         else Pd.scalar n 0))
              categorical_features feature_df in
  (* 6. one-hot encoding; 7. fillna(0) is applied with the selection *)
  Pd.get_dummies h feature_df categorical_features.

Definition forecast_demand (h : Host) (w : World) (input_df : DataFrame)
  : list Q :=
  match forecast_model w with
  | None => Np.zeros (Pd.len input_df)
  | Some model =>
      let feature_df := forecast_features h input_df in
      (* 8. numeric columns, without the date and the target *)
      let X := Pd.numeric_matrix feature_df ["date"; "units_sold"] in
      if (length X =? 0)%nat then Np.zeros (Pd.len input_df)
      else
        match predict model X with
        | Returned predictions => map (fun p => Np.maximum p 0) predictions
        | Raised => Np.zeros (Pd.len input_df)
        end
  end.

(** [now] is [pd.Timestamp.now()]; [historical_df] may be [None]. *)
Definition create_future_dataframe
    (now : date) (historical_df : option DataFrame) (horizon_days : nat)
  : DataFrame :=
  match historical_df with
  | None => Pd.empty
  | Some hist =>
      match df_rows hist with
      | [] => Pd.empty
      | first_row :: other_rows =>
          let last_date :=
            if Pd.df_has hist "date"
            then fold_left Z.max (map r_date other_rows) (r_date first_row)
            else now in
          let future_dates := Pd.date_range (last_date + 1)%Z horizon_days in
          let recent_data := Pd.tail 60 hist in
          let temperature :=
            if Pd.df_has recent_data "temperature"
            then Pd.mean_skipna (map r_temperature (df_rows recent_data))
            else Some 20%Q in
          let rainfall :=
            if Pd.df_has recent_data "rainfall"
            then Pd.mean_skipna (map r_rainfall (df_rows recent_data))
            else Some 0%Q in
          let congestion_index :=
            if Pd.df_has recent_data "congestion_index"
            then Pd.mean_skipna (map r_congestion_index (df_rows recent_data))
            else Some 0.5%Q in
          let last_row := last (df_rows hist) first_row in
          let units_sold :=
            if Pd.df_has hist "units_sold"
            then Pd.mean_skipna (map r_units_sold (df_rows (Pd.tail 30 hist)))
            else Some 0%Q in
          mk_df (["date"; "temperature"; "rainfall"; "holiday_flag";
                  "promotion_flag"; "congestion_index"]
                 ++ (if Pd.df_has hist "product" then ["product"] else [])
                 ++ (if Pd.df_has hist "location" then ["location"] else [])
                 ++ ["units_sold"])
                (map (fun d =>
                        mk_row d temperature rainfall (Some 0%Q) (Some 0%Q)
                          congestion_index (r_product last_row)
                          (r_location last_row) units_sold)
                     future_dates)
      end
  end.

End Forecasting.

(** ** [backend/scenario_simulation.py] *)

(** A Python [dict] with string keys, in insertion order. *)
Definition dict (V : Type) : Type := list (string * V).

Fixpoint dict_get {V : Type} (d : dict V) (k : string) : option V :=
  match d with
  | [] => None
  | (k', v) :: r => if String.eqb k' k then Some v else dict_get r k
  end.

(** [d.get(k, default)]. *)
Definition dict_get_or {V : Type} (d : dict V) (k : string) (default : V) : V :=
  match dict_get d k with
  | Some v => v
  | None => default
  end.

(** A value is a probability. *)
Definition in01 (x : Q) : Prop := (0 <= x)%Q /\ (x <= 1)%Q.

Module Scenario.

Local Open Scope string_scope.
Local Open Scope list_scope.

Record scenario : Type := mk_scenario {
  name : string;
  description : string;
  demand_multiplier : dict Q;
  risk_adjustment : dict Q
}.

Definition SCENARIOS : dict scenario :=
  [ ("festival_spike",
     mk_scenario "Festival Demand Spike"
       "Increased demand during festival season"
       [("low", 1.2%Q); ("medium", 1.5%Q); ("high", 2.0%Q)]
       [("low", 0.05%Q); ("medium", 0.1%Q); ("high", 0.15%Q)]);
    ("bad_weather",
     mk_scenario "Bad Weather Conditions"
       "Heavy rainfall or extreme temperatures"
       [("low", 0.95%Q); ("medium", 0.85%Q); ("high", 0.7%Q)]
       [("low", 0.1%Q); ("medium", 0.2%Q); ("high", 0.35%Q)]);
    ("logistics_delay",
     mk_scenario "Logistics Delay"
       "Supply chain disruption or delivery delays"
       [("low", 1.0%Q); ("medium", 1.0%Q); ("high", 1.0%Q)]
       [("low", 0.15%Q); ("medium", 0.3%Q); ("high", 0.5%Q)]);
    ("promotion",
     mk_scenario "Promotional Campaign"
       "Marketing promotion or discount offer"
       [("low", 1.3%Q); ("medium", 1.6%Q); ("high", 2.2%Q)]
       [("low", 0.0%Q); ("medium", 0.05%Q); ("high", 0.1%Q)]);
    ("competitor_action",
     mk_scenario "Competitor Action"
       "Competitor launches similar product or promotion"
       [("low", 0.9%Q); ("medium", 0.75%Q); ("high", 0.6%Q)]
       [("low", 0.05%Q); ("medium", 0.1%Q); ("high", 0.15%Q)]) ].

Definition get_available_scenarios : dict string :=
  map (fun kv => (fst kv, name (snd kv))) SCENARIOS.

Definition apply_scenario
    (demand_forecast risk_forecast : list Q)
    (scenario_type severity : string) : list Q * list Q :=
  match dict_get SCENARIOS scenario_type with
  | None => (demand_forecast, risk_forecast)
  | Some scenario =>
      let demand_mult := dict_get_or (demand_multiplier scenario) severity 1.0%Q in
      let modified_demand := map (fun d => d * demand_mult)%Q demand_forecast in
      let risk_adj := dict_get_or (risk_adjustment scenario) severity 0.0%Q in
      let modified_risk :=
        Np.clip (map (fun r => r + risk_adj)%Q risk_forecast) 0 1 in
      (modified_demand, modified_risk)
  end.

(** The recommendation text, one constructor per line that the function
    may append; numbers and dates are kept as values, their formatting
    ([%Y-%m-%d], one decimal) is not modelled. *)
Inductive line : Type :=
| RecommendedActions
| HighAlert
| SuggestedActions
| IncreaseSafetyStock
| ActivateBackupSuppliers
| PostponeOrders
| MonitorSituation
| WindowIdentified
| From (d : date)
| To (d : date)
| Duration (days : nat)
| PlaceOrders
| ExpectedAverageDemand (avg : option Q)
| MaintainHigherStock
| PrepareContingency.

(** [x > c] for a value that may be NaN. *)
Definition gt_nan (x : option Q) (c : Q) : bool :=
  match x with
  | Some v => Np.Qltb c v
  | None => false
  end.

Definition get_recommendation
    (modified_demand modified_risk : list Q) (dates : list date)
    (risk_threshold : Q) : outcome (list line) :=
  let avg_demand := Np.mean modified_demand in
  let avg_risk := Np.mean modified_risk in
  max_risk <- Np.max modified_risk ;;
  let safe_indices := Np.where_ (Np.less modified_risk risk_threshold) in
  let recommendation := [RecommendedActions] in
  if (length safe_indices =? 0)%nat then
    Returned (recommendation
              ++ [HighAlert; SuggestedActions; IncreaseSafetyStock;
                  ActivateBackupSuppliers; PostponeOrders; MonitorSituation])
  else
    start_idx <- index safe_indices 0 ;;
    end_idx <- index safe_indices (length safe_indices - 1) ;;
    start_date <- index dates start_idx ;;
    end_date <- index dates end_idx ;;
    Returned (recommendation
              ++ [WindowIdentified; From start_date; To end_date;
                  Duration (length safe_indices);
                  SuggestedActions; PlaceOrders;
                  ExpectedAverageDemand avg_demand]
              ++ (if gt_nan avg_risk 0.5%Q then [MaintainHigherStock] else [])
              ++ (if Np.Qltb 0.7%Q max_risk then [PrepareContingency] else [])).

(** *** The scenario registry as the specification words it *)

Inductive scenario_id : Type :=
| FestivalSpike | BadWeather | LogisticsDelay | Promotion | CompetitorAction.

Inductive severity_tier : Type := Low | Medium | High.

Definition scenario_key (s : scenario_id) : string :=
  match s with
  | FestivalSpike => "festival_spike"
  | BadWeather => "bad_weather"
  | LogisticsDelay => "logistics_delay"
  | Promotion => "promotion"
  | CompetitorAction => "competitor_action"
  end.

Definition severity_key (v : severity_tier) : string :=
  match v with
  | Low => "low"
  | Medium => "medium"
  | High => "high"
  end.

Definition registry_demand_multiplier (s : scenario_id) (v : severity_tier) : Q :=
  match s, v with
  | FestivalSpike, Low => 1.2 | FestivalSpike, Medium => 1.5
  | FestivalSpike, High => 2.0
  | BadWeather, Low => 0.95 | BadWeather, Medium => 0.85
  | BadWeather, High => 0.7
  | LogisticsDelay, _ => 1.0
  | Promotion, Low => 1.3 | Promotion, Medium => 1.6 | Promotion, High => 2.2
  | CompetitorAction, Low => 0.9 | CompetitorAction, Medium => 0.75
  | CompetitorAction, High => 0.6
  end%Q.

Definition registry_risk_adjustment (s : scenario_id) (v : severity_tier) : Q :=
  match s, v with
  | FestivalSpike, Low => 0.05 | FestivalSpike, Medium => 0.1
  | FestivalSpike, High => 0.15
  | BadWeather, Low => 0.1 | BadWeather, Medium => 0.2
  | BadWeather, High => 0.35
  | LogisticsDelay, Low => 0.15 | LogisticsDelay, Medium => 0.3
  | LogisticsDelay, High => 0.5
  | Promotion, Low => 0.0 | Promotion, Medium => 0.05 | Promotion, High => 0.1
  | CompetitorAction, Low => 0.05 | CompetitorAction, Medium => 0.1
  | CompetitorAction, High => 0.15
  end%Q.

(** [clamp(x, lo, hi)]. *)
Definition clamp (x lo hi : Q) : Q :=
  if Np.Qltb x lo then lo else if Np.Qltb hi x then hi else x.

Definition severity_tiers : list string := ["low"; "medium"; "high"].

(** *** [get_scenario_description] *)

Inductive demand_verdict : Type :=
| SignificantIncrease
| ModerateIncrease
| SignificantDecrease
| ModerateDecrease
| DemandStable.

Inductive risk_verdict : Type :=
| VeryHighRisk
| ElevatedRisk
| SlightlyIncreasedRisk
| RiskUnchanged.

(** The parts of the description text: the scenario name, the severity
    (shown in upper case), the scenario description, the two percentages
    (shown with one decimal), whether the demand percentage carries a plus
    sign, and the two interpretation lines. *)
Record impact : Type := mk_impact {
  i_name : string;
  i_severity : string;
  i_description : string;
  i_demand_change : Q;
  i_demand_plus : bool;
  i_risk_change : Q;
  i_demand_line : demand_verdict;
  i_risk_line : risk_verdict
}.

Inductive scenario_text : Type :=
| UnknownScenario
| Impact (i : impact).

Definition get_scenario_description (scenario_type severity : string)
  : scenario_text :=
  match dict_get SCENARIOS scenario_type with
  | None => UnknownScenario
  | Some scenario =>
      let demand_mult := dict_get_or (demand_multiplier scenario) severity 1.0%Q in
      let risk_adj := dict_get_or (risk_adjustment scenario) severity 0.0%Q in
      let demand_change := ((demand_mult - 1) * 100)%Q in
      let risk_change := (risk_adj * 100)%Q in
      Impact
        (mk_impact (name scenario) severity (description scenario)
           demand_change (Np.Qltb 0 demand_change) risk_change
           (if Np.Qltb 20 demand_change then SignificantIncrease
            else if Np.Qltb 0 demand_change then ModerateIncrease
            else if Np.Qltb demand_change (-20) then SignificantDecrease
            else if Np.Qltb demand_change 0 then ModerateDecrease
            else DemandStable)
           (if Np.Qltb 30 risk_change then VeryHighRisk
            else if Np.Qltb 15 risk_change then ElevatedRisk
            else if Np.Qltb 0 risk_change then SlightlyIncreasedRisk
            else RiskUnchanged))
  end.

End Scenario.

(** ** [apply_scenario] in binary64 arithmetic *)

(** NumPy computes on binary64 values.  Where the exact value of a result
    matters, so does the rounding: this second embedding of
    [apply_scenario] computes on primitive binary64 floats.  A decimal
    literal denotes the nearest binary64 value, as a Python literal does. *)
Set Warnings "-inexact-float".

Module Scenario64.

Import PrimFloat.
Local Open Scope string_scope.
Local Open Scope list_scope.
Local Open Scope float_scope.

Record scenario : Type := mk_scenario {
  name : string;
  description : string;
  demand_multiplier : dict float;
  risk_adjustment : dict float
}.

Definition SCENARIOS : dict scenario :=
  [ ("festival_spike",
     mk_scenario "Festival Demand Spike"
       "Increased demand during festival season"
       [("low", 1.2); ("medium", 1.5); ("high", 2.0)]
       [("low", 0.05); ("medium", 0.1); ("high", 0.15)]);
    ("bad_weather",
     mk_scenario "Bad Weather Conditions"
       "Heavy rainfall or extreme temperatures"
       [("low", 0.95); ("medium", 0.85); ("high", 0.7)]
       [("low", 0.1); ("medium", 0.2); ("high", 0.35)]);
    ("logistics_delay",
     mk_scenario "Logistics Delay"
       "Supply chain disruption or delivery delays"
       [("low", 1.0); ("medium", 1.0); ("high", 1.0)]
       [("low", 0.15); ("medium", 0.3); ("high", 0.5)]);
    ("promotion",
     mk_scenario "Promotional Campaign"
       "Marketing promotion or discount offer"
       [("low", 1.3); ("medium", 1.6); ("high", 2.2)]
       [("low", 0.0); ("medium", 0.05); ("high", 0.1)]);
    ("competitor_action",
     mk_scenario "Competitor Action"
       "Competitor launches similar product or promotion"
       [("low", 0.9); ("medium", 0.75); ("high", 0.6)]
       [("low", 0.05); ("medium", 0.1); ("high", 0.15)]) ].

(** [np.clip(x, lo, hi)] on one value: NaN stays NaN; otherwise the larger
    of the value and [lo], then the smaller of that and [hi]. *)
Definition clip1 (x lo hi : float) : float :=
  let raised := if is_nan x then x else if lo <? x then x else lo in
  if is_nan raised then raised else if raised <? hi then raised else hi.

Definition clip (arr : list float) (lo hi : float) : list float :=
  map (fun x => clip1 x lo hi) arr.

Definition apply_scenario
    (demand_forecast risk_forecast : list float)
    (scenario_type severity : string) : list float * list float :=
  match dict_get SCENARIOS scenario_type with
  | None => (demand_forecast, risk_forecast)
  | Some scenario =>
      let demand_mult := dict_get_or (demand_multiplier scenario) severity 1.0 in
      let modified_demand := map (fun d => d * demand_mult) demand_forecast in
      let risk_adj := dict_get_or (risk_adjustment scenario) severity 0.0 in
      let modified_risk :=
        clip (map (fun r => r + risk_adj) risk_forecast) 0 1 in
      (modified_demand, modified_risk)
  end.

(** The binary64 value nearest to a rational whose numerator and
    denominator are below 2^53: both convert exactly and the division
    rounds once. *)
Definition of_Q (q : Q) : float :=
  let n := of_uint63 (Uint63.of_Z (Z.abs (Qnum q))) in
  let d := of_uint63 (Uint63.of_Z (Zpos (Qden q))) in
  if (Qnum q <? 0)%Z then - (n / d) else n / d.

(** The registry as the specification words it, in binary64. *)
Definition registry_demand_multiplier
    (s : Scenario.scenario_id) (v : Scenario.severity_tier) : float :=
  of_Q (Scenario.registry_demand_multiplier s v).

Definition registry_risk_adjustment
    (s : Scenario.scenario_id) (v : Scenario.severity_tier) : float :=
  of_Q (Scenario.registry_risk_adjustment s v).

End Scenario64.

(** ** One analysis against the process state *)

Inductive request : Type :=
| DemandForecast (input_df : DataFrame)
| RiskForecast (input_df : DataFrame)
| WindowSearch (dates : list date) (risk : list Q) (threshold : Q)
| ScenarioApplication (demand risk : list Q) (scenario_type severity : string).

Inductive response : Type :=
| Series (s : list Q)
| Window (o : outcome Disruption.window)
| Adjusted (p : list Q * list Q).

(** An invocation returns its result and leaves the process state to the
    next one. *)
Definition serve (h : Host) (w : World) (r : request) : response * World :=
  match r with
  | DemandForecast input_df => (Series (Forecasting.forecast_demand h w input_df), w)
  | RiskForecast input_df =>
      let (s, w') := Disruption.predict_disruption h w input_df in (Series s, w')
  | WindowSearch dates risk threshold =>
      (Window (Disruption.calculate_safe_purchase_window dates risk threshold), w)
  | ScenarioApplication demand risk scenario_type severity =>
      (Adjusted (Scenario.apply_scenario demand risk scenario_type severity), w)
  end.

Definition uses_risk_model (r : request) : bool :=
  match r with
  | RiskForecast _ => true
  | _ => false
  end.

(** The generator delivers samples of the unit interval [0, 1). *)
Definition unit_samples (g : rng) : Prop :=
  forall i, (0 <= g i)%Q /\ (g i < 1)%Q.

(** The positive-class probabilities that a classifier returns are
    probabilities. *)
Definition probabilities (m : Model) : Prop :=
  forall proba X rows,
    predict_proba m = Some proba -> proba X = Returned rows ->
    Forall (fun row => forall p, nth_error row 1 = Some p -> in01 p) rows.

(** ** Values for evaluation *)

(** A host whose accessors answer 0; the evaluated examples do not depend
    on it. *)
Definition null_host : Host :=
  mk_host (fun _ => 0%Z) (fun _ => 0%Z) (fun _ => 0%Z) (fun _ => 0%Z)
    (fun x => x) (fun _ => EmptyString).

Definition sample_row (d : date) : Row :=
  mk_row d (Some 21%Q) (Some 0%Q) (Some 0%Q) (Some 0%Q) (Some 0.4%Q)
    "Chairs"%string "Pune"%string (Some 12%Q).

Definition sample_columns : list string :=
  ["date"; "temperature"; "rainfall"; "holiday_flag"; "promotion_flag";
   "congestion_index"; "product"; "location"; "units_sold"]%string.

Definition sample_frame (n : nat) : DataFrame :=
  mk_df sample_columns (map sample_row (Pd.date_range 0%Z n)).

(** No model loaded; the generator delivers 0, 1/2, 2/3, 3/4, ... *)
Definition bare_world : World :=
  mk_world None None
    (fun i => match i with
              | O => 0%Q
              | S _ => (Z.of_nat i # Pos.of_nat (S i))
              end).

(** A regressor that answers three values, one of them negative. *)
Definition sample_regressor : Model :=
  mk_model (fun X => Returned [12%Q; (-3)%Q; 7%Q]) None.

(** A classifier that answers three rows of class probabilities. *)
Definition sound_classifier : Model :=
  mk_model (fun _ => Raised)
    (Some (fun X => Returned [[0.8%Q; 0.2%Q]; [0.4%Q; 0.6%Q]; [0.9%Q; 0.1%Q]])).

(** A classifier whose second column is not a probability. *)
Definition loose_classifier : Model :=
  mk_model (fun _ => Raised)
    (Some (fun X => Returned [[(-0.5)%Q; 1.5%Q]])).

(** ** Auxiliary definitions for the window search *)

(** Strictly ascending, every element at least [lo]. *)
Fixpoint ascending (lo : nat) (l : list nat) : Prop :=
  match l with
  | [] => True
  | a :: t => (lo <= a)%nat /\ ascending (S a) t
  end.

(** The cut positions [np.where(np.diff(l) != 1)[0] + 1], computed in one
    pass; [k] is the position of the head of [l]. *)
Fixpoint cuts_from (k : nat) (l : list nat) : list nat :=
  match l with
  | a :: ((b :: _) as t) =>
      if negb (Z.of_nat b - Z.of_nat a =? 1)%Z
      then S k :: cuts_from (S k) t
      else cuts_from (S k) t
  | _ => []
  end.

(** Grouping of consecutive indices in one pass; [cur] is the group being
    built. *)
Fixpoint group_consecutive (cur : list nat) (l : list nat) : list (list nat) :=
  match l with
  | [] => [cur]
  | a :: t =>
      match t with
      | [] => [cur ++ [a]]
      | b :: _ =>
          if negb (Z.of_nat b - Z.of_nat a =? 1)%Z
          then (cur ++ [a]) :: group_consecutive [] t
          else group_consecutive (cur ++ [a]) t
      end
  end.

(** Every group is a non-empty interval, and consecutive groups leave at
    least one index between them; [lo] bounds the first start. *)
Fixpoint groups_ok (lo : nat) (gs : list (list nat)) : Prop :=
  match gs with
  | [] => True
  | g :: r =>
      exists a l, g = seq a (S l) /\ (lo <= a)%nat /\ groups_ok (a + S l + 1) r
  end.

(** ** Auxiliary definitions for the recommendation *)

(** [i] is the first, respectively the last, safe index. *)
Definition first_safe (risk : list Q) (t : Q) (i : nat) : Prop :=
  Disruption.below risk t i /\ forall j, Disruption.below risk t j -> (i <= j)%nat.

Definition last_safe (risk : list Q) (t : Q) (i : nat) : Prop :=
  Disruption.below risk t i /\ forall j, Disruption.below risk t j -> (j <= i)%nat.

(** The safe days are consecutive: no unsafe day lies between two safe
    ones. *)
Definition safe_days_contiguous (risk : list Q) (t : Q) : Prop :=
  forall i j k, Disruption.below risk t i -> Disruption.below risk t k ->
                (i <= j <= k)%nat -> Disruption.below risk t j.

(** Number of entries strictly below the threshold. *)
Definition safe_count (risk : list Q) (t : Q) : nat :=
  length (filter (fun r => Np.Qltb r t) risk).

(** The two advisory lines that depend on the mean and the peak risk. *)
Definition advisories (risk : list Q) (peak : Q) : list Scenario.line :=
  (if Scenario.gt_nan (Np.mean risk) 0.5%Q
   then [Scenario.MaintainHigherStock] else [])
  ++ (if Np.Qltb 0.7%Q peak then [Scenario.PrepareContingency] else []).

Definition high_alert : list Scenario.line :=
  [Scenario.RecommendedActions; Scenario.HighAlert; Scenario.SuggestedActions;
   Scenario.IncreaseSafetyStock; Scenario.ActivateBackupSuppliers;
   Scenario.PostponeOrders; Scenario.MonitorSituation].

(** ** Auxiliary definitions for the feature frames *)

(** The steps of [Forecasting.forecast_features], one function each. *)
Definition with_time_features (h : Host) (f : frame) : frame :=
  match Pd.get f "date" with
  | Some (DateCol d) =>
      let f := Pd.set f "dow"
                 (NumCol (map Forecasting.num_of_Z (map (dt_dayofweek h) d))) in
      let f := Pd.set f "week"
                 (NumCol (map Forecasting.num_of_Z (map (dt_isoweek h) d))) in
      let f := Pd.set f "month"
                 (NumCol (map Forecasting.num_of_Z (map (dt_month h) d))) in
      Pd.set f "year" (NumCol (map Forecasting.num_of_Z (map (dt_year h) d)))
  | _ => f
  end.

Definition with_lags (n : nat) (f : frame) : frame :=
  match Pd.get f "units_sold" with
  | Some (NumCol u) =>
      fold_left (fun f lag =>
                   Pd.set f ("lag_" ++ Forecasting.nat_str lag)
                     (NumCol (Pd.shift lag u)))
                [7; 14; 28]%nat f
  | _ =>
      fold_left (fun f lag =>
                   Pd.set f ("lag_" ++ Forecasting.nat_str lag) (Pd.scalar n 0))
                [7; 14; 28]%nat f
  end.

Definition with_rolling (h : Host) (n : nat) (f : frame) : frame :=
  match Pd.get f "units_sold" with
  | Some (NumCol u) =>
      fold_left (fun f window =>
                   let f := Pd.set f ("roll_mean_" ++ Forecasting.nat_str window)
                              (NumCol (Pd.rolling window Np.mean (Pd.shift 1 u))) in
                   Pd.set f ("roll_std_" ++ Forecasting.nat_str window)
                     (NumCol (Pd.rolling window (Pd.std h) (Pd.shift 1 u))))
                [7; 28]%nat f
  | _ =>
      fold_left (fun f window =>
                   let f := Pd.set f ("roll_mean_" ++ Forecasting.nat_str window)
                              (Pd.scalar n 0) in
                   Pd.set f ("roll_std_" ++ Forecasting.nat_str window)
                     (Pd.scalar n 0))
                [7; 28]%nat f
  end.

Definition with_numeric (n : nat) (f : frame) : frame :=
  fold_left (fun f feat =>
               if Pd.has f feat then f else Pd.set f feat (Pd.scalar n 0))
            ["temperature"; "rainfall"; "congestion_index"]%string f.

Definition categorical_features : list string :=
  ["product"; "location"; "holiday_flag"; "promotion_flag"]%string.

Definition with_categorical (n : nat) (f : frame) : frame :=
  fold_left (fun f feat =>
               if Pd.has f feat then f
               else Pd.set f feat
                      (if existsb (String.eqb feat) ["product"; "location"]%string
                       then StrCol (repeat "Unknown"%string n)
                       else Pd.scalar n 0))
            categorical_features f.

(** The feature matrix that [forecast_demand] hands to the model. *)
Definition forecast_matrix (h : Host) (input_df : DataFrame) : Matrix :=
  Pd.numeric_matrix (Forecasting.forecast_features h input_df)
    ["date"; "units_sold"]%string.

(** The steps of [Disruption.risk_features]. *)
Definition with_flag (src dst : string) (test : num -> bool) (f : frame)
  : frame :=
  match Pd.get f src with
  | Some (NumCol xs) => Pd.set f dst (Pd.of_mask (map test xs))
  | _ => f
  end.

Definition with_calendar (h : Host) (f : frame) : frame :=
  match Pd.get f "date" with
  | Some (DateCol d) =>
      let day_of_week := map (dt_dayofweek h) d in
      let f :=
        Pd.set f "day_of_week" (NumCol (map Disruption.num_of_Z day_of_week)) in
      let f :=
        Pd.set f "month"
          (NumCol (map Disruption.num_of_Z (map (dt_month h) d))) in
      Pd.set f "is_weekend"
        (Pd.of_mask (map (fun x => (x =? 5)%Z || (x =? 6)%Z) day_of_week))
  | _ => f
  end.

(** The feature matrix that [predict_disruption] hands to the model. *)
Definition risk_matrix (h : Host) (input_df : DataFrame) : Matrix :=
  let feature_df := Disruption.risk_features h input_df in
  Disruption.select_filled feature_df
    (filter (Pd.has feature_df) Disruption.expected_features).

(** What [predict_disruption] does with a loaded model once a feature is
    available. *)
Definition risk_attempt (model : Model) (X : Matrix) : outcome (list Q) :=
  match predict_proba model with
  | Some proba => rows <- proba X ;; Disruption.column1 rows
  | None =>
      predictions <- predict model X ;;
      Returned (Np.clip predictions 0 1)
  end.

(** The expected risk features that [predict_disruption] derives from
    another column. *)
Definition derived_risk_features : list string :=
  ["extreme_temp"; "heavy_rain"; "high_congestion"; "day_of_week"; "month";
   "is_weekend"]%string.

(** The input carries no column under the name of a derived risk feature. *)
Definition no_derived_features (df : DataFrame) : bool :=
  forallb (fun k => negb (Pd.df_has df k)) derived_risk_features.

(** The input column from which an expected risk feature is derived. *)
Definition feature_source (k : string) : string :=
  if existsb (String.eqb k) ["temperature"; "extreme_temp"]%string
  then "temperature"%string
  else if existsb (String.eqb k) ["rainfall"; "heavy_rain"]%string
  then "rainfall"%string
  else if existsb (String.eqb k) ["congestion_index"; "high_congestion"]%string
  then "congestion_index"%string
  else "date"%string.

(** The columns of a frame that carry one of the given names are numeric. *)
Definition numeric_names (ks : list string) (f : frame) : Prop :=
  forall k c, In k ks -> In (k, c) f -> exists xs, c = NumCol xs.

(** The columns that every future frame of a non-empty history has. *)
Definition future_columns : list string :=
  ["date"; "temperature"; "rainfall"; "holiday_flag"; "promotion_flag";
   "congestion_index"; "units_sold"]%string.

(** A row passes the selection of a product and a location. *)
Definition row_selected (product location : option string) (r : Row) : bool :=
  (negb (DataUtils.selects product)
   || String.eqb (r_product r) (DataUtils.value_of product))
  && (negb (DataUtils.selects location)
      || String.eqb (r_location r) (DataUtils.value_of location)).

(** A frame holds a numeric column of the given name. *)
Definition has_numeric (k : string) (f : frame) : Prop :=
  exists xs, In (k, NumCol xs) f.

(** Number of cells of a column, and frames whose columns all have [n]
    cells. *)
Definition column_length (c : column) : nat :=
  match c with
  | NumCol xs => length xs
  | StrCol xs => length xs
  | DateCol xs => length xs
  end.

Definition frame_rows (n : nat) (f : frame) : Prop :=
  forall k c, In (k, c) f -> column_length c = n.

Definition matrix_rows (n : nat) (X : Matrix) : Prop :=
  forall k xs, In (k, xs) X -> length xs = n.

(* ================================================================== *)
(** * Part II: proofs *)
(* ================================================================== *)

Example safe_window_spec_example :
  Disruption.calculate_safe_purchase_window
    [0; 1; 2; 3; 4; 5; 6; 7]%Z
    [0.1; 0.4; 0.2; 0.2; 0.5; 0.1; 0.1; 0.1]%Q 0.3%Q
  = Returned (Some 5%Z, Some 7%Z, 3%nat).
Proof. reflexivity. Qed.

Example safe_window_strict_example :
  Disruption.calculate_safe_purchase_window [0; 1]%Z [0.3; 0.3]%Q 0.3%Q
  = Returned Disruption.no_window.
Proof. reflexivity. Qed.

(** ** Comparison of rationals *)

Lemma Qltb_lt (x y : Q) : Np.Qltb x y = true <-> (x < y)%Q.
Proof. unfold Np.Qltb, Qlt. apply Z.ltb_lt. Qed.

Lemma Qltb_ge (x y : Q) : Np.Qltb x y = false <-> (y <= x)%Q.
Proof. unfold Np.Qltb, Qle. apply Z.ltb_ge. Qed.

(** ** Safe indices *)

Lemma In_where_from (mask : list bool) :
  forall k i, In i (Np.where_from k mask) <->
              (k <= i)%nat /\ nth_error mask (i - k) = Some true.
Proof.
  induction mask as [|b m IH]; intros k i; simpl.
  - split; [tauto|]. intros [_ H]. destruct (i - k)%nat; discriminate.
  - assert (Hm : In i (Np.where_from (S k) m) <->
                 (k <= i)%nat /\ i <> k /\
                 nth_error (b :: m) (i - k) = Some true).
    { rewrite IH. split.
      - intros [Hle Hn]. repeat split; try lia.
        replace (i - k)%nat with (S (i - S k)) by lia. exact Hn.
      - intros (Hle & Hne & Hn).
        replace (i - k)%nat with (S (i - S k)) in Hn by lia.
        split; [lia | exact Hn]. }
    destruct b; simpl; rewrite Hm.
    + split.
      * intros [<- | H]; [|tauto]. rewrite Nat.sub_diag. auto.
      * intros [Hle Hn]. destruct (Nat.eq_dec k i); [auto|right].
        repeat split; auto.
    + split; [tauto|]. intros [Hle Hn].
      repeat split; auto. intros ->. rewrite Nat.sub_diag in Hn. discriminate.
Qed.

Lemma where_from_ascending (mask : list bool) :
  forall k, ascending k (Np.where_from k mask).
Proof.
  induction mask as [|b m IH]; intros k; simpl; [exact I|].
  assert (Hw : forall lo l, ascending (S lo) l -> ascending lo l).
  { intros lo [|a t]; simpl; [tauto|]. intros [? ?]; split; [lia|auto]. }
  destruct b; simpl; auto.
Qed.

Lemma In_safe_indices (risk : list Q) (t : Q) (i : nat) :
  In i (Np.where_ (Np.less risk t)) <-> Disruption.below risk t i.
Proof.
  unfold Np.where_, Np.less, Disruption.below.
  rewrite In_where_from, Nat.sub_0_r, nth_error_map.
  split.
  - intros [_ H]. destruct (nth_error risk i) as [r|]; [|discriminate].
    exists r. split; [reflexivity|]. apply Qltb_lt.
    simpl in H. congruence.
  - intros (r & -> & Hr). split; [lia|]. simpl.
    apply Qltb_lt in Hr. now rewrite Hr.
Qed.

(** ** The NumPy grouping is the one-pass grouping *)

Lemma cuts_from_correct (l : list nat) :
  forall k, Np.add1 (Np.where_from k (Np.neq1 (Np.diff l))) = cuts_from k l.
Proof.
  induction l as [|a t IH]; intros k; [reflexivity|].
  destruct t as [|b t']; [reflexivity|].
  change (Np.diff (a :: b :: t'))
    with ((Z.of_nat b - Z.of_nat a)%Z :: Np.diff (b :: t')).
  change (cuts_from k (a :: b :: t'))
    with (if negb (Z.of_nat b - Z.of_nat a =? 1)%Z
          then S k :: cuts_from (S k) (b :: t')
          else cuts_from (S k) (b :: t')).
  unfold Np.neq1, Np.add1 in *. cbn [map Np.where_from].
  destruct (negb (Z.of_nat b - Z.of_nat a =? 1)%Z); cbn [map];
    rewrite <- IH; reflexivity.
Qed.

Lemma split_from_group (l : list nat) :
  forall pre cur,
    Np.split_from (length pre) (pre ++ cur ++ l)
      (cuts_from (length pre + length cur) l)
    = group_consecutive cur l.
Proof.
  induction l as [|a t IH]; intros pre cur.
  - simpl. rewrite app_nil_r, skipn_app, skipn_all, Nat.sub_diag. reflexivity.
  - destruct t as [|b t'].
    + simpl. rewrite skipn_app, skipn_all, Nat.sub_diag. reflexivity.
    + change (cuts_from (length pre + length cur) (a :: b :: t'))
        with (if negb (Z.of_nat b - Z.of_nat a =? 1)%Z
              then S (length pre + length cur)
                   :: cuts_from (S (length pre + length cur)) (b :: t')
              else cuts_from (S (length pre + length cur)) (b :: t')).
      change (group_consecutive cur (a :: b :: t'))
        with (if negb (Z.of_nat b - Z.of_nat a =? 1)%Z
              then (cur ++ [a]) :: group_consecutive [] (b :: t')
              else group_consecutive (cur ++ [a]) (b :: t')).
      destruct (negb (Z.of_nat b - Z.of_nat a =? 1)%Z).
      * cbn [Np.split_from]. f_equal.
        -- unfold Np.slice. rewrite skipn_app, skipn_all, Nat.sub_diag.
           cbn [skipn app].
           replace (S (length pre + length cur) - length pre)%nat
             with (length (cur ++ [a]))
             by (rewrite length_app; cbn [length]; lia).
           replace (cur ++ a :: b :: t') with ((cur ++ [a]) ++ b :: t')
             by (rewrite <- app_assoc; reflexivity).
           rewrite firstn_app, firstn_all, Nat.sub_diag. cbn [firstn].
           apply app_nil_r.
        -- rewrite <- (IH (pre ++ cur ++ [a]) []).
           assert (E : length (pre ++ cur ++ [a])
                       = S (length pre + length cur))
             by (rewrite !length_app; cbn [length]; lia).
           rewrite E. cbn [length]. rewrite Nat.add_0_r.
           rewrite <- !app_assoc. reflexivity.
      * rewrite <- (IH pre (cur ++ [a])).
        assert (E : (length pre + length (cur ++ [a]))%nat
                    = S (length pre + length cur))
          by (rewrite !length_app; cbn [length]; lia).
        rewrite E, <- !app_assoc. reflexivity.
Qed.

Lemma safe_groups_group (risk : list Q) (t : Q) :
  Disruption.safe_groups risk t
  = group_consecutive [] (Np.where_ (Np.less risk t)).
Proof.
  unfold Disruption.safe_groups, Np.split, Np.where_ at 2.
  rewrite cuts_from_correct.
  exact (split_from_group (Np.where_ (Np.less risk t)) [] []).
Qed.

(** ** Shape of the groups *)

Lemma groups_ok_weaken (gs : list (list nat)) (lo lo' : nat) :
  (lo <= lo')%nat -> groups_ok lo' gs -> groups_ok lo gs.
Proof.
  destruct gs as [|g r]; simpl; [tauto|].
  intros Hle (a & l & Hg & Ha & Hr). exists a, l. repeat split; auto. lia.
Qed.

Lemma group_consecutive_ok (t : list nat) :
  forall a c k,
    ascending (S a) t -> (c + k = a)%nat ->
    groups_ok c (group_consecutive (seq c k) (a :: t))
    /\ concat (group_consecutive (seq c k) (a :: t)) = seq c k ++ a :: t.
Proof.
  induction t as [|b t' IH]; intros a c k Hasc Hck.
  - cbn [group_consecutive concat]. rewrite app_nil_r. split; [|reflexivity].
    subst a. rewrite <- seq_S. exists c, k. repeat split; auto.
  - destruct Hasc as [Hab Hasc].
    change (group_consecutive (seq c k) (a :: b :: t'))
      with (if negb (Z.of_nat b - Z.of_nat a =? 1)%Z
            then (seq c k ++ [a]) :: group_consecutive [] (b :: t')
            else group_consecutive (seq c k ++ [a]) (b :: t')).
    assert (Hseq : seq c k ++ [a] = seq c (S k))
      by (subst a; symmetry; apply seq_S).
    destruct (Z.eqb_spec (Z.of_nat b - Z.of_nat a) 1) as [E|E]; cbn [negb].
    + rewrite Hseq. destruct (IH b c (S k) Hasc ltac:(lia)) as [H1 H2].
      split; [exact H1|]. rewrite H2, <- Hseq, <- app_assoc. reflexivity.
    + destruct (IH b b 0%nat Hasc ltac:(lia)) as [H1 H2].
      cbn [seq] in H1, H2. split.
      * rewrite Hseq. exists c, k. repeat split; auto.
        apply groups_ok_weaken with (lo' := b); [lia | exact H1].
      * cbn [concat]. rewrite H2, <- app_assoc. reflexivity.
Qed.

Lemma groups_ok_lower (gs : list (list nat)) :
  forall lo x, groups_ok lo gs -> In x (concat gs) -> (lo <= x)%nat.
Proof.
  induction gs as [|g r IH]; intros lo x; cbn [groups_ok concat In]; [tauto|].
  intros (a & l & -> & Ha & Hr) Hin. apply in_app_or in Hin.
  destruct Hin as [Hin|Hin].
  - apply in_seq in Hin. lia.
  - specialize (IH _ _ Hr Hin). lia.
Qed.

Lemma groups_ok_In (gs : list (list nat)) :
  forall lo g, groups_ok lo gs -> In g gs ->
               exists a l, g = seq a (S l) /\ (lo <= a)%nat.
Proof.
  induction gs as [|g0 r IH]; intros lo g; cbn [groups_ok concat In]; [tauto|].
  intros (a & l & -> & Ha & Hr) [<-|Hin].
  - exists a, l. auto.
  - destruct (IH _ _ Hr Hin) as (a' & l' & -> & Ha').
    exists a', l'. split; [reflexivity | lia].
Qed.

(** Neither neighbour of a group belongs to any group. *)
Lemma groups_ok_maximal (gs : list (list nat)) :
  forall lo a l, groups_ok lo gs -> In (seq a (S l)) gs ->
    ~ In (a + S l)%nat (concat gs)
    /\ forall p, S p = a -> ~ In p (concat gs).
Proof.
  induction gs as [|g0 r IH]; intros lo a l; cbn [groups_ok concat In]; [tauto|].
  intros (a0 & l0 & -> & Ha0 & Hr) Hin.
  assert (Hlow : forall x, In x (concat r) -> (a0 + S l0 + 1 <= x)%nat)
    by (intros x; apply groups_ok_lower; exact Hr).
  destruct Hin as [E|Hin].
  - assert (a0 = a /\ l0 = l) as [-> ->].
    { pose proof (f_equal (@length nat) E) as HL. rewrite !length_seq in HL.
      cbn [seq] in E. split; [congruence | lia]. }
    split.
    + intros H. apply in_app_or in H. destruct H as [H|H].
      * apply in_seq in H. lia.
      * apply Hlow in H. lia.
    + intros p Hp H. apply in_app_or in H. destruct H as [H|H].
      * apply in_seq in H. lia.
      * apply Hlow in H. lia.
  - destruct (groups_ok_In _ _ _ Hr Hin) as (a' & l' & E & Ha').
    assert (a' = a /\ l' = l) as [-> ->].
    { pose proof (f_equal (@length nat) E) as HL. rewrite !length_seq in HL.
      cbn [seq] in E. split; [congruence | lia]. }
    destruct (IH _ _ _ Hr Hin) as [H1 H2]. split.
    + intros H. apply in_app_or in H. destruct H as [H|H].
      * apply in_seq in H. lia.
      * exact (H1 H).
    + intros p Hp H. apply in_app_or in H. destruct H as [H|H].
      * apply in_seq in H. lia.
      * exact (H2 p Hp H).
Qed.

(** Later groups start later. *)
Lemma groups_ok_suffix (pre : list (list nat)) :
  forall lo gs, groups_ok lo (pre ++ gs) -> exists lo', groups_ok lo' gs.
Proof.
  induction pre as [|g r IH]; intros lo gs; cbn [app groups_ok].
  - intros H. exists lo. exact H.
  - intros (a & l & _ & _ & Hr). exact (IH _ _ Hr).
Qed.

Lemma groups_ok_later (a l : nat) (post : list (list nat)) (lo : nat) :
  groups_ok lo (seq a (S l) :: post) ->
  forall a' l', In (seq a' (S l')) post -> (a < a')%nat.
Proof.
  cbn [groups_ok]. intros (a0 & l0 & E & _ & Hr) a' l' Hin.
  assert (a0 = a /\ l0 = l) as [-> ->].
  { pose proof (f_equal (@length nat) E) as HL. rewrite !length_seq in HL.
    cbn [seq] in E. split; [congruence | lia]. }
  destruct (groups_ok_In _ _ _ Hr Hin) as (a1 & l1 & E1 & Ha1).
  cbn [seq] in E1. injection E1 as -> _. lia.
Qed.

(** ** [max(groups, key=len)] *)

Lemma max_by_len_first {A : Type} (rest : list (list A)) :
  forall pre best mid,
    (forall g, In g pre -> (length g < length best)%nat) ->
    (forall g, In g mid -> (length g <= length best)%nat) ->
    exists pre' post',
      pre ++ best :: mid ++ rest = pre' ++ max_by_len best rest :: post'
      /\ (forall g, In g pre' -> (length g < length (max_by_len best rest))%nat)
      /\ (forall g, In g post' -> (length g <= length (max_by_len best rest))%nat).
Proof.
  induction rest as [|g r IH]; intros pre best mid Hpre Hmid.
  - exists pre, mid. cbn [max_by_len]. rewrite app_nil_r. auto.
  - cbn [max_by_len]. destruct (Nat.ltb_spec (length best) (length g)) as [H|H].
    + destruct (IH (pre ++ best :: mid) g []) as (pre' & post' & E & H1 & H2).
      * intros x Hx. apply in_app_or in Hx. destruct Hx as [Hx|[<-|Hx]].
        -- specialize (Hpre _ Hx). lia.
        -- exact H.
        -- specialize (Hmid _ Hx). lia.
      * intros x [].
      * exists pre', post'. split; [|auto].
        rewrite <- E, <- app_assoc. reflexivity.
    + destruct (IH pre best (mid ++ [g])) as (pre' & post' & E & H1 & H2).
      * exact Hpre.
      * intros x Hx. apply in_app_or in Hx. destruct Hx as [Hx|[<-|[]]].
        -- exact (Hmid _ Hx).
        -- exact H.
      * exists pre', post'. split; [|auto].
        rewrite <- E, <- app_assoc. reflexivity.
Qed.

(** ** The window returned by [calculate_safe_purchase_window] *)

Lemma seq_inj (a l a' l' : nat) :
  seq a (S l) = seq a' (S l') -> a = a' /\ l = l'.
Proof.
  intros E. pose proof (f_equal (@length nat) E) as HL.
  rewrite !length_seq in HL. cbn [seq] in E. split; [congruence | lia].
Qed.

Lemma below_lt_length (risk : list Q) (t : Q) (i : nat) :
  Disruption.below risk t i -> (i < length risk)%nat.
Proof.
  intros (r & Hr & _). apply nth_error_Some. congruence.
Qed.

(** The groups of a non-empty set of safe indices, and the one that
    [max] selects. *)
Lemma longest_group_run (risk : list Q) (t : Q) (i0 : nat) :
  Disruption.below risk t i0 ->
  exists g gs s l,
    Disruption.safe_groups risk t = g :: gs
    /\ max_by_len g gs = seq s (S l)
    /\ Disruption.longest_earliest_run risk t s (s + l).
Proof.
  intros Hi0. rewrite safe_groups_group.
  pose proof (In_safe_indices risk t) as Hidx.
  pose proof (where_from_ascending (Np.less risk t) 0) as Hasc.
  fold (Np.where_ (Np.less risk t)) in Hasc.
  remember (Np.where_ (Np.less risk t)) as idx eqn:Eidx. clear Eidx.
  destruct idx as [|a tl]; [exfalso; apply (proj2 (Hidx i0) Hi0)|].
  destruct Hasc as [_ Hasc].
  destruct (group_consecutive_ok tl a a 0%nat Hasc (Nat.add_0_r a))
    as [Hok Hcat].
  cbn [seq app] in Hok, Hcat.
  remember (group_consecutive [] (a :: tl)) as groups eqn:Eg. clear Eg.
  destruct groups as [|g gs]; [discriminate Hcat|].
  destruct (max_by_len_first gs [] g []) as (pre & post & E & Hpre & Hpost).
  { intros x []. }
  { intros x []. }
  cbn [app] in E.
  assert (Hin : In (max_by_len g gs) (g :: gs))
    by (rewrite E; apply in_elt).
  destruct (groups_ok_In _ _ _ Hok Hin) as (s & l & Hr & _).
  exists g, gs, s, l. split; [reflexivity|]. split; [exact Hr|].
  rewrite Hr in *. clear Hr.
  destruct (groups_ok_maximal _ _ _ _ Hok Hin) as [Hnext Hprev].
  rewrite Hcat in Hnext, Hprev.
  assert (Hmem : forall x, In x (concat (g :: gs)) <-> Disruption.below risk t x)
    by (intros x; rewrite Hcat; apply Hidx).
  assert (Hgrp : forall x g', In g' (g :: gs) -> In x g' ->
                              Disruption.below risk t x).
  { intros x g' Hg' Hx. apply Hmem, in_concat. exists g'. auto. }
  repeat split.
  - lia.
  - intros i Hi. apply (Hgrp i _ Hin), in_seq. lia.
  - intros H. apply Hnext, Hidx.
    replace (s + S l)%nat with (S (s + l)) by lia. exact H.
  - intros p Hp H. apply (Hprev p Hp), Hidx. exact H.
  - destruct H as [Hse Hrun].
    assert (Hs' : Disruption.below risk t s') by (apply Hrun; lia).
    apply Hmem, in_concat in Hs'. destruct Hs' as (g' & Hg' & Hs'g).
    destruct (groups_ok_In _ _ _ Hok Hg') as (a' & l' & -> & _).
    destruct (groups_ok_maximal _ _ _ _ Hok Hg') as [Hnext' _].
    apply in_seq in Hs'g.
    assert (He' : (e' < a' + S l')%nat).
    { destruct (Nat.lt_ge_cases e' (a' + S l')) as [|Hge]; [assumption|].
      exfalso. apply Hnext', Hmem, Hrun. lia. }
    assert (Hlen : (S l' <= S l)%nat).
    { rewrite E in Hg'. apply in_app_or in Hg'.
      destruct Hg' as [Hg'|[Hg'|Hg']].
      - specialize (Hpre _ Hg'). rewrite !length_seq in Hpre. lia.
      - apply seq_inj in Hg'. lia.
      - specialize (Hpost _ Hg'). rewrite !length_seq in Hpost. lia. }
    lia.
  - intros Heq. destruct H as [Hse Hrun].
    assert (Hs' : Disruption.below risk t s') by (apply Hrun; lia).
    apply Hmem, in_concat in Hs'. destruct Hs' as (g' & Hg' & Hs'g).
    destruct (groups_ok_In _ _ _ Hok Hg') as (a' & l' & -> & _).
    destruct (groups_ok_maximal _ _ _ _ Hok Hg') as [Hnext' _].
    apply in_seq in Hs'g.
    assert (He' : (e' < a' + S l')%nat).
    { destruct (Nat.lt_ge_cases e' (a' + S l')) as [|Hge]; [assumption|].
      exfalso. apply Hnext', Hmem, Hrun. lia. }
    rewrite E in Hg', Hok. apply in_app_or in Hg'.
    destruct Hg' as [Hg'|[Hg'|Hg']].
    + specialize (Hpre _ Hg'). rewrite !length_seq in Hpre. lia.
    + apply seq_inj in Hg'. lia.
    + destruct (groups_ok_suffix _ _ _ Hok) as (lo' & Hok').
      pose proof (groups_ok_later _ _ _ _ Hok' _ _ Hg') as Hlt.
      specialize (Hpost _ Hg'). rewrite !length_seq in Hpost. lia.
Qed.

Lemma window_found (dates : list date) (risk : list Q) (t : Q) :
  length dates = length risk ->
  forall i0, Disruption.below risk t i0 ->
  exists s e ds de,
    Disruption.longest_earliest_run risk t s e
    /\ nth_error dates s = Some ds
    /\ nth_error dates e = Some de
    /\ Disruption.calculate_safe_purchase_window dates risk t
       = Returned (Some ds, Some de, S (e - s))
    /\ forall i r, (s <= i <= e)%nat -> nth_error risk i = Some r ->
                   ~ (r == t)%Q.
Proof.
  intros Hlen i0 Hi0. unfold Disruption.calculate_safe_purchase_window.
  destruct (longest_group_run risk t i0 Hi0)
    as (g & gs & s & l & Eg & Emax & Hrun).
  pose proof Hrun as (Hsafe & _).
  assert (Hs : Disruption.below risk t s) by (apply Hsafe; lia).
  assert (He : Disruption.below risk t (s + l)) by (apply Hsafe; lia).
  apply below_lt_length in Hs, He.
  destruct (nth_error dates s) as [ds|] eqn:Eds;
    [|apply nth_error_None in Eds; lia].
  destruct (nth_error dates (s + l)) as [de|] eqn:Ede;
    [|apply nth_error_None in Ede; lia].
  exists s, (s + l)%nat, ds, de.
  split; [exact Hrun|]. split; [exact Eds|]. split; [exact Ede|]. split.
  - assert (E0 : (length dates =? 0)%nat = false) by (apply Nat.eqb_neq; lia).
    assert (E1 : (length risk =? 0)%nat = false) by (apply Nat.eqb_neq; lia).
    rewrite E0, E1. cbn [orb].
    assert (E2 : (length (Np.where_ (Np.less risk t)) =? 0)%nat = false).
    { apply Nat.eqb_neq. intros H. apply length_zero_iff_nil in H.
      apply In_safe_indices in Hi0. rewrite H in Hi0. exact Hi0. }
    rewrite E2, Eg, Emax, length_seq. cbn [Nat.eqb].
    unfold index. rewrite !nth_error_seq.
    replace (S l - 1)%nat with l by lia.
    assert (E3 : (l <? S l)%nat = true) by (apply Nat.ltb_lt; lia).
    rewrite E3. change (0 <? S l)%nat with true.
    cbn [bind]. rewrite Nat.add_0_r, Eds. cbn [bind]. rewrite Ede.
    cbn [bind]. do 3 f_equal. lia.
  - intros i r Hi Hr Heq.
    destruct (proj2 Hsafe i Hi) as (r' & Hr' & Hlt).
    rewrite Hr in Hr'. injection Hr' as <-.
    rewrite Heq in Hlt. exact (Qlt_irrefl t Hlt).
Qed.

(** C1. For dates and risks of equal length, the function returns the
    longest maximal run of indices whose risk is strictly below the
    threshold, the earliest one among runs of that length, with its start
    date, end date and length; it returns [(None, None, 0)] when no index is
    below the threshold or when a sequence is empty; an index whose risk
    equals the threshold is never inside the returned window. *)
Theorem safe_window_longest_earliest (dates : list date) (risk : list Q) (t : Q) :
  ((dates = [] \/ risk = []) ->
   Disruption.calculate_safe_purchase_window dates risk t
   = Returned Disruption.no_window)
  /\ ((forall i, ~ Disruption.below risk t i) ->
      Disruption.calculate_safe_purchase_window dates risk t
      = Returned Disruption.no_window)
  /\ (length dates = length risk ->
      forall i0, Disruption.below risk t i0 ->
      exists s e ds de,
        Disruption.longest_earliest_run risk t s e
        /\ nth_error dates s = Some ds
        /\ nth_error dates e = Some de
        /\ Disruption.calculate_safe_purchase_window dates risk t
           = Returned (Some ds, Some de, S (e - s))
        /\ forall i r, (s <= i <= e)%nat -> nth_error risk i = Some r ->
                       ~ (r == t)%Q).
Proof.
  unfold Disruption.calculate_safe_purchase_window. repeat split.
  - intros [-> | ->]; [reflexivity|].
    cbn [length]. rewrite Nat.eqb_refl, orb_true_r. reflexivity.
  - intros Hnone.
    assert (E : Np.where_ (Np.less risk t) = []).
    { destruct (Np.where_ (Np.less risk t)) as [|a tl] eqn:Ew; [reflexivity|].
      exfalso. apply (Hnone a), In_safe_indices. rewrite Ew. left. reflexivity. }
    rewrite E. cbn [length Nat.eqb].
    destruct ((length dates =? 0)%nat || (length risk =? 0)%nat); reflexivity.
  - exact (window_found dates risk t).
Qed.

Lemma safe_window_longest_earliest_witness :
  Disruption.calculate_safe_purchase_window [] [0.1%Q] 0.3%Q
  = Returned Disruption.no_window
  /\ Disruption.calculate_safe_purchase_window [0; 1]%Z [0.3; 0.3]%Q 0.3%Q
     = Returned Disruption.no_window
  /\ exists s e ds de,
       Disruption.longest_earliest_run
         [0.1; 0.4; 0.2; 0.2; 0.5; 0.1; 0.1; 0.1]%Q 0.3%Q s e
       /\ nth_error [0; 1; 2; 3; 4; 5; 6; 7]%Z s = Some ds
       /\ nth_error [0; 1; 2; 3; 4; 5; 6; 7]%Z e = Some de
       /\ Disruption.calculate_safe_purchase_window
            [0; 1; 2; 3; 4; 5; 6; 7]%Z
            [0.1; 0.4; 0.2; 0.2; 0.5; 0.1; 0.1; 0.1]%Q 0.3%Q
          = Returned (Some ds, Some de, S (e - s))
       /\ forall i r, (s <= i <= e)%nat ->
            nth_error [0.1; 0.4; 0.2; 0.2; 0.5; 0.1; 0.1; 0.1]%Q i = Some r ->
            ~ (r == 0.3)%Q.
Proof.
  split; [|split].
  - apply (proj1 (safe_window_longest_earliest [] [0.1%Q] 0.3%Q)).
    left. reflexivity.
  - apply (proj1 (proj2 (safe_window_longest_earliest
                           [0; 1]%Z [0.3; 0.3]%Q 0.3%Q))).
    intros i (r & Hr & Hlt).
    destruct i as [|[|i]]; cbn [nth_error] in Hr;
      [| |destruct i; discriminate Hr];
      injection Hr as <-; vm_compute in Hlt; discriminate Hlt.
  - refine (proj2 (proj2 (safe_window_longest_earliest
              [0; 1; 2; 3; 4; 5; 6; 7]%Z
              [0.1; 0.4; 0.2; 0.2; 0.5; 0.1; 0.1; 0.1]%Q 0.3%Q))
            eq_refl 0%nat _).
    exists 0.1%Q. split; reflexivity.
Defined.

(** ** Clipping *)

Ltac qcase a b :=
  let E := fresh "E" in
  destruct (Np.Qltb a b) eqn:E;
  [apply Qltb_lt in E | apply Qltb_ge in E].

Lemma clip1_clamp (x : Q) :
  (Np.clip1 x 0 1 == Scenario.clamp x 0 1)%Q.
Proof.
  unfold Np.clip1, Np.minimum, Np.maximum, Scenario.clamp.
  qcase x 0%Q.
  - qcase 0%Q 1%Q; lra.
  - qcase x 1%Q; qcase 1%Q x; lra.
Qed.

Lemma clip1_in01 (x : Q) : in01 (Np.clip1 x 0 1).
Proof.
  unfold in01, Np.clip1, Np.minimum, Np.maximum.
  qcase x 0%Q.
  - qcase 0%Q 1%Q; lra.
  - qcase x 1%Q; lra.
Qed.

Lemma clip1_id (x : Q) : in01 x -> (Np.clip1 x 0 1 == x)%Q.
Proof.
  unfold in01, Np.clip1, Np.minimum, Np.maximum. intros [H0 H1].
  qcase x 0%Q.
  - qcase 0%Q 1%Q; lra.
  - qcase x 1%Q; lra.
Qed.

Lemma clip1_raise (r a : Q) :
  in01 r -> (0 <= a)%Q -> (r <= Np.clip1 (r + a) 0 1)%Q.
Proof.
  unfold in01, Np.clip1, Np.minimum, Np.maximum. intros [H0 H1] Ha.
  qcase (r + a)%Q 0%Q.
  - qcase 0%Q 1%Q; lra.
  - qcase (r + a)%Q 1%Q; lra.
Qed.

Lemma series_eq_map (f g : Q -> Q) (l : list Q) :
  (forall x, (f x == g x)%Q) -> series_eq (map f l) (map g l).
Proof.
  intros H. unfold series_eq.
  induction l as [|x l IH]; cbn [map]; constructor; auto.
Qed.

Lemma series_eq_map_id (f : Q -> Q) (l : list Q) :
  Forall (fun x => (f x == x)%Q) l -> series_eq (map f l) l.
Proof.
  unfold series_eq. induction 1; cbn [map]; constructor; auto.
Qed.

(** ** Scenario application *)

Lemma apply_scenario_known (demand risk : list Q)
      (s : Scenario.scenario_id) (v : Scenario.severity_tier) :
  Scenario.apply_scenario demand risk
    (Scenario.scenario_key s) (Scenario.severity_key v)
  = (map (fun d => d * Scenario.registry_demand_multiplier s v)%Q demand,
     Np.clip (map (fun r => r + Scenario.registry_risk_adjustment s v)%Q risk)
       0 1).
Proof. destruct s, v; reflexivity. Qed.

Section Binary64.

Import PrimFloat.

(** The binary64 registry is the registry of rationals, each value rounded
    to the nearest binary64 value. *)
Lemma registry_binary64 :
  Scenario64.SCENARIOS
  = map (fun kv =>
           (fst kv,
            Scenario64.mk_scenario (Scenario.name (snd kv))
              (Scenario.description (snd kv))
              (map (fun e => (fst e, Scenario64.of_Q (snd e)))
                 (Scenario.demand_multiplier (snd kv)))
              (map (fun e => (fst e, Scenario64.of_Q (snd e)))
                 (Scenario.risk_adjustment (snd kv)))))
      Scenario.SCENARIOS.
Proof. vm_compute. reflexivity. Qed.

(** C2, as the code has it.  For a scenario of the registry and a severity
    tier, the adjusted demand is the demand times the registry's multiplier
    and the adjusted risk is the risk plus the registry's adjustment clamped
    to [0, 1], element by element, each operation rounded to binary64.
    Demand [100] and risk [0.2] under promotion at high severity give
    [220.00000000000003] and [0.30000000000000004], the binary64 values next
    above 220.0 and 0.3. *)
Theorem apply_scenario_registry :
  (forall (demand risk : list float)
          (s : Scenario.scenario_id) (v : Scenario.severity_tier),
      Scenario64.apply_scenario demand risk
        (Scenario.scenario_key s) (Scenario.severity_key v)
      = (map (fun d => d * Scenario64.registry_demand_multiplier s v)%float
           demand,
         map (fun r =>
                Scenario64.clip1
                  (r + Scenario64.registry_risk_adjustment s v)%float
                  0%float 1%float)
           risk))
  /\ Scenario64.apply_scenario [100%float] [0.2%float]
       "promotion"%string "high"%string
     = ([220.00000000000003%float], [0.30000000000000004%float])
  /\ next_up 220%float = 220.00000000000003%float
  /\ next_up 0.3%float = 0.30000000000000004%float.
Proof.
  split; [|split; [|split]].
  - intros demand risk s v.
    rewrite <- (map_map
                  (fun r => (r + Scenario64.registry_risk_adjustment s v)%float)
                  (fun x => Scenario64.clip1 x 0%float 1%float) risk).
    destruct s, v; vm_compute; reflexivity.
  - vm_compute. reflexivity.
  - vm_compute. reflexivity.
  - vm_compute. reflexivity.
Qed.

(** Under promotion at high severity, demand [100] does not become [220.0]
    and risk [0.2] does not become [0.3]: both products of rounding differ
    from these values. *)
Lemma apply_scenario_promotion_inexact :
  let out := Scenario64.apply_scenario [100%float] [0.2%float]
               "promotion"%string "high"%string in
  fst out <> [220%float] /\ snd out <> [0.3%float].
Proof.
  cbv zeta. split; intros E.
  - apply (f_equal (fun l => match l with
                             | [x] => (x =? 220)%float
                             | _ => true
                             end)) in E.
    vm_compute in E. discriminate E.
  - apply (f_equal (fun l => match l with
                             | [x] => (x =? 0.3)%float
                             | _ => true
                             end)) in E.
    vm_compute in E. discriminate E.
Qed.

End Binary64.

(** C10. For a scenario of the registry, a severity tier and a risk series
    with values in [0, 1], the adjusted risk is at least the input risk,
    element by element. *)
Theorem scenario_never_lowers_risk (demand risk : list Q)
      (s : Scenario.scenario_id) (v : Scenario.severity_tier) :
  Forall in01 risk ->
  Forall2 Qle risk
    (snd (Scenario.apply_scenario demand risk
            (Scenario.scenario_key s) (Scenario.severity_key v))).
Proof.
  intros Hrisk. rewrite apply_scenario_known. cbn [snd].
  assert (Hadj : (0 <= Scenario.registry_risk_adjustment s v)%Q)
    by (destruct s, v; discriminate).
  unfold Np.clip. rewrite map_map.
  induction Hrisk as [|r l Hr Hl IH]; cbn [map]; constructor; auto.
  apply clip1_raise; assumption.
Qed.

Lemma scenario_never_lowers_risk_witness :
  Forall2 Qle [0.2%Q; 0.9%Q]
    (snd (Scenario.apply_scenario [100%Q; 50%Q] [0.2%Q; 0.9%Q]
            (Scenario.scenario_key Scenario.LogisticsDelay)
            (Scenario.severity_key Scenario.High))).
Proof.
  apply (scenario_never_lowers_risk [100%Q; 50%Q] [0.2%Q; 0.9%Q]
           Scenario.LogisticsDelay Scenario.High).
  repeat constructor; discriminate.
Defined.

Example scenario_clamp_example :
  snd (Scenario.apply_scenario [100%Q] [0.9%Q]
         "logistics_delay"%string "high"%string) = [1%Q].
Proof. reflexivity. Qed.

(** ** Unknown scenario or severity *)

Lemma dict_get_None {V : Type} (d : dict V) (k : string) :
  dict_get d k = None <-> ~ In k (map fst d).
Proof.
  induction d as [|[k' v] r IH]; cbn [dict_get map fst In]; [tauto|].
  destruct (String.eqb_spec k' k) as [->|Hne].
  - split; [discriminate | intros H; exfalso; apply H; left; reflexivity].
  - rewrite IH. tauto.
Qed.

Lemma registry_tiers (sc : string) (scen : Scenario.scenario) :
  dict_get Scenario.SCENARIOS sc = Some scen ->
  map fst (Scenario.demand_multiplier scen) = Scenario.severity_tiers
  /\ map fst (Scenario.risk_adjustment scen) = Scenario.severity_tiers.
Proof.
  unfold Scenario.SCENARIOS. cbn [dict_get].
  repeat (destruct (String.eqb _ sc);
          [intros E; injection E as <-; split; reflexivity|]).
  discriminate.
Qed.

Lemma clip1_plus_zero (r : Q) :
  (Np.clip1 (r + 0.0) 0 1 == Scenario.clamp r 0 1)%Q.
Proof.
  rewrite <- clip1_clamp.
  unfold Np.clip1, Np.minimum, Np.maximum.
  qcase (r + 0.0)%Q 0%Q; qcase r 0%Q; try lra.
  qcase (r + 0.0)%Q 1%Q; qcase r 1%Q; lra.
Qed.

(** C8, as the code has it.  A scenario id outside the registry returns both
    series unchanged.  A registry scenario with a severity outside low,
    medium, high leaves the demand unchanged and clamps the risk to [0, 1]:
    the risk is unchanged when its values already lie in [0, 1]. *)
Theorem apply_scenario_unknown (demand risk : list Q) (sc sev : string) :
  (~ In sc (map fst Scenario.SCENARIOS) ->
   Scenario.apply_scenario demand risk sc sev = (demand, risk))
  /\ (In sc (map fst Scenario.SCENARIOS) ->
      ~ In sev Scenario.severity_tiers ->
      let out := Scenario.apply_scenario demand risk sc sev in
      series_eq (fst out) demand
      /\ series_eq (snd out) (map (fun r => Scenario.clamp r 0 1) risk)
      /\ (Forall in01 risk -> series_eq (snd out) risk)).
Proof.
  unfold Scenario.apply_scenario. split.
  - intros H. apply dict_get_None in H. rewrite H. reflexivity.
  - intros Hin Hsev. cbv zeta.
    destruct (dict_get Scenario.SCENARIOS sc) as [scen|] eqn:E;
      [|apply dict_get_None in E; contradiction].
    destruct (registry_tiers sc scen E) as [Hd Hr].
    unfold dict_get_or.
    assert (Ed : dict_get (Scenario.demand_multiplier scen) sev = None)
      by (apply dict_get_None; rewrite Hd; exact Hsev).
    assert (Er : dict_get (Scenario.risk_adjustment scen) sev = None)
      by (apply dict_get_None; rewrite Hr; exact Hsev).
    rewrite Ed, Er. cbn [fst snd]. unfold Np.clip. rewrite map_map.
    repeat split.
    + apply series_eq_map_id. apply Forall_forall. intros x _. lra.
    + apply series_eq_map. intros r. apply clip1_plus_zero.
    + intros Hrisk. apply series_eq_map_id.
      apply Forall_forall. intros r Hr01.
      rewrite clip1_plus_zero, <- clip1_clamp. apply clip1_id.
      exact (proj1 (Forall_forall _ _) Hrisk r Hr01).
Qed.

Lemma apply_scenario_unknown_witness :
  Scenario.apply_scenario [100%Q] [0.2%Q] "nonexistent"%string "medium"%string
  = ([100%Q], [0.2%Q])
  /\ (let out := Scenario.apply_scenario [100%Q] [0.2%Q]
                   "promotion"%string "extreme"%string in
      series_eq (fst out) [100%Q]
      /\ series_eq (snd out) (map (fun r => Scenario.clamp r 0 1) [0.2%Q])
      /\ (Forall in01 [0.2%Q] -> series_eq (snd out) [0.2%Q])).
Proof.
  split.
  - apply (proj1 (apply_scenario_unknown [100%Q] [0.2%Q]
                    "nonexistent"%string "medium"%string)).
    cbn. intros H. repeat (destruct H as [H|H]; [discriminate H|]). exact H.
  - apply (proj2 (apply_scenario_unknown [100%Q] [0.2%Q]
                    "promotion"%string "extreme"%string)).
    + cbn. tauto.
    + cbn. intros H. repeat (destruct H as [H|H]; [discriminate H|]). exact H.
Defined.

(** A risk value above 1 is changed by a registry scenario applied with an
    unknown severity. *)
Lemma apply_scenario_unknown_severity_clamps :
  let out := Scenario.apply_scenario [100%Q] [1.5%Q]
               "promotion"%string "extreme"%string in
  snd out = [1%Q] /\ ~ series_eq (snd out) [1.5%Q].
Proof.
  cbv zeta. split; [reflexivity|].
  intros H. inversion H as [|x y l l' Hxy Hl]; subst.
  vm_compute in Hxy. discriminate Hxy.
Qed.

(** ** The recommendation *)

Lemma ascending_lower (l : list nat) :
  forall lo x, ascending lo l -> In x l -> (lo <= x)%nat.
Proof.
  induction l as [|a t IH]; intros lo x; cbn [ascending In]; [tauto|].
  intros [Hlo Hasc] [<-|Hin]; [exact Hlo|].
  specialize (IH _ _ Hasc Hin). lia.
Qed.

Lemma ascending_last (l : list nat) :
  forall lo x d, ascending lo l -> In x l -> (x <= last l d)%nat.
Proof.
  induction l as [|a t IH]; intros lo x d; cbn [ascending In]; [tauto|].
  intros [Hlo Hasc] Hin. destruct t as [|b t'].
  - destruct Hin as [<-|[]]. cbn [last]. lia.
  - change (last (a :: b :: t') d) with (last (b :: t') d).
    destruct Hin as [<-|Hin].
    + destruct Hasc as [Hab Hasc'].
      specialize (IH (S a) b d (conj Hab Hasc') (or_introl eq_refl)). lia.
    + exact (IH _ _ d Hasc Hin).
Qed.

Lemma last_In {A : Type} (l : list A) (d : A) : l <> [] -> In (last l d) l.
Proof.
  induction l as [|a t IH]; [congruence|]. intros _.
  destruct t as [|b t']; [left; reflexivity|].
  right. apply IH. discriminate.
Qed.

Lemma nth_error_last {A : Type} (l : list A) (d : A) :
  l <> [] -> nth_error l (length l - 1) = Some (last l d).
Proof.
  induction l as [|a t IH]; [congruence|]. intros _.
  destruct t as [|b t']; [reflexivity|].
  cbn [length] in *. rewrite Nat.sub_succ, Nat.sub_0_r in *.
  cbn [nth_error]. change (last (a :: b :: t') d) with (last (b :: t') d).
  apply IH. discriminate.
Qed.

Lemma length_where_from (mask : list bool) :
  forall k, length (Np.where_from k mask) = length (filter (fun b => b) mask).
Proof.
  induction mask as [|b m IH]; intros k; [reflexivity|].
  cbn [Np.where_from filter]. destruct b; cbn [length]; rewrite IH; reflexivity.
Qed.

Lemma length_safe_indices (risk : list Q) (t : Q) :
  length (Np.where_ (Np.less risk t)) = safe_count risk t.
Proof.
  unfold Np.where_, Np.less, safe_count. rewrite length_where_from.
  induction risk as [|r l IH]; [reflexivity|].
  cbn [map filter]. destruct (Np.Qltb r t); cbn [length]; rewrite IH; reflexivity.
Qed.

(** An ascending list that holds exactly the interval [a..b] is that
    interval. *)
Lemma ascending_interval (l : list nat) :
  forall a b, ascending a l ->
    (forall x, In x l <-> (a <= x <= b)%nat) -> l = seq a (S b - a).
Proof.
  induction l as [|c t IH]; intros a b Hasc Hmem.
  - destruct (Nat.le_gt_cases a b) as [Hle|Hgt].
    + exfalso. apply (proj2 (Hmem a)). lia.
    + replace (S b - a)%nat with 0%nat by lia. reflexivity.
  - destruct Hasc as [Hac Hasc].
    assert (Hcb : (a <= c <= b)%nat) by (apply Hmem; left; reflexivity).
    assert (Hca : c = a).
    { destruct (proj2 (Hmem a) ltac:(lia)) as [E|Hin]; [exact E|].
      pose proof (ascending_lower _ _ _ Hasc Hin). lia. }
    subst c. replace (S b - a)%nat with (S (S b - S a)) by lia.
    cbn [seq]. f_equal. apply IH; [exact Hasc|].
    intros x. split.
    + intros Hin. pose proof (ascending_lower _ _ _ Hasc Hin).
      pose proof (proj1 (Hmem x) (or_intror Hin)). lia.
    + intros Hx. destruct (proj2 (Hmem x) ltac:(lia)) as [E|Hin];
        [lia | exact Hin].
Qed.

(** First and last element of the safe indices. *)
Lemma safe_indices_ends (risk : list Q) (t : Q) (a b : nat) :
  first_safe risk t a -> last_safe risk t b ->
  let idx := Np.where_ (Np.less risk t) in
  index idx 0 = Returned a
  /\ index idx (length idx - 1) = Returned b
  /\ (length idx =? 0)%nat = false.
Proof.
  intros [Ha Hfirst] [Hb Hlast]. cbv zeta.
  pose proof (In_safe_indices risk t) as Hidx.
  pose proof (where_from_ascending (Np.less risk t) 0) as Hasc.
  fold (Np.where_ (Np.less risk t)) in Hasc.
  destruct (Np.where_ (Np.less risk t)) as [|c tl] eqn:E;
    [exfalso; apply (proj2 (Hidx a) Ha)|].
  repeat split.
  - unfold index. cbn [nth_error]. f_equal.
    assert (Hc : Disruption.below risk t c) by (apply Hidx; left; reflexivity).
    apply Hfirst in Hc.
    destruct (proj2 (Hidx a) Ha) as [Eq|Hin]; [exact Eq|].
    destruct Hasc as [_ Hasc].
    pose proof (ascending_lower _ _ _ Hasc Hin). lia.
  - unfold index. rewrite (nth_error_last (c :: tl) 0%nat) by discriminate.
    f_equal.
    assert (Hl : Disruption.below risk t (last (c :: tl) 0%nat))
      by (apply Hidx, last_In; discriminate).
    apply Hlast in Hl.
    pose proof (ascending_last _ _ _ 0%nat Hasc (proj2 (Hidx b) Hb)). lia.
Qed.

Lemma max_nonempty (risk : list Q) :
  risk <> [] -> exists peak, Np.max risk = Returned peak.
Proof.
  destruct risk as [|x xs]; [congruence|]. intros _.
  eexists. reflexivity.
Qed.

Lemma first_last_safe_exist (risk : list Q) (t : Q) (i0 : nat) :
  Disruption.below risk t i0 ->
  exists a b, first_safe risk t a /\ last_safe risk t b.
Proof.
  intros Hi0.
  pose proof (In_safe_indices risk t) as Hidx.
  pose proof (where_from_ascending (Np.less risk t) 0) as Hasc.
  fold (Np.where_ (Np.less risk t)) in Hasc.
  destruct (Np.where_ (Np.less risk t)) as [|c tl] eqn:E;
    [exfalso; apply (proj2 (Hidx i0) Hi0)|].
  exists c, (last (c :: tl) 0%nat). split; split.
  - apply Hidx. left. reflexivity.
  - intros j Hj. apply Hidx in Hj. destruct Hj as [<-|Hin]; [lia|].
    destruct Hasc as [_ Hasc].
    pose proof (ascending_lower _ _ _ Hasc Hin). lia.
  - apply Hidx, last_In. discriminate.
  - intros j Hj. apply Hidx in Hj.
    exact (ascending_last _ _ _ 0%nat Hasc Hj).
Qed.

(** C3, as the code has it.  With no day whose adjusted risk is strictly
    below the threshold, the recommendation is the fixed high-alert text,
    without dates or statistics.  With such a day it reports a window (two
    dates and a duration) and the mean of the whole demand series, followed
    by the advisory lines that the mean and the peak risk call for; no order
    quantity is reported.  When the safe days are consecutive, the dates
    and the duration are those of the safe purchase window. *)
Theorem recommendation_reports
    (demand risk : list Q) (dates : list date) (t : Q) :
  (risk = [] -> Scenario.get_recommendation demand risk dates t = Raised)
  /\ (risk <> [] -> (forall i, ~ Disruption.below risk t i) ->
      Scenario.get_recommendation demand risk dates t = Returned high_alert)
  /\ (length dates = length risk -> (exists i, Disruption.below risk t i) ->
      exists da db days peak,
        Np.max risk = Returned peak
        /\ Scenario.get_recommendation demand risk dates t
           = Returned
               ([Scenario.RecommendedActions; Scenario.WindowIdentified;
                 Scenario.From da; Scenario.To db; Scenario.Duration days;
                 Scenario.SuggestedActions; Scenario.PlaceOrders;
                 Scenario.ExpectedAverageDemand (Np.mean demand)]
                ++ advisories risk peak)
        /\ (safe_days_contiguous risk t ->
            Disruption.calculate_safe_purchase_window dates risk t
            = Returned (Some da, Some db, days))).
Proof.
  unfold Scenario.get_recommendation. split; [|split].
  - intros ->. reflexivity.
  - intros Hne Hnone. destruct (max_nonempty risk Hne) as (peak & ->).
    cbn [bind].
    assert (E : Np.where_ (Np.less risk t) = []).
    { destruct (Np.where_ (Np.less risk t)) as [|c tl] eqn:Ew; [reflexivity|].
      exfalso. apply (Hnone c), In_safe_indices. rewrite Ew. left. reflexivity. }
    rewrite E. reflexivity.
  - intros Hlen [i0 Hi0].
    destruct (first_last_safe_exist risk t i0 Hi0) as (a & b & Ha & Hb).
    pose proof (below_lt_length _ _ _ (proj1 Ha)) as Hla.
    pose proof (below_lt_length _ _ _ (proj1 Hb)) as Hlb.
    destruct (nth_error dates a) as [da|] eqn:Eda;
      [|apply nth_error_None in Eda; lia].
    destruct (nth_error dates b) as [db|] eqn:Edb;
      [|apply nth_error_None in Edb; lia].
    assert (Hne : risk <> []) by (intros ->; cbn [length] in Hla; lia).
    destruct (max_nonempty risk Hne) as (peak & Epeak).
    exists da, db, (safe_count risk t), peak.
    split; [exact Epeak|].
    destruct (safe_indices_ends risk t a b Ha Hb) as (E0 & E1 & E2).
    split.
    + rewrite Epeak. cbn [bind]. rewrite E2, E0. cbn [bind]. rewrite E1.
      cbn [bind]. unfold index. rewrite Eda. cbn [bind]. rewrite Edb.
      cbn [bind]. rewrite length_safe_indices. reflexivity.
    + intros Hcont.
      assert (Hab : (a <= b)%nat) by (apply (proj2 Ha), (proj1 Hb)).
      assert (Hrun : Disruption.safe_run risk t a b).
      { split; [exact Hab|]. intros j Hj.
        exact (Hcont a j b (proj1 Ha) (proj1 Hb) Hj). }
      pose proof (In_safe_indices risk t) as Hidx.
      pose proof (where_from_ascending (Np.less risk t) 0) as Hasc.
      fold (Np.where_ (Np.less risk t)) in Hasc.
      assert (Ecount : safe_count risk t = S (b - a)).
      { rewrite <- length_safe_indices.
        destruct (Np.where_ (Np.less risk t)) as [|c tl] eqn:Ew;
          [discriminate E2|].
        assert (Hc : c = a)
          by (unfold index in E0; cbn [nth_error] in E0; congruence).
        subst c.
        rewrite (ascending_interval (a :: tl) a b).
        - rewrite length_seq. lia.
        - split; [lia | exact (proj2 Hasc)].
        - intros x. rewrite Hidx. split.
          + intros Hx. split; [apply (proj2 Ha) | apply (proj2 Hb)]; exact Hx.
          + intros Hx. apply (proj2 Hrun). exact Hx. }
      rewrite Ecount.
      destruct (window_found dates risk t Hlen a (proj1 Ha))
        as (s & e & ds & de & Hlong & Eds & Ede & Ecalc & _).
      destruct Hlong as (Hse & _ & _ & Hmax).
      destruct (Hmax a b Hrun) as [Hle _].
      destruct Hse as [Hse Hall].
      assert (Has : (a <= s)%nat) by (apply (proj2 Ha), Hall; lia).
      assert (Heb : (e <= b)%nat) by (apply (proj2 Hb), Hall; lia).
      assert (s = a) by lia. assert (e = b) by lia. subst s e.
      rewrite Ecalc. congruence.
Qed.

Lemma recommendation_reports_witness :
  Scenario.get_recommendation [10%Q] [] [0%Z] 0.3%Q = Raised
  /\ Scenario.get_recommendation [10%Q] [0.5%Q] [0%Z] 0.3%Q
     = Returned high_alert
  /\ exists da db days peak,
    Np.max [0.4; 0.2; 0.2; 0.5]%Q = Returned peak
    /\ Scenario.get_recommendation [10; 20; 30; 100]%Q
         [0.4; 0.2; 0.2; 0.5]%Q [0; 1; 2; 3]%Z 0.3%Q
       = Returned
           ([Scenario.RecommendedActions; Scenario.WindowIdentified;
             Scenario.From da; Scenario.To db; Scenario.Duration days;
             Scenario.SuggestedActions; Scenario.PlaceOrders;
             Scenario.ExpectedAverageDemand (Np.mean [10; 20; 30; 100]%Q)]
            ++ advisories [0.4; 0.2; 0.2; 0.5]%Q peak)
    /\ Disruption.calculate_safe_purchase_window [0; 1; 2; 3]%Z
         [0.4; 0.2; 0.2; 0.5]%Q 0.3%Q
       = Returned (Some da, Some db, days).
Proof.
  split; [|split].
  { apply (proj1 (recommendation_reports [10%Q] [] [0%Z] 0.3%Q)).
    reflexivity. }
  { apply (proj1 (proj2 (recommendation_reports [10%Q] [0.5%Q] [0%Z] 0.3%Q))).
    - discriminate.
    - intros i (r & Hr & Hlt).
      destruct i as [|i]; cbn [nth_error] in Hr;
        [|destruct i; discriminate Hr].
      injection Hr as <-. vm_compute in Hlt. discriminate Hlt. }
  assert (Hbelow : forall j, Disruption.below [0.4; 0.2; 0.2; 0.5]%Q 0.3%Q j ->
                             (1 <= j <= 2)%nat).
  { intros j (r & Hr & Hlt).
    destruct j as [|[|[|[|j]]]]; cbn [nth_error] in Hr; try lia;
      [| |destruct j; discriminate Hr];
      injection Hr as <-; vm_compute in Hlt; discriminate Hlt. }
  assert (Hsafe : forall j, (1 <= j <= 2)%nat ->
                            Disruption.below [0.4; 0.2; 0.2; 0.5]%Q 0.3%Q j).
  { intros j Hj. exists 0.2%Q.
    destruct j as [|[|[|j]]]; try lia; split; reflexivity. }
  destruct (proj2 (proj2 (recommendation_reports [10; 20; 30; 100]%Q
              [0.4; 0.2; 0.2; 0.5]%Q [0; 1; 2; 3]%Z 0.3%Q))
            eq_refl (ex_intro _ 1%nat (Hsafe 1%nat ltac:(lia))))
    as (da & db & days & peak & H1 & H2 & H3).
  exists da, db, days, peak.
  split; [exact H1|]. split; [exact H2|].
  apply H3. intros i j k Hi Hk Hj.
  apply Hbelow in Hi. apply Hbelow in Hk. apply Hsafe. lia.
Defined.

(** On a series whose safe days are the consecutive days 1 and 2, the
    recommendation lists the window of the search, the mean of the whole
    demand series (40, where the mean inside the window is 25) and no order
    quantity; the high-alert text carries no statistics. *)
Lemma recommendation_without_order_quantity :
  Disruption.calculate_safe_purchase_window [0; 1; 2; 3]%Z
    [0.4; 0.2; 0.2; 0.5]%Q 0.3%Q
  = Returned (Some 1%Z, Some 2%Z, 2%nat)
  /\ Np.mean [20; 30]%Q = Some (50 # 2)
  /\ Scenario.get_recommendation [10; 20; 30; 100]%Q
       [0.4; 0.2; 0.2; 0.5]%Q [0; 1; 2; 3]%Z 0.3%Q
     = Returned
         [Scenario.RecommendedActions; Scenario.WindowIdentified;
          Scenario.From 1%Z; Scenario.To 2%Z; Scenario.Duration 2;
          Scenario.SuggestedActions; Scenario.PlaceOrders;
          Scenario.ExpectedAverageDemand (Some (160 # 4))]
  /\ Scenario.get_recommendation [10%Q] [0.5%Q] [0%Z] 0.3%Q
     = Returned high_alert.
Proof. repeat split. Qed.

(** ** Demand forecast *)

Lemma Forall_repeat {A : Type} (P : A -> Prop) (x : A) (n : nat) :
  P x -> Forall P (repeat x n).
Proof. intros H. induction n; cbn [repeat]; constructor; auto. Qed.

Lemma maximum_nonneg (p : Q) : (0 <= Np.maximum p 0)%Q.
Proof. unfold Np.maximum. qcase p 0%Q; lra. Qed.

(** C5. Whatever the input rows and the predictor (loaded, absent or
    raising), every value of the series that [forecast_demand] returns is
    at least 0. *)
Theorem forecast_demand_nonnegative (h : Host) (w : World) (input_df : DataFrame) :
  Forall (fun x => (0 <= x)%Q) (Forecasting.forecast_demand h w input_df).
Proof.
  unfold Forecasting.forecast_demand, Np.zeros.
  destruct (forecast_model w) as [model|];
    [|apply Forall_repeat; apply Qle_refl].
  destruct (length _ =? 0)%nat; [apply Forall_repeat; apply Qle_refl|].
  destruct (predict model _) as [predictions|];
    [|apply Forall_repeat; apply Qle_refl].
  apply Forall_forall. intros x Hx. apply in_map_iff in Hx.
  destruct Hx as (p & <- & _). apply maximum_nonneg.
Qed.

(** ** Missing model *)

(** C4, as the code has it.  Without a forecast model, [forecast_demand]
    returns [n] zeros for [n] rows, [0,0,0,0,0] for five.  Without a risk
    model, [predict_disruption] returns [n] samples drawn from the generator,
    each at least 0.1 and below 0.4, and advances the generator. *)
Theorem missing_model_fallbacks (h : Host) (w : World) (input_df : DataFrame) :
  (forecast_model w = None ->
   Forecasting.forecast_demand h w input_df = repeat 0%Q (Pd.len input_df)
   /\ (Pd.len input_df = 5%nat ->
       Forecasting.forecast_demand h w input_df = [0; 0; 0; 0; 0]%Q))
  /\ (risk_model w = None ->
      let out := Disruption.predict_disruption h w input_df in
      fst out = map (fun i => 0.1 + (0.4 - 0.1) * generator w i)%Q
                  (seq 0 (Pd.len input_df))
      /\ length (fst out) = Pd.len input_df
      /\ generator (snd out) = (fun i => generator w (Pd.len input_df + i)%nat)
      /\ (unit_samples (generator w) ->
          Forall (fun x => (0.1 <= x)%Q /\ (x < 0.4)%Q) (fst out))).
Proof.
  split.
  - intros E. unfold Forecasting.forecast_demand. rewrite E.
    split; [reflexivity|]. intros ->. reflexivity.
  - intros E. cbv zeta. unfold Disruption.predict_disruption. rewrite E.
    unfold uniform. cbn [fst snd generator].
    split; [reflexivity|]. split; [rewrite length_map, length_seq; reflexivity|].
    split; [reflexivity|].
    intros Hg. apply Forall_forall. intros x Hx. apply in_map_iff in Hx.
    destruct Hx as (i & <- & _). destruct (Hg i) as [H0 H1]. split; lra.
Qed.

Lemma bare_world_unit_samples : unit_samples (generator bare_world).
Proof.
  intros [|i]; cbn [generator bare_world];
    [split; [apply Qle_refl | reflexivity]|].
  unfold Qle, Qlt. cbn [Qnum Qden]. split; lia.
Qed.

Lemma missing_model_fallbacks_witness :
  Forecasting.forecast_demand null_host bare_world (sample_frame 5)
  = [0; 0; 0; 0; 0]%Q
  /\ length (fst (Disruption.predict_disruption null_host bare_world
                    (sample_frame 5))) = 5%nat
  /\ Forall (fun x => (0.1 <= x)%Q /\ (x < 0.4)%Q)
       (fst (Disruption.predict_disruption null_host bare_world
               (sample_frame 5))).
Proof.
  destruct (missing_model_fallbacks null_host bare_world (sample_frame 5))
    as [[_ H5] Hrisk].
  - reflexivity.
  - destruct (Hrisk eq_refl) as (_ & Hlen & _ & Hrange).
    split; [apply H5; reflexivity|]. split; [exact Hlen|].
    apply Hrange, bare_world_unit_samples.
Defined.

(** Without a risk model the series is not the constant 0.3. *)
Lemma missing_risk_model_not_constant :
  series_eq (fst (Disruption.predict_disruption null_host bare_world
                    (sample_frame 2)))
            [0.1; 0.25]%Q
  /\ ~ series_eq (fst (Disruption.predict_disruption null_host bare_world
                         (sample_frame 2)))
                 [0.3; 0.3]%Q.
Proof.
  split.
  - repeat constructor; reflexivity.
  - intros H. inversion H as [|x y l l' Hxy Hl]; subst.
    vm_compute in Hxy. discriminate Hxy.
Qed.

(** ** Risk forecast *)

Lemma in01_03 : in01 0.3%Q.
Proof. split; discriminate. Qed.

Lemma column1_in01 (rows : list (list Q)) :
  Forall (fun row => forall p, nth_error row 1 = Some p -> in01 p) rows ->
  forall xs, Disruption.column1 rows = Returned xs -> Forall in01 xs.
Proof.
  induction 1 as [|row rows Hrow Hrows IH]; intros xs; cbn [Disruption.column1].
  - intros E. injection E as <-. constructor.
  - unfold index. destruct (nth_error row 1) as [p|] eqn:Ep;
      cbn [bind]; [|discriminate].
    destruct (Disruption.column1 rows) as [ys|]; cbn [bind]; [|discriminate].
    intros E. injection E as <-. constructor; [apply Hrow; reflexivity|].
    apply IH. reflexivity.
Qed.

(** C6, as the code has it.  Every value of the series that
    [predict_disruption] returns lies in [0, 1] when the generator delivers
    unit samples and the probabilities of a classifier are probabilities:
    the output of [predict] is clipped, the fallbacks are 0.3 or lie between
    0.1 and 0.4, and the second column of [predict_proba] is returned as it
    is. *)
Theorem predict_disruption_in_unit_interval
    (h : Host) (w : World) (input_df : DataFrame) :
  unit_samples (generator w) ->
  (forall m, risk_model w = Some m -> probabilities m) ->
  Forall in01 (fst (Disruption.predict_disruption h w input_df)).
Proof.
  intros Hg Hprob. unfold Disruption.predict_disruption.
  destruct (risk_model w) as [model|] eqn:Em.
  - specialize (Hprob model eq_refl).
    destruct (length _ =? 0)%nat;
      [cbn [fst]; apply Forall_repeat, in01_03|].
    destruct (predict_proba model) as [proba|] eqn:Ep.
    + destruct (proba _) as [rows|] eqn:Er; cbn [bind].
      * destruct (Disruption.column1 rows) as [xs|] eqn:Ec; cbn [fst];
          [|apply Forall_repeat, in01_03].
        exact (column1_in01 rows (Hprob proba _ rows Ep Er) xs Ec).
      * cbn [fst]. apply Forall_repeat, in01_03.
    + destruct (predict model _) as [predictions|]; cbn [bind fst];
        [|apply Forall_repeat, in01_03].
      apply Forall_forall. intros x Hx. apply in_map_iff in Hx.
      destruct Hx as (p & <- & _). apply clip1_in01.
  - unfold uniform. cbn [fst]. apply Forall_forall. intros x Hx.
    apply in_map_iff in Hx. destruct Hx as (i & <- & _).
    destruct (Hg i) as [H0 H1]. unfold in01. split; lra.
Qed.

Lemma predict_disruption_in_unit_interval_witness :
  Forall in01
    (fst (Disruption.predict_disruption null_host
            (mk_world None (Some sound_classifier) (generator bare_world))
            (sample_frame 3))).
Proof.
  apply (predict_disruption_in_unit_interval null_host
           (mk_world None (Some sound_classifier) (generator bare_world))
           (sample_frame 3)).
  - exact bare_world_unit_samples.
  - intros m E. injection E as <-. intros proba X rows Ep Er.
    injection Ep as <-. injection Er as <-.
    repeat (apply Forall_cons;
            [intros p Hp; injection Hp as <-; split; discriminate|]).
    apply Forall_nil.
Defined.

(** The second column of [predict_proba] is returned without clipping. *)
Lemma predict_proba_not_clipped :
  fst (Disruption.predict_disruption null_host
         (mk_world None (Some loose_classifier) (fun _ => 0%Q))
         (sample_frame 1))
  = [1.5%Q]
  /\ ~ Forall in01
         (fst (Disruption.predict_disruption null_host
                 (mk_world None (Some loose_classifier) (fun _ => 0%Q))
                 (sample_frame 1))).
Proof.
  split; [reflexivity|].
  intros H. inversion H as [|x l [_ Hx] Hl]; subst.
  vm_compute in Hx. apply Hx. reflexivity.
Qed.

(** ** Future frame *)

Lemma fold_max_spec (l : list Z) :
  forall x, let m := fold_left Z.max l x in
            (m = x \/ In m l) /\ (x <= m)%Z /\ forall d, In d l -> (d <= m)%Z.
Proof.
  induction l as [|a l IH]; intros x; cbn [fold_left In].
  - split; [left; reflexivity|]. split; [lia | tauto].
  - destruct (IH (Z.max x a)) as (Hin & Hle & Hall).
    split; [|split].
    + destruct Hin as [E|Hin]; [|tauto].
      destruct (Z.max_spec x a) as [[_ E']|[_ E']];
        [right; left; congruence | left; congruence].
    + lia.
    + intros d [<-|Hd]; [lia | auto].
Qed.

Lemma date_range_dates (start : date) (n : nat) (f : date -> Row) :
  (forall d, r_date (f d) = d) ->
  map r_date (map f (Pd.date_range start n)) = Pd.date_range start n.
Proof.
  intros Hf. rewrite map_map. rewrite <- (map_id (Pd.date_range start n)) at 2.
  apply map_ext. exact Hf.
Qed.

(** C7, as the code has it.  For a history with at least one row and a
    date column, the future frame has [horizon_days] rows, dated with the
    consecutive days that follow the latest date of the history.  For a
    history with rows and no date column the days follow the current date.
    For an empty or absent history the frame is empty: no row and no
    column. *)
Theorem future_frame_dates
    (now : date) (hist : DataFrame) (horizon_days : nat) :
  (df_rows hist <> [] -> Pd.df_has hist "date"%string = true ->
   forall latest,
     In latest (map r_date (df_rows hist)) ->
     (forall d, In d (map r_date (df_rows hist)) -> (d <= latest)%Z) ->
     let future := Forecasting.create_future_dataframe now (Some hist)
                     horizon_days in
     Pd.len future = horizon_days
     /\ map r_date (df_rows future)
        = map (fun i => (latest + 1 + Z.of_nat i)%Z) (seq 0 horizon_days))
  /\ (df_rows hist <> [] -> Pd.df_has hist "date"%string = false ->
      let future := Forecasting.create_future_dataframe now (Some hist)
                      horizon_days in
      Pd.len future = horizon_days
      /\ map r_date (df_rows future)
         = map (fun i => (now + 1 + Z.of_nat i)%Z) (seq 0 horizon_days))
  /\ (df_rows hist = [] ->
      Forecasting.create_future_dataframe now (Some hist) horizon_days
      = Pd.empty)
  /\ Forecasting.create_future_dataframe now None horizon_days = Pd.empty.
Proof.
  unfold Forecasting.create_future_dataframe.
  split; [|split; [|split; [|reflexivity]]].
  - intros Hrows Hdate latest Hin Hmax. cbv zeta.
    destruct (df_rows hist) as [|r0 rs] eqn:Erows; [congruence|].
    rewrite Hdate. unfold Pd.len. cbn [df_rows]. split.
    + rewrite length_map. unfold Pd.date_range.
      rewrite length_map, length_seq. reflexivity.
    + rewrite date_range_dates by reflexivity.
      destruct (fold_max_spec (map r_date rs) (r_date r0)) as (Hm & Hle & Hall).
      cbv zeta in Hm, Hle, Hall.
      assert (E : fold_left Z.max (map r_date rs) (r_date r0) = latest).
      { apply Z.le_antisymm.
        - apply Hmax. cbn [map In]. destruct Hm as [->|Hm]; auto.
        - cbn [map In] in Hin.
          destruct Hin as [<-|Hl]; [exact Hle | exact (Hall _ Hl)]. }
      rewrite E. unfold Pd.date_range. reflexivity.
  - intros Hrows Hdate. cbv zeta.
    destruct (df_rows hist) as [|r0 rs] eqn:Erows; [congruence|].
    rewrite Hdate. unfold Pd.len. cbn [df_rows]. split.
    + rewrite length_map. unfold Pd.date_range.
      rewrite length_map, length_seq. reflexivity.
    + rewrite date_range_dates by reflexivity. reflexivity.
  - intros ->. reflexivity.
Qed.

Lemma future_frame_dates_witness :
  (let future := Forecasting.create_future_dataframe 900%Z
                   (Some (sample_frame 90)) 30 in
   Pd.len future = 30%nat
   /\ map r_date (df_rows future)
      = map (fun i => (89 + 1 + Z.of_nat i)%Z) (seq 0 30))
  /\ (let future := Forecasting.create_future_dataframe 900%Z
                      (Some (mk_df ["units_sold"%string]
                               (df_rows (sample_frame 90)))) 30 in
      Pd.len future = 30%nat
      /\ map r_date (df_rows future)
         = map (fun i => (900 + 1 + Z.of_nat i)%Z) (seq 0 30))
  /\ Forecasting.create_future_dataframe 900%Z
       (Some (mk_df sample_columns [])) 30 = Pd.empty.
Proof.
  split; [|split].
  - apply (proj1 (future_frame_dates 900%Z (sample_frame 90) 30)).
    + discriminate.
    + reflexivity.
    + vm_compute. do 89 right. left. reflexivity.
    + intros d Hd. unfold sample_frame in Hd. cbn [df_rows] in Hd.
      rewrite date_range_dates in Hd by reflexivity.
      unfold Pd.date_range in Hd. apply in_map_iff in Hd.
      destruct Hd as (i & <- & Hi). apply in_seq in Hi. lia.
  - apply (proj1 (proj2 (future_frame_dates 900%Z
                           (mk_df ["units_sold"%string]
                              (df_rows (sample_frame 90))) 30))).
    + discriminate.
    + reflexivity.
  - apply (proj1 (proj2 (proj2 (future_frame_dates 900%Z
                                  (mk_df sample_columns []) 30)))).
    reflexivity.
Defined.

(** An empty history yields an empty frame, whatever the horizon. *)
Lemma future_frame_empty_history :
  Pd.len (Forecasting.create_future_dataframe 900%Z
            (Some (mk_df sample_columns [])) 3) = 0%nat
  /\ map r_date (df_rows (Forecasting.create_future_dataframe 900%Z
                            (Some (mk_df sample_columns [])) 3))
     <> [901; 902; 903]%Z.
Proof. split; [reflexivity | discriminate]. Qed.

(** ** Determinism *)

Lemma forecast_demand_model_only (h : Host) (w w' : World) (df : DataFrame) :
  forecast_model w' = forecast_model w ->
  Forecasting.forecast_demand h w' df = Forecasting.forecast_demand h w df.
Proof. intros E. unfold Forecasting.forecast_demand. rewrite E. reflexivity. Qed.

Lemma predict_disruption_loaded (h : Host) (w w' : World) (df : DataFrame) :
  risk_model w <> None -> risk_model w' = risk_model w ->
  fst (Disruption.predict_disruption h w' df)
  = fst (Disruption.predict_disruption h w df)
  /\ snd (Disruption.predict_disruption h w df) = w.
Proof.
  intros Hm E. unfold Disruption.predict_disruption. rewrite E.
  destruct (risk_model w) as [model|]; [|congruence].
  destruct (length _ =? 0)%nat; [split; reflexivity|].
  destruct (match predict_proba model with
            | Some proba => _
            | None => _
            end) as [predictions|]; split; reflexivity.
Qed.

(** C9, as the code has it.  The demand forecast, the window search, the
    scenario application, and the risk forecast with a loaded risk model are
    functions of their inputs and of the model handles: the result does not
    depend on the generator, the process state is left as it was, and a
    second invocation returns the same result. *)
Theorem analysis_deterministic (h : Host) (w w' : World) (r : request) :
  forecast_model w' = forecast_model w ->
  risk_model w' = risk_model w ->
  (uses_risk_model r = true -> risk_model w <> None) ->
  fst (serve h w' r) = fst (serve h w r)
  /\ snd (serve h w r) = w
  /\ fst (serve h (snd (serve h w r)) r) = fst (serve h w r).
Proof.
  intros Ef Er Hrisk.
  assert (Hsame : fst (serve h w' r) = fst (serve h w r)
                  /\ snd (serve h w r) = w).
  { destruct r as [df|df|dates risk t|demand risk sc sev]; cbn [serve fst snd].
    - split; [|reflexivity]. f_equal.
      apply forecast_demand_model_only, Ef.
    - destruct (predict_disruption_loaded h w w' df (Hrisk eq_refl) Er)
        as [H1 H2].
      destruct (Disruption.predict_disruption h w' df) as [s' w1'].
      destruct (Disruption.predict_disruption h w df) as [s w1].
      cbn [fst snd] in *. split; congruence.
    - split; reflexivity.
    - split; reflexivity. }
  destruct Hsame as [H1 H2]. repeat split; try assumption.
  rewrite H2. reflexivity.
Qed.

Lemma analysis_deterministic_witness :
  fst (serve null_host
         (mk_world None (Some sound_classifier) (fun _ => 0.5%Q))
         (RiskForecast (sample_frame 3)))
  = fst (serve null_host
           (mk_world None (Some sound_classifier) (generator bare_world))
           (RiskForecast (sample_frame 3)))
  /\ snd (serve null_host
            (mk_world None (Some sound_classifier) (generator bare_world))
            (RiskForecast (sample_frame 3)))
     = mk_world None (Some sound_classifier) (generator bare_world)
  /\ fst (serve null_host
            (snd (serve null_host
                    (mk_world None (Some sound_classifier)
                       (generator bare_world))
                    (RiskForecast (sample_frame 3))))
            (RiskForecast (sample_frame 3)))
     = fst (serve null_host
              (mk_world None (Some sound_classifier) (generator bare_world))
              (RiskForecast (sample_frame 3))).
Proof.
  apply (analysis_deterministic null_host
           (mk_world None (Some sound_classifier) (generator bare_world))
           (mk_world None (Some sound_classifier) (fun _ => 0.5%Q))
           (RiskForecast (sample_frame 3))).
  - reflexivity.
  - reflexivity.
  - intros _. discriminate.
Defined.

(** Without a risk model, two successive risk forecasts over the same rows
    differ. *)
Lemma risk_forecast_without_model_differs :
  let r := RiskForecast (sample_frame 1) in
  let first := serve null_host bare_world r in
  let second := serve null_host (snd first) r in
  exists x y,
    fst first = Series [x] /\ fst second = Series [y]
    /\ (x == 0.1)%Q /\ (y == 0.25)%Q /\ ~ series_eq [x] [y].
Proof.
  cbv zeta. eexists. eexists.
  split; [reflexivity|]. split; [reflexivity|].
  split; [reflexivity|]. split; [reflexivity|].
  intros H. inversion H as [|a b l l' Hab Hl]; subst.
  vm_compute in Hab. discriminate Hab.
Qed.

(* ================================================================== *)
(** * Part III: further properties of the code *)
(* ================================================================== *)

(** ** Risk labels *)

(** X1. Each label is a half-open band of risk; a boundary value belongs to the
    band above it. *)
Theorem risk_level_bands (r : Q) :
  (Disruption.get_risk_level_label r = Disruption.VeryLow <-> (r < 0.2)%Q)
  /\ (Disruption.get_risk_level_label r = Disruption.Low
      <-> (0.2 <= r)%Q /\ (r < 0.4)%Q)
  /\ (Disruption.get_risk_level_label r = Disruption.Moderate
      <-> (0.4 <= r)%Q /\ (r < 0.6)%Q)
  /\ (Disruption.get_risk_level_label r = Disruption.High
      <-> (0.6 <= r)%Q /\ (r < 0.8)%Q)
  /\ (Disruption.get_risk_level_label r = Disruption.VeryHigh <-> (0.8 <= r)%Q).
Proof.
  unfold Disruption.get_risk_level_label.
  qcase r 0.2%Q; [|qcase r 0.4%Q; [|qcase r 0.6%Q; [|qcase r 0.8%Q]]];
    repeat split; intros; try discriminate; try reflexivity; try lra.
Qed.

(** X2. A higher risk never gets a lower label. *)
Theorem risk_level_monotone (r1 r2 : Q) :
  (r1 <= r2)%Q ->
  (Disruption.level_rank (Disruption.get_risk_level_label r1)
   <= Disruption.level_rank (Disruption.get_risk_level_label r2))%nat.
Proof.
  intros Hle. unfold Disruption.get_risk_level_label.
  qcase r1 0.2%Q; [|qcase r1 0.4%Q; [|qcase r1 0.6%Q; [|qcase r1 0.8%Q]]];
    (qcase r2 0.2%Q; [|qcase r2 0.4%Q; [|qcase r2 0.6%Q; [|qcase r2 0.8%Q]]]);
    cbn [Disruption.level_rank]; try lia; exfalso; lra.
Qed.

Lemma risk_level_monotone_witness :
  (Disruption.level_rank (Disruption.get_risk_level_label 0.2)
   <= Disruption.level_rank (Disruption.get_risk_level_label 0.79))%nat.
Proof. apply risk_level_monotone. discriminate. Defined.

(** X3. A day that is safe at a threshold of at most 0.4 is labelled Very Low
    or Low. *)
Theorem safe_day_label (risk : list Q) (t : Q) (i : nat) (r : Q) :
  (t <= 0.4)%Q -> Disruption.below risk t i -> nth_error risk i = Some r ->
  (Disruption.level_rank (Disruption.get_risk_level_label r) <= 1)%nat.
Proof.
  intros Ht (r' & Hr' & Hlt) Hr. rewrite Hr in Hr'. injection Hr' as <-.
  unfold Disruption.get_risk_level_label.
  qcase r 0.2%Q; [cbn; lia|]. qcase r 0.4%Q; [cbn; lia|]. exfalso. lra.
Qed.

Lemma safe_day_label_witness :
  (Disruption.level_rank (Disruption.get_risk_level_label 0.25) <= 1)%nat.
Proof.
  apply (safe_day_label [0.5; 0.25]%Q 0.3%Q 1 0.25%Q).
  - discriminate.
  - exists 0.25%Q. split; reflexivity.
  - reflexivity.
Defined.

(** ** More about the safe purchase window *)

Lemma below_or_none (risk : list Q) (t : Q) :
  (exists i, Disruption.below risk t i)
  \/ (forall i, ~ Disruption.below risk t i).
Proof.
  destruct (Np.where_ (Np.less risk t)) as [|c tl] eqn:E.
  - right. intros i Hi. apply In_safe_indices in Hi. rewrite E in Hi. exact Hi.
  - left. exists c. apply In_safe_indices. rewrite E. left. reflexivity.
Qed.

Lemma longest_run_unique (risk : list Q) (t : Q) (s e s' e' : nat) :
  Disruption.longest_earliest_run risk t s e ->
  Disruption.longest_earliest_run risk t s' e' ->
  s = s' /\ e = e'.
Proof.
  intros (Hrun & _ & _ & Hmax) (Hrun' & _ & _ & Hmax').
  destruct (Hmax s' e' Hrun') as [H1 H2].
  destruct (Hmax' s e Hrun) as [H3 H4].
  destruct Hrun as [Hse _]. destruct Hrun' as [Hse' _].
  assert (Heq : (e' - s' = e - s)%nat) by lia.
  specialize (H2 Heq). specialize (H4 (eq_sym Heq)). lia.
Qed.

(** With dates and at least one safe index, the function indexes the dates
    at the two ends of the longest run. *)
Lemma window_eval (dates : list date) (risk : list Q) (t : Q) (i0 : nat) :
  dates <> [] -> Disruption.below risk t i0 ->
  exists s l,
    Disruption.longest_earliest_run risk t s (s + l)
    /\ Disruption.calculate_safe_purchase_window dates risk t
       = (start_date <- index dates s ;;
          end_date <- index dates (s + l) ;;
          Returned (Some start_date, Some end_date, S l)).
Proof.
  intros Hd Hi0. unfold Disruption.calculate_safe_purchase_window.
  destruct (longest_group_run risk t i0 Hi0)
    as (g & gs & s & l & Eg & Emax & Hrun).
  exists s, l. split; [exact Hrun|].
  pose proof (below_lt_length _ _ _ Hi0) as Hlen.
  assert (E0 : (length dates =? 0)%nat = false).
  { apply Nat.eqb_neq. intros H. apply length_zero_iff_nil in H. congruence. }
  assert (E1 : (length risk =? 0)%nat = false) by (apply Nat.eqb_neq; lia).
  rewrite E0, E1. cbn [orb].
  assert (E2 : (length (Np.where_ (Np.less risk t)) =? 0)%nat = false).
  { apply Nat.eqb_neq. intros H. apply length_zero_iff_nil in H.
    apply In_safe_indices in Hi0. rewrite H in Hi0. exact Hi0. }
  rewrite E2, Eg, Emax, length_seq. cbn [Nat.eqb].
  unfold index at 1 2. rewrite !nth_error_seq.
  replace (S l - 1)%nat with l by lia.
  assert (E3 : (l <? S l)%nat = true) by (apply Nat.ltb_lt; lia).
  rewrite E3. change (0 <? S l)%nat with true.
  cbn [bind]. rewrite Nat.add_0_r. reflexivity.
Qed.

Lemma window_none (dates : list date) (risk : list Q) (t : Q) :
  (forall i, ~ Disruption.below risk t i) ->
  Disruption.calculate_safe_purchase_window dates risk t
  = Returned Disruption.no_window.
Proof.
  intros Hnone. unfold Disruption.calculate_safe_purchase_window.
  assert (E : Np.where_ (Np.less risk t) = []).
  { destruct (Np.where_ (Np.less risk t)) as [|a tl] eqn:Ew; [reflexivity|].
    exfalso. apply (Hnone a), In_safe_indices. rewrite Ew. left. reflexivity. }
  rewrite E. cbn [length Nat.eqb].
  destruct ((length dates =? 0)%nat || (length risk =? 0)%nat); reflexivity.
Qed.

(** X4. With dates, the call raises exactly when the longest run ends beyond
    the last date. *)
Theorem window_raises_iff (dates : list date) (risk : list Q) (t : Q) (s e : nat) :
  dates <> [] ->
  Disruption.longest_earliest_run risk t s e ->
  (Disruption.calculate_safe_purchase_window dates risk t = Raised
   <-> (length dates <= e)%nat).
Proof.
  intros Hd Hrun.
  assert (Hs : Disruption.below risk t s).
  { destruct Hrun as ([Hse Hall] & _). apply Hall. lia. }
  destruct (window_eval dates risk t s Hd Hs) as (s0 & l0 & Hrun0 & ->).
  destruct (longest_run_unique _ _ _ _ _ _ Hrun Hrun0) as [<- ->].
  unfold index.
  destruct (nth_error dates s) as [ds|] eqn:Es; cbn [bind].
  - destruct (nth_error dates (s + l0)) as [de|] eqn:Ee; cbn [bind].
    + split; [discriminate|]. intros Hle.
      apply nth_error_None in Hle. congruence.
    + split; [intros _; apply nth_error_None; exact Ee | reflexivity].
  - split; [|reflexivity]. intros _. apply nth_error_None in Es. lia.
Qed.

Lemma window_raises_iff_witness :
  Disruption.calculate_safe_purchase_window [0; 1]%Z [0.5; 0.1; 0.1]%Q 0.3%Q
  = Raised <-> (length [0; 1]%Z <= 2)%nat.
Proof.
  apply (window_raises_iff [0; 1]%Z [0.5; 0.1; 0.1]%Q 0.3%Q 1 2).
  - discriminate.
  - assert (Hbelow : forall j, Disruption.below [0.5; 0.1; 0.1]%Q 0.3%Q j ->
                               (1 <= j <= 2)%nat).
    { intros j (r & Hr & Hlt).
      destruct j as [|[|[|j]]]; cbn [nth_error] in Hr; try lia;
        [|destruct j; discriminate Hr].
      injection Hr as <-. vm_compute in Hlt. discriminate Hlt. }
    assert (Hsafe : forall j, (1 <= j <= 2)%nat ->
                              Disruption.below [0.5; 0.1; 0.1]%Q 0.3%Q j).
    { intros j Hj. exists 0.1%Q.
      destruct j as [|[|[|j]]]; try lia; split; reflexivity. }
    split; [split; [lia | exact Hsafe]|].
    split; [intros H; apply Hbelow in H; lia|].
    split; [intros p Hp H; apply Hbelow in H; lia|].
    intros s' e' [Hse Hall].
    pose proof (Hbelow s' (Hall s' ltac:(lia))).
    pose proof (Hbelow e' (Hall e' ltac:(lia))). lia.
Defined.

(** Fewer safe indices give no longer window: when every index that is safe
    for one risk series and threshold is safe for another, the window of the
    first has at most the days of the second. *)
Lemma window_days_monotone
    (dates : list date) (risk risk' : list Q) (t t' : Q)
    (a b a' b' : option date) (n n' : nat) :
  (forall i, Disruption.below risk' t' i -> Disruption.below risk t i) ->
  Disruption.calculate_safe_purchase_window dates risk t = Returned (a, b, n) ->
  Disruption.calculate_safe_purchase_window dates risk' t'
  = Returned (a', b', n') ->
  (n' <= n)%nat.
Proof.
  intros Hsub E E'.
  destruct (below_or_none risk' t') as [[i0 Hi0]|Hnone].
  - destruct dates as [|d0 dl].
    + cbn in E, E'. injection E as _ _ <-. injection E' as _ _ <-. lia.
    + destruct (window_eval (d0 :: dl) risk' t' i0 ltac:(discriminate) Hi0)
        as (s' & l' & Hrun' & Ev').
      destruct (window_eval (d0 :: dl) risk t i0 ltac:(discriminate)
                  (Hsub _ Hi0)) as (s & l & Hrun & Ev).
      rewrite Ev in E. rewrite Ev' in E'.
      destruct (index (d0 :: dl) s); cbn [bind] in E; [|discriminate].
      destruct (index (d0 :: dl) (s + l)); cbn [bind] in E; [|discriminate].
      destruct (index (d0 :: dl) s'); cbn [bind] in E'; [|discriminate].
      destruct (index (d0 :: dl) (s' + l')); cbn [bind] in E'; [|discriminate].
      injection E as _ _ <-. injection E' as _ _ <-.
      destruct Hrun as (_ & _ & _ & Hmax).
      destruct Hrun' as ([Hse' Hall'] & _).
      destruct (Hmax s' (s' + l')%nat) as [Hle _]; [|lia].
      split; [exact Hse'|]. intros i Hi. apply Hsub, Hall', Hi.
  - rewrite (window_none dates risk' t' Hnone) in E'.
    injection E' as _ _ <-. lia.
Qed.

(** X5. Raising the threshold never shortens the window. *)
Theorem window_threshold_monotone
    (dates : list date) (risk : list Q) (t t' : Q)
    (a b a' b' : option date) (n n' : nat) :
  (t' <= t)%Q ->
  Disruption.calculate_safe_purchase_window dates risk t = Returned (a, b, n) ->
  Disruption.calculate_safe_purchase_window dates risk t' = Returned (a', b', n') ->
  (n' <= n)%nat.
Proof.
  intros Ht. apply window_days_monotone.
  intros i (r & Hr & Hlt). exists r. split; [exact Hr | lra].
Qed.

Lemma window_threshold_monotone_witness : (2 <= 4)%nat.
Proof.
  apply (window_threshold_monotone [0; 1; 2; 3]%Z [0.1; 0.4; 0.2; 0.2]%Q
           0.5%Q 0.3%Q (Some 0%Z) (Some 3%Z) (Some 2%Z) (Some 3%Z) 4 2).
  - discriminate.
  - reflexivity.
  - reflexivity.
Defined.

(** X6. When every day is safe the window is the whole series. *)
Theorem window_all_safe (dates : list date) (risk : list Q) (t : Q) :
  risk <> [] -> length dates = length risk ->
  (forall i, (i < length risk)%nat -> Disruption.below risk t i) ->
  exists d0 dn,
    nth_error dates 0 = Some d0
    /\ nth_error dates (length risk - 1) = Some dn
    /\ Disruption.calculate_safe_purchase_window dates risk t
       = Returned (Some d0, Some dn, length risk).
Proof.
  intros Hne Hlen Hall.
  assert (Hpos : (0 < length risk)%nat).
  { destruct risk; [congruence | cbn; lia]. }
  destruct (window_found dates risk t Hlen 0%nat (Hall 0%nat Hpos))
    as (s & e & ds & de & Hrun & Eds & Ede & Ecalc & _).
  destruct Hrun as ([Hse Hsafe] & Hnext & Hprev & _).
  assert (Hs : s = 0%nat).
  { destruct s as [|p]; [reflexivity|]. exfalso.
    apply (Hprev p eq_refl), Hall.
    pose proof (below_lt_length _ _ _ (Hsafe (S p) ltac:(lia))). lia. }
  assert (He : e = (length risk - 1)%nat).
  { pose proof (below_lt_length _ _ _ (Hsafe e ltac:(lia))) as He.
    destruct (Nat.lt_ge_cases (S e) (length risk)) as [Hlt|Hge]; [|lia].
    exfalso. apply Hnext, Hall, Hlt. }
  subst s e. exists ds, de. repeat split; try assumption.
  rewrite Ecalc. do 3 f_equal. lia.
Qed.

Lemma window_all_safe_witness :
  exists d0 dn,
    nth_error [7; 8; 9]%Z 0 = Some d0
    /\ nth_error [7; 8; 9]%Z (length [0.1; 0.2; 0.1]%Q - 1) = Some dn
    /\ Disruption.calculate_safe_purchase_window [7; 8; 9]%Z
         [0.1; 0.2; 0.1]%Q 0.3%Q
       = Returned (Some d0, Some dn, length [0.1; 0.2; 0.1]%Q).
Proof.
  apply (window_all_safe [7; 8; 9]%Z [0.1; 0.2; 0.1]%Q 0.3%Q).
  - discriminate.
  - reflexivity.
  - intros i Hi. cbn [length] in Hi.
    destruct i as [|[|[|i]]]; try lia;
      [exists 0.1%Q | exists 0.2%Q | exists 0.1%Q]; split; reflexivity.
Defined.

(** ** More about scenario application *)

Lemma clip1_monotone (x y : Q) :
  (x <= y)%Q -> (Np.clip1 x 0 1 <= Np.clip1 y 0 1)%Q.
Proof.
  intros Hxy. unfold Np.clip1, Np.minimum, Np.maximum.
  qcase x 0%Q; qcase y 0%Q;
    repeat match goal with
           | |- context [Np.Qltb ?a ?b] => qcase a b
           end; lra.
Qed.

(** Whatever the severity string, a registry scenario multiplies the demand
    by a positive factor and adds a non-negative amount to the risk. *)
Lemma registry_entry_signs (sc sev : string) (scen : Scenario.scenario) :
  dict_get Scenario.SCENARIOS sc = Some scen ->
  (0 < dict_get_or (Scenario.demand_multiplier scen) sev 1.0)%Q
  /\ (0 <= dict_get_or (Scenario.risk_adjustment scen) sev 0.0)%Q.
Proof.
  unfold Scenario.SCENARIOS. cbn [dict_get].
  repeat (destruct (String.eqb _ sc);
          [intros E; injection E as <-; unfold dict_get_or;
           cbn [Scenario.demand_multiplier Scenario.risk_adjustment dict_get];
           repeat destruct (String.eqb _ sev); split; reflexivity || discriminate|]).
  discriminate.
Qed.

Lemma apply_scenario_eval (demand risk : list Q) (sc sev : string)
      (scen : Scenario.scenario) :
  dict_get Scenario.SCENARIOS sc = Some scen ->
  Scenario.apply_scenario demand risk sc sev
  = (map (fun d => d * dict_get_or (Scenario.demand_multiplier scen) sev 1.0)%Q
       demand,
     Np.clip (map (fun r => r + dict_get_or (Scenario.risk_adjustment scen) sev 0.0)%Q
                risk) 0 1).
Proof. intros E. unfold Scenario.apply_scenario. rewrite E. reflexivity. Qed.

(** X7. Both adjusted series keep the length of their input, whatever the
    scenario and severity strings; under a registry scenario every adjusted
    risk lies in [0, 1], whatever the input risk. *)
Theorem apply_scenario_shape (demand risk : list Q) (sc sev : string) :
  let out := Scenario.apply_scenario demand risk sc sev in
  length (fst out) = length demand
  /\ length (snd out) = length risk
  /\ (In sc (map fst Scenario.SCENARIOS) -> Forall in01 (snd out)).
Proof.
  cbv zeta. destruct (dict_get Scenario.SCENARIOS sc) as [scen|] eqn:E.
  - rewrite (apply_scenario_eval demand risk sc sev scen E). cbn [fst snd].
    unfold Np.clip. rewrite !length_map. repeat split.
    intros _. apply Forall_forall. intros x Hx.
    apply in_map_iff in Hx. destruct Hx as (y & <- & _). apply clip1_in01.
  - unfold Scenario.apply_scenario. rewrite E. cbn [fst snd].
    repeat split. intros Hin. apply dict_get_None in E. contradiction.
Qed.

Lemma apply_scenario_shape_witness :
  Forall in01
    (snd (Scenario.apply_scenario [100%Q] [7%Q; (-3)%Q]
            "bad_weather"%string "severe"%string)).
Proof.
  apply (apply_scenario_shape [100%Q] [7%Q; (-3)%Q]
           "bad_weather"%string "severe"%string).
  cbn. tauto.
Defined.

Lemma Forall2_map_same {A : Type} (R : Q -> Q -> Prop) (f g : A -> Q)
      (l : list A) :
  (forall x, In x l -> R (f x) (g x)) -> Forall2 R (map f l) (map g l).
Proof.
  induction l as [|x l IH]; intros H; cbn [map]; constructor.
  - apply H. left. reflexivity.
  - apply IH. intros y Hy. apply H. right. exact Hy.
Qed.

Lemma Forall2_map_right (R : Q -> Q -> Prop) (g : Q -> Q) (l : list Q) :
  (forall x, In x l -> R x (g x)) -> Forall2 R l (map g l).
Proof.
  induction l as [|x l IH]; intros H; cbn [map]; constructor.
  - apply H. left. reflexivity.
  - apply IH. intros y Hy. apply H. right. exact Hy.
Qed.

Lemma Forall2_map_left (R : Q -> Q -> Prop) (f : Q -> Q) (l : list Q) :
  (forall x, In x l -> R (f x) x) -> Forall2 R (map f l) l.
Proof.
  induction l as [|x l IH]; intros H; cbn [map]; constructor.
  - apply H. left. reflexivity.
  - apply IH. intros y Hy. apply H. right. exact Hy.
Qed.

(** X8. The adjusted risk grows with the severity tier, for every registry
    scenario and every input risk. *)
Theorem scenario_risk_grows_with_severity
    (demand risk : list Q) (s : Scenario.scenario_id) :
  let at_tier v := snd (Scenario.apply_scenario demand risk
                          (Scenario.scenario_key s) (Scenario.severity_key v)) in
  Forall2 Qle (at_tier Scenario.Low) (at_tier Scenario.Medium)
  /\ Forall2 Qle (at_tier Scenario.Medium) (at_tier Scenario.High).
Proof.
  cbv beta zeta. rewrite !apply_scenario_known. cbn [snd]. unfold Np.clip.
  rewrite !map_map.
  split; apply Forall2_map_same; intros r _; apply clip1_monotone;
    destruct s; cbn [Scenario.registry_risk_adjustment]; lra.
Qed.

(** X9. The effect on demand grows with the severity tier in one direction per
    scenario: for a non-negative demand the adjusted series rise from the
    input through low, medium and high, or fall through them. *)
Theorem scenario_demand_effect_grows
    (demand risk : list Q) (s : Scenario.scenario_id) :
  Forall (fun d => (0 <= d)%Q) demand ->
  let at_tier v := fst (Scenario.apply_scenario demand risk
                          (Scenario.scenario_key s) (Scenario.severity_key v)) in
  (Forall2 Qle demand (at_tier Scenario.Low)
   /\ Forall2 Qle (at_tier Scenario.Low) (at_tier Scenario.Medium)
   /\ Forall2 Qle (at_tier Scenario.Medium) (at_tier Scenario.High))
  \/ (Forall2 Qle (at_tier Scenario.Low) demand
      /\ Forall2 Qle (at_tier Scenario.Medium) (at_tier Scenario.Low)
      /\ Forall2 Qle (at_tier Scenario.High) (at_tier Scenario.Medium)).
Proof.
  intros Hd. cbv beta zeta. rewrite !apply_scenario_known. cbn [fst].
  assert (Hpos : forall d, In d demand -> (0 <= d)%Q)
    by (apply Forall_forall; exact Hd).
  destruct s; cbn [Scenario.registry_demand_multiplier];
    [left | right | left | left | right];
    (split; [|split]);
    first [apply Forall2_map_right | apply Forall2_map_left
           | apply Forall2_map_same];
    intros d Hin; specialize (Hpos d Hin); lra.
Qed.

Lemma scenario_demand_effect_grows_witness :
  let at_tier v := fst (Scenario.apply_scenario [100%Q; 0%Q] [0.2%Q]
                          (Scenario.scenario_key Scenario.BadWeather)
                          (Scenario.severity_key v)) in
  (Forall2 Qle [100%Q; 0%Q] (at_tier Scenario.Low)
   /\ Forall2 Qle (at_tier Scenario.Low) (at_tier Scenario.Medium)
   /\ Forall2 Qle (at_tier Scenario.Medium) (at_tier Scenario.High))
  \/ (Forall2 Qle (at_tier Scenario.Low) [100%Q; 0%Q]
      /\ Forall2 Qle (at_tier Scenario.Medium) (at_tier Scenario.Low)
      /\ Forall2 Qle (at_tier Scenario.High) (at_tier Scenario.Medium)).
Proof.
  apply (scenario_demand_effect_grows [100%Q; 0%Q] [0.2%Q] Scenario.BadWeather).
  repeat constructor; discriminate.
Defined.

Lemma forecast_demand_ge0 (h : Host) (w : World) (df : DataFrame) :
  Forall (fun x => (0 <= x)%Q) (Forecasting.forecast_demand h w df).
Proof.
  unfold Forecasting.forecast_demand, Np.zeros.
  destruct (forecast_model w) as [model|];
    [|apply Forall_repeat; apply Qle_refl].
  destruct (length _ =? 0)%nat; [apply Forall_repeat; apply Qle_refl|].
  destruct (predict model _) as [predictions|];
    [|apply Forall_repeat; apply Qle_refl].
  apply Forall_forall. intros x Hx. apply in_map_iff in Hx.
  destruct Hx as (p & <- & _). apply maximum_nonneg.
Qed.

(** X10. A forecast stays non-negative under every scenario and severity string,
    known or not. *)
Theorem scenario_keeps_forecast_nonnegative
    (h : Host) (w : World) (df : DataFrame) (risk : list Q) (sc sev : string) :
  Forall (fun x => (0 <= x)%Q)
    (fst (Scenario.apply_scenario (Forecasting.forecast_demand h w df)
            risk sc sev)).
Proof.
  pose proof (forecast_demand_ge0 h w df) as Hd.
  destruct (dict_get Scenario.SCENARIOS sc) as [scen|] eqn:E.
  - rewrite (apply_scenario_eval _ risk sc sev scen E). cbn [fst].
    destruct (registry_entry_signs sc sev scen E) as [Hm _].
    apply Forall_forall. intros x Hx. apply in_map_iff in Hx.
    destruct Hx as (d & <- & Hin).
    pose proof (proj1 (Forall_forall _ _) Hd d Hin) as Hd0.
    apply Qmult_le_0_compat; [exact Hd0 | apply Qlt_le_weak, Hm].
  - unfold Scenario.apply_scenario. rewrite E. exact Hd.
Qed.

Lemma nth_error_map_some {A B : Type} (f : A -> B) (l : list A) (i : nat) (b : B) :
  nth_error (map f l) i = Some b ->
  exists a, nth_error l i = Some a /\ b = f a.
Proof.
  rewrite nth_error_map. destruct (nth_error l i) as [a|]; cbn; [|discriminate].
  intros E. injection E as <-. exists a. auto.
Qed.

(** A scenario never makes a day safe: for a risk series in [0, 1], an index
    below the threshold after the scenario was below it before. *)
Lemma scenario_safe_before (demand risk : list Q) (sc sev : string) (t : Q)
      (i : nat) :
  Forall in01 risk ->
  Disruption.below (snd (Scenario.apply_scenario demand risk sc sev)) t i ->
  Disruption.below risk t i.
Proof.
  intros Hrisk. destruct (dict_get Scenario.SCENARIOS sc) as [scen|] eqn:E.
  - rewrite (apply_scenario_eval demand risk sc sev scen E). cbn [snd].
    destruct (registry_entry_signs sc sev scen E) as [_ Ha].
    unfold Np.clip. rewrite map_map. intros (r' & Hr' & Hlt).
    apply nth_error_map_some in Hr'. destruct Hr' as (r & Hr & ->).
    exists r. split; [exact Hr|].
    assert (Hin : in01 r).
    { apply (proj1 (Forall_forall _ _) Hrisk). eapply nth_error_In, Hr. }
    pose proof (clip1_raise r _ Hin Ha). lra.
  - unfold Scenario.apply_scenario. rewrite E. cbn [snd]. auto.
Qed.

(** X11. Applying a scenario, with any scenario and severity string, never
    lengthens the safe purchase window of a risk series in [0, 1]. *)
Theorem scenario_never_lengthens_window
    (dates : list date) (demand risk : list Q) (sc sev : string) (t : Q)
    (a b a' b' : option date) (n n' : nat) :
  Forall in01 risk ->
  Disruption.calculate_safe_purchase_window dates risk t = Returned (a, b, n) ->
  Disruption.calculate_safe_purchase_window dates
    (snd (Scenario.apply_scenario demand risk sc sev)) t
  = Returned (a', b', n') ->
  (n' <= n)%nat.
Proof.
  intros Hrisk. apply window_days_monotone.
  intros i. apply scenario_safe_before. exact Hrisk.
Qed.

Lemma scenario_never_lengthens_window_witness : (1 <= 2)%nat.
Proof.
  apply (scenario_never_lengthens_window [0; 1; 2]%Z [10; 10; 10]%Q
           [0.1; 0.2; 0.5]%Q "bad_weather"%string "low"%string 0.3%Q
           (Some 0%Z) (Some 1%Z) (Some 0%Z) (Some 0%Z) 2 1).
  - repeat constructor; discriminate.
  - reflexivity.
  - reflexivity.
Defined.

(** ** Scenario registry lookups *)

Lemma dict_get_map_values {V W : Type} (f : V -> W) (d : dict V) (k : string) :
  dict_get (map (fun kv => (fst kv, f (snd kv))) d) k
  = option_map f (dict_get d k).
Proof.
  induction d as [|[k' v] r IH]; [reflexivity|].
  cbn [map dict_get fst snd]. destruct (String.eqb k' k); [reflexivity | exact IH].
Qed.

(** X12. The ids that [get_available_scenarios] lists are exactly those that
    [get_scenario_description] describes and [apply_scenario] knows, and the
    listed display name is the name in the description. *)
Theorem available_scenarios_are_known (k sev : string) :
  (dict_get Scenario.get_available_scenarios k = None
   <-> Scenario.get_scenario_description k sev = Scenario.UnknownScenario)
  /\ (dict_get Scenario.get_available_scenarios k = None ->
      forall demand risk,
        Scenario.apply_scenario demand risk k sev = (demand, risk))
  /\ (forall display,
        dict_get Scenario.get_available_scenarios k = Some display ->
        exists i, Scenario.get_scenario_description k sev = Scenario.Impact i
                  /\ Scenario.i_name i = display).
Proof.
  unfold Scenario.get_available_scenarios, Scenario.get_scenario_description,
    Scenario.apply_scenario.
  rewrite dict_get_map_values.
  destruct (dict_get Scenario.SCENARIOS k) as [scen|]; cbn [option_map].
  - split; [split; discriminate|]. split; [discriminate|].
    intros display E. injection E as <-. eexists. split; reflexivity.
  - split; [split; reflexivity|]. split; [reflexivity | discriminate].
Qed.

Lemma available_scenarios_are_known_witness :
  Scenario.apply_scenario [100%Q] [0.2%Q] "earthquake" "high"
  = ([100%Q], [0.2%Q])
  /\ exists i,
       Scenario.get_scenario_description "promotion" "high" = Scenario.Impact i
       /\ Scenario.i_name i = "Promotional Campaign"%string.
Proof.
  split.
  - exact (proj1 (proj2 (available_scenarios_are_known "earthquake" "high"))
             eq_refl [100%Q] [0.2%Q]).
  - exact (proj2 (proj2 (available_scenarios_are_known "promotion" "high"))
             "Promotional Campaign"%string eq_refl).
Defined.

(** X13. The interpretation lines of a description agree with what
    [apply_scenario] does for the same scenario and severity strings: an
    increase line means no non-negative demand is lowered, a decrease line
    means none is raised, the stable line means the demand is unchanged, and
    the unchanged-risk line means the risk is only clipped to [0, 1]. *)
Theorem description_agrees_with_application
    (demand risk : list Q) (sc sev : string) (i : Scenario.impact) :
  Scenario.get_scenario_description sc sev = Scenario.Impact i ->
  Forall (fun d => (0 <= d)%Q) demand ->
  let out := Scenario.apply_scenario demand risk sc sev in
  (Scenario.i_demand_line i = Scenario.SignificantIncrease
   \/ Scenario.i_demand_line i = Scenario.ModerateIncrease ->
   Forall2 Qle demand (fst out))
  /\ (Scenario.i_demand_line i = Scenario.SignificantDecrease
      \/ Scenario.i_demand_line i = Scenario.ModerateDecrease ->
      Forall2 Qle (fst out) demand)
  /\ (Scenario.i_demand_line i = Scenario.DemandStable ->
      series_eq (fst out) demand)
  /\ (Scenario.i_risk_line i = Scenario.RiskUnchanged ->
      series_eq (snd out) (Np.clip risk 0 1)).
Proof.
  unfold Scenario.get_scenario_description.
  destruct (dict_get Scenario.SCENARIOS sc) as [scen|] eqn:E; [|discriminate].
  intros Ei Hd. injection Ei as <-. cbv zeta.
  rewrite (apply_scenario_eval demand risk sc sev scen E).
  cbn [fst snd Scenario.i_demand_line Scenario.i_risk_line].
  destruct (registry_entry_signs sc sev scen E) as [_ Ha].
  remember (dict_get_or (Scenario.demand_multiplier scen) sev 1.0) as m.
  remember (dict_get_or (Scenario.risk_adjustment scen) sev 0.0) as adj.
  assert (Hpos : forall d, In d demand -> (0 <= d)%Q)
    by (apply Forall_forall; exact Hd).
  repeat split.
  - intros Hline. apply Forall2_map_right. intros d Hin.
    specialize (Hpos d Hin).
    assert (Hm : (1 < m)%Q).
    { revert Hline. qcase 20%Q ((m - 1) * 100)%Q; [intros _; lra|].
      qcase 0%Q ((m - 1) * 100)%Q; [intros _; lra|].
      qcase ((m - 1) * 100)%Q (-20)%Q; [intros [H|H]; discriminate H|].
      qcase ((m - 1) * 100)%Q 0%Q; intros [H|H]; discriminate H. }
    nra.
  - intros Hline. apply Forall2_map_left. intros d Hin.
    specialize (Hpos d Hin).
    assert (Hm : (m < 1)%Q).
    { revert Hline. qcase 20%Q ((m - 1) * 100)%Q;
        [intros [H|H]; discriminate H|].
      qcase 0%Q ((m - 1) * 100)%Q; [intros [H|H]; discriminate H|].
      qcase ((m - 1) * 100)%Q (-20)%Q; [intros _; lra|].
      qcase ((m - 1) * 100)%Q 0%Q; [intros _; lra|].
      intros [H|H]; discriminate H. }
    nra.
  - intros Hline. apply series_eq_map_id. apply Forall_forall. intros d _.
    assert (Hm : (m == 1)%Q).
    { revert Hline. qcase 20%Q ((m - 1) * 100)%Q; [discriminate|].
      qcase 0%Q ((m - 1) * 100)%Q; [discriminate|].
      qcase ((m - 1) * 100)%Q (-20)%Q; [discriminate|].
      qcase ((m - 1) * 100)%Q 0%Q; [discriminate|]. intros _. lra. }
    rewrite Hm. lra.
  - intros Hline. unfold Np.clip. rewrite map_map.
    apply series_eq_map. intros r.
    assert (Hadj : (adj == 0)%Q).
    { revert Hline. qcase 30%Q (adj * 100)%Q; [discriminate|].
      qcase 15%Q (adj * 100)%Q; [discriminate|].
      qcase 0%Q (adj * 100)%Q; [discriminate|]. intros _. lra. }
    apply Qle_antisym; apply clip1_monotone; lra.
Qed.

Lemma description_agrees_with_application_witness :
  Forall2 Qle (fst (Scenario.apply_scenario [100%Q; 40%Q] [0.2%Q]
                      "competitor_action"%string "medium"%string))
    [100%Q; 40%Q]
  /\ series_eq (snd (Scenario.apply_scenario [100%Q; 40%Q] [0.2%Q]
                       "promotion"%string "low"%string))
       (Np.clip [0.2%Q] 0 1).
Proof.
  split.
  - refine (proj1 (proj2 (description_agrees_with_application
              [100%Q; 40%Q] [0.2%Q] "competitor_action"%string
              "medium"%string _ eq_refl _)) _).
    + repeat constructor; discriminate.
    + left. reflexivity.
  - refine (proj2 (proj2 (proj2 (description_agrees_with_application
              [100%Q; 40%Q] [0.2%Q] "promotion"%string "low"%string
              _ eq_refl _))) _).
    + repeat constructor; discriminate.
    + reflexivity.
Defined.

(** ** Recommendation and window *)

Lemma recommendation_no_safe_day
    (demand risk : list Q) (dates : list date) (t : Q) :
  risk <> [] -> (forall i, ~ Disruption.below risk t i) ->
  Scenario.get_recommendation demand risk dates t = Returned high_alert.
Proof.
  intros Hne Hnone. unfold Scenario.get_recommendation.
  destruct (max_nonempty risk Hne) as (peak & ->). cbn [bind].
  assert (E : Np.where_ (Np.less risk t) = []).
  { destruct (Np.where_ (Np.less risk t)) as [|c tl] eqn:Ew; [reflexivity|].
    exfalso. apply (Hnone c), In_safe_indices. rewrite Ew. left. reflexivity. }
  rewrite E. reflexivity.
Qed.

Lemma recommendation_some_safe_day
    (demand risk : list Q) (dates : list date) (t : Q) (i0 : nat) :
  length dates = length risk -> Disruption.below risk t i0 ->
  exists da db peak,
    Scenario.get_recommendation demand risk dates t
    = Returned
        ([Scenario.RecommendedActions; Scenario.WindowIdentified;
          Scenario.From da; Scenario.To db;
          Scenario.Duration (safe_count risk t);
          Scenario.SuggestedActions; Scenario.PlaceOrders;
          Scenario.ExpectedAverageDemand (Np.mean demand)]
         ++ advisories risk peak).
Proof.
  intros Hlen Hi0.
  pose proof (In_safe_indices risk t) as Hidx.
  assert (Hne : risk <> []).
  { apply below_lt_length in Hi0. intros ->. cbn [length] in Hi0. lia. }
  destruct (max_nonempty risk Hne) as (peak & Epeak).
  unfold Scenario.get_recommendation. rewrite Epeak. cbn [bind].
  rewrite <- length_safe_indices.
  destruct (Np.where_ (Np.less risk t)) as [|c tl] eqn:Ew;
    [exfalso; apply (proj2 (Hidx i0) Hi0)|].
  assert (Hc : (c < length dates)%nat).
  { rewrite Hlen. apply (below_lt_length risk t), Hidx. left. reflexivity. }
  assert (Hl : (last (c :: tl) 0%nat < length dates)%nat).
  { rewrite Hlen. apply (below_lt_length risk t), Hidx, last_In. discriminate. }
  change (length (c :: tl) =? 0)%nat with false. cbv iota.
  unfold index at 1 2. rewrite (nth_error_last (c :: tl) 0%nat) by discriminate.
  cbn [nth_error bind]. unfold index.
  destruct (nth_error dates c) as [da|] eqn:Eda;
    [|apply nth_error_None in Eda; lia].
  destruct (nth_error dates (last (c :: tl) 0%nat)) as [db|] eqn:Edb;
    [|apply nth_error_None in Edb; lia].
  cbn [bind]. exists da, db, peak. reflexivity.
Qed.

Lemma safe_count_covers_run (risk : list Q) (t : Q) (s e : nat) :
  Disruption.safe_run risk t s e ->
  (S (e - s) <= safe_count risk t)%nat /\ (safe_count risk t <= length risk)%nat.
Proof.
  intros [Hse Hall]. rewrite <- length_safe_indices. split.
  - apply Nat.le_trans with (m := length (seq s (S (e - s))));
      [rewrite length_seq; lia|].
    apply NoDup_incl_length; [apply seq_NoDup|].
    intros i Hi. apply in_seq in Hi. apply In_safe_indices, Hall. lia.
  - rewrite length_safe_indices. unfold safe_count. apply filter_length_le.
Qed.

(** X14. The recommendation and the window search agree on whether a safe day
    exists, and the duration that the recommendation reports is at least the
    number of days of the safe purchase window and at most the length of the
    series. *)
Theorem recommendation_duration_covers_window
    (demand risk : list Q) (dates : list date) (t : Q)
    (sd ed : option date) (n : nat) :
  risk <> [] -> length dates = length risk ->
  Disruption.calculate_safe_purchase_window dates risk t = Returned (sd, ed, n) ->
  (n = 0%nat ->
   Scenario.get_recommendation demand risk dates t = Returned high_alert)
  /\ ((0 < n)%nat ->
      exists lines d,
        Scenario.get_recommendation demand risk dates t = Returned lines
        /\ In (Scenario.Duration d) lines
        /\ ~ In Scenario.HighAlert lines
        /\ (n <= d <= length risk)%nat).
Proof.
  intros Hne Hlen Ecalc.
  destruct (below_or_none risk t) as [[i0 Hi0]|Hnone].
  - destruct (window_found dates risk t Hlen i0 Hi0)
      as (s & e & ds & de & Hrun & _ & _ & Ecalc' & _).
    rewrite Ecalc' in Ecalc. injection Ecalc as _ _ <-.
    split; [discriminate|]. intros _.
    destruct (recommendation_some_safe_day demand risk dates t i0 Hlen Hi0)
      as (da & db & peak & Erec).
    eexists. exists (safe_count risk t). split; [exact Erec|].
    split; [cbn; tauto|]. split.
    + cbn [app In]. intros H.
      repeat (destruct H as [H|H]; [discriminate H|]).
      unfold advisories in H. apply in_app_or in H.
      destruct H as [H|H];
        [destruct (Scenario.gt_nan _ _) | destruct (Np.Qltb _ _)];
        cbn [In] in H; repeat (destruct H as [H|H]; [discriminate H|]);
        exact H.
    + apply safe_count_covers_run. apply Hrun.
  - rewrite (window_none dates risk t Hnone) in Ecalc.
    injection Ecalc as _ _ <-. split; [|lia].
    intros _. apply recommendation_no_safe_day; assumption.
Qed.

Lemma recommendation_duration_covers_window_witness :
  exists lines d,
    Scenario.get_recommendation [10; 20; 30; 40]%Q [0.1; 0.4; 0.2; 0.2]%Q
      [0; 1; 2; 3]%Z 0.3%Q = Returned lines
    /\ In (Scenario.Duration d) lines
    /\ ~ In Scenario.HighAlert lines
    /\ (2 <= d <= length [0.1; 0.4; 0.2; 0.2]%Q)%nat.
Proof.
  refine (proj2 (recommendation_duration_covers_window [10; 20; 30; 40]%Q
            [0.1; 0.4; 0.2; 0.2]%Q [0; 1; 2; 3]%Z 0.3%Q
            (Some 2%Z) (Some 3%Z) 2 _ eq_refl eq_refl) _).
  - discriminate.
  - lia.
Defined.

(** ** Feature frames *)

Lemma forecast_features_steps (h : Host) (df : DataFrame) :
  Forecasting.forecast_features h df
  = Pd.get_dummies h
      (with_categorical (Pd.len df)
         (with_numeric (Pd.len df)
            (with_rolling h (Pd.len df)
               (with_lags (Pd.len df)
                  (with_time_features h (Pd.to_frame df))))))
      categorical_features.
Proof. reflexivity. Qed.

Lemma set_In_same (f : frame) (c : string) (v : column) :
  In (c, v) (Pd.set f c v).
Proof.
  induction f as [|[c' v'] r IH]; cbn [Pd.set]; [left; reflexivity|].
  destruct (String.eqb_spec c' c) as [->|Hne];
    [left; reflexivity | right; exact IH].
Qed.

Lemma set_In_other (f : frame) (c : string) (v : column) (k : string) (x : column) :
  k <> c -> In (k, x) f -> In (k, x) (Pd.set f c v).
Proof.
  intros Hk. induction f as [|[c' v'] r IH]; cbn [Pd.set In]; [tauto|].
  destruct (String.eqb_spec c' c) as [->|Hne].
  - intros [E|Hin]; [injection E as -> _; congruence | right; exact Hin].
  - intros [E|Hin]; [left; exact E | right; exact (IH Hin)].
Qed.

Lemma has_numeric_set_other (k c : string) (v : column) (f : frame) :
  k <> c -> has_numeric k f -> has_numeric k (Pd.set f c v).
Proof.
  intros Hk (xs & Hin). exists xs. apply set_In_other; assumption.
Qed.

Lemma fold_left_keeps {A : Type} (P : frame -> Prop)
      (step : frame -> A -> frame) (l : list A) :
  (forall f a, In a l -> P f -> P (step f a)) ->
  forall f, P f -> P (fold_left step l f).
Proof.
  induction l as [|a l IH]; intros Hstep f Hf; cbn [fold_left]; [exact Hf|].
  apply IH.
  - intros f' a' Ha'. apply Hstep. right. exact Ha'.
  - apply Hstep; [left; reflexivity | exact Hf].
Qed.

Lemma with_lags_adds (n : nat) (f : frame) :
  has_numeric "lag_28" (with_lags n f).
Proof.
  unfold with_lags, Pd.scalar.
  destruct (Pd.get f "units_sold") as [[u|u|u]|]; cbn [fold_left];
    eexists; apply set_In_same.
Qed.

Lemma with_rolling_keeps (h : Host) (n : nat) (f : frame) :
  has_numeric "lag_28" f -> has_numeric "lag_28" (with_rolling h n f).
Proof.
  intros Hf. unfold with_rolling.
  destruct (Pd.get f "units_sold") as [[u|u|u]|];
    (apply fold_left_keeps; [|exact Hf]);
    intros f' a Ha Hf';
    cbn [In] in Ha; destruct Ha as [<-|[<-|[]]]; cbv zeta;
    repeat (apply has_numeric_set_other; [discriminate|]); exact Hf'.
Qed.

Lemma with_numeric_keeps (n : nat) (f : frame) :
  has_numeric "lag_28" f -> has_numeric "lag_28" (with_numeric n f).
Proof.
  intros Hf. unfold with_numeric. apply fold_left_keeps; [|exact Hf].
  intros f' a Ha Hf'. destruct (Pd.has f' a); [exact Hf'|].
  cbn [In] in Ha. destruct Ha as [<-|[<-|[<-|[]]]];
    (apply has_numeric_set_other; [discriminate | exact Hf']).
Qed.

Lemma with_categorical_keeps (n : nat) (f : frame) :
  has_numeric "lag_28" f -> has_numeric "lag_28" (with_categorical n f).
Proof.
  intros Hf. unfold with_categorical. apply fold_left_keeps; [|exact Hf].
  intros f' a Ha Hf'. destruct (Pd.has f' a); [exact Hf'|].
  cbn [In categorical_features] in Ha.
  destruct Ha as [<-|[<-|[<-|[<-|[]]]]];
    (apply has_numeric_set_other; [discriminate | exact Hf']).
Qed.

Lemma forecast_matrix_has_lag (h : Host) (df : DataFrame) :
  exists xs, In ("lag_28"%string, xs) (forecast_matrix h df).
Proof.
  unfold forecast_matrix. rewrite forecast_features_steps.
  destruct (with_categorical_keeps (Pd.len df) _
              (with_numeric_keeps (Pd.len df) _
                 (with_rolling_keeps h (Pd.len df) _
                    (with_lags_adds (Pd.len df)
                       (with_time_features h (Pd.to_frame df))))))
    as (xs & Hin).
  exists (map Pd.fillna0 xs). unfold Pd.numeric_matrix.
  apply in_flat_map. exists ("lag_28"%string, NumCol xs). split.
  - unfold Pd.get_dummies. apply in_or_app. left.
    apply filter_In. split; [exact Hin | reflexivity].
  - cbn. left. reflexivity.
Qed.

(** ** More about the demand forecast *)

Lemma forecast_matrix_nonempty (h : Host) (df : DataFrame) :
  forecast_matrix h df <> [].
Proof.
  destruct (forecast_matrix_has_lag h df) as (xs & Hin).
  intros E. rewrite E in Hin. exact Hin.
Qed.

Lemma forecast_demand_loaded
    (h : Host) (w : World) (df : DataFrame) (model : Model) :
  forecast_model w = Some model ->
  Forecasting.forecast_demand h w df
  = match predict model (forecast_matrix h df) with
    | Returned predictions => map (fun p => Np.maximum p 0) predictions
    | Raised => Np.zeros (Pd.len df)
    end.
Proof.
  intros Em. pose proof (forecast_matrix_nonempty h df) as Hne.
  unfold Forecasting.forecast_demand. rewrite Em.
  fold (forecast_matrix h df).
  destruct (forecast_matrix h df) as [|c X]; [congruence | reflexivity].
Qed.

(** X15. With a loaded model, [forecast_demand] always calls the model: the
    fallback for a frame without numeric columns is never taken, because the
    lag columns are always added. *)
Theorem forecast_always_consults_model
    (h : Host) (w : World) (df : DataFrame) (model : Model) :
  forecast_model w = Some model ->
  forecast_matrix h df <> []
  /\ Forecasting.forecast_demand h w df
     = match predict model (forecast_matrix h df) with
       | Returned predictions => map (fun p => Np.maximum p 0) predictions
       | Raised => Np.zeros (Pd.len df)
       end.
Proof.
  intros Em. split.
  - apply forecast_matrix_nonempty.
  - apply forecast_demand_loaded, Em.
Qed.

Lemma forecast_always_consults_model_witness :
  forecast_matrix null_host (sample_frame 3) <> []
  /\ Forecasting.forecast_demand null_host
       (mk_world (Some sample_regressor) None (fun _ => 0%Q)) (sample_frame 3)
     = match predict sample_regressor (forecast_matrix null_host (sample_frame 3))
       with
       | Returned predictions => map (fun p => Np.maximum p 0) predictions
       | Raised => Np.zeros (Pd.len (sample_frame 3))
       end.
Proof.
  apply (forecast_always_consults_model null_host
           (mk_world (Some sample_regressor) None (fun _ => 0%Q))
           (sample_frame 3) sample_regressor).
  reflexivity.
Defined.

(** X16. With a loaded model that answers, the forecast has one value per
    prediction: a non-negative prediction is returned as it is and a
    negative one becomes 0. *)
Theorem forecast_demand_clamps
    (h : Host) (w : World) (df : DataFrame) (model : Model)
    (predictions : list Q) :
  forecast_model w = Some model ->
  predict model (forecast_matrix h df) = Returned predictions ->
  Forall2 (fun p y => ((0 <= p)%Q -> y = p) /\ ((p < 0)%Q -> y = 0%Q))
    predictions (Forecasting.forecast_demand h w df).
Proof.
  intros Em Ep.
  rewrite (forecast_demand_loaded h w df model Em), Ep.
  clear Ep. induction predictions as [|p l IH]; cbn [map]; constructor; auto.
  unfold Np.maximum. qcase p 0%Q; split; intros; try reflexivity; lra.
Qed.

Lemma forecast_demand_clamps_witness :
  Forall2 (fun p y => ((0 <= p)%Q -> y = p) /\ ((p < 0)%Q -> y = 0%Q))
    [12%Q; (-3)%Q; 7%Q]
    (Forecasting.forecast_demand null_host
       (mk_world (Some sample_regressor) None (fun _ => 0%Q)) (sample_frame 3)).
Proof.
  apply (forecast_demand_clamps null_host
           (mk_world (Some sample_regressor) None (fun _ => 0%Q))
           (sample_frame 3) sample_regressor).
  - reflexivity.
  - reflexivity.
Defined.

(** X17. The forecast has one value per input row whenever the model, if loaded,
    answers one value per row or raises. *)
Theorem forecast_demand_length (h : Host) (w : World) (df : DataFrame) :
  (forall model X predictions,
      forecast_model w = Some model ->
      predict model X = Returned predictions ->
      length predictions = Pd.len df) ->
  length (Forecasting.forecast_demand h w df) = Pd.len df.
Proof.
  intros Hlen. unfold Forecasting.forecast_demand, Np.zeros.
  destruct (forecast_model w) as [model|]; [|apply repeat_length].
  destruct (length _ =? 0)%nat; [apply repeat_length|].
  destruct (predict model _) as [predictions|] eqn:Ep; [|apply repeat_length].
  rewrite length_map. exact (Hlen model _ predictions eq_refl Ep).
Qed.

Lemma forecast_demand_length_witness :
  length (Forecasting.forecast_demand null_host
            (mk_world (Some sample_regressor) None (fun _ => 0%Q))
            (sample_frame 3)) = Pd.len (sample_frame 3).
Proof.
  apply forecast_demand_length.
  intros model X predictions Em Ep. injection Em as <-.
  injection Ep as <-. reflexivity.
Defined.

(** X18. The risk series has one value per input row whenever the model, if
    loaded, answers one value or one row of probabilities per input row, or
    raises. *)
Theorem predict_disruption_length (h : Host) (w : World) (df : DataFrame) :
  (forall model X predictions,
      risk_model w = Some model ->
      predict model X = Returned predictions ->
      length predictions = Pd.len df) ->
  (forall model proba X rows,
      risk_model w = Some model -> predict_proba model = Some proba ->
      proba X = Returned rows -> length rows = Pd.len df) ->
  length (fst (Disruption.predict_disruption h w df)) = Pd.len df.
Proof.
  intros Hpred Hproba. unfold Disruption.predict_disruption, Np.full.
  destruct (risk_model w) as [model|].
  - destruct (length _ =? 0)%nat; [apply repeat_length|].
    destruct (predict_proba model) as [proba|] eqn:Epp.
    + destruct (proba _) as [rows|] eqn:Er; cbn [bind];
        [|apply repeat_length].
      specialize (Hproba model proba _ rows eq_refl Epp Er).
      destruct (Disruption.column1 rows) as [xs|] eqn:Ec; cbn [fst];
        [|apply repeat_length].
      rewrite <- Hproba. clear -Ec. revert xs Ec.
      induction rows as [|r rs IH]; intros xs; cbn [Disruption.column1].
      * intros E. injection E as <-. reflexivity.
      * destruct (index r 1); cbn [bind]; [|discriminate].
        destruct (Disruption.column1 rs) as [ys|]; cbn [bind]; [|discriminate].
        intros E. injection E as <-. cbn [length]. f_equal. apply IH.
        reflexivity.
    + destruct (predict model _) as [predictions|] eqn:Ep; cbn [bind fst];
        [|apply repeat_length].
      unfold Np.clip. rewrite length_map.
      exact (Hpred model _ predictions eq_refl Ep).
  - unfold uniform. cbn [fst]. rewrite length_map, length_seq. reflexivity.
Qed.

Lemma predict_disruption_length_witness :
  length (fst (Disruption.predict_disruption null_host
                 (mk_world None (Some sound_classifier) (fun _ => 0%Q))
                 (sample_frame 3))) = Pd.len (sample_frame 3).
Proof.
  apply predict_disruption_length.
  - intros model X predictions Em Ep. injection Em as <-. discriminate Ep.
  - intros model proba X rows Em Epp Er. injection Em as <-.
    injection Epp as <-. injection Er as <-. reflexivity.
Defined.

(** ** Features of the risk forecast *)

Lemma has_set (f : frame) (c : string) (v : column) (k : string) :
  Pd.has (Pd.set f c v) k = Pd.has f k || String.eqb c k.
Proof.
  unfold Pd.has. induction f as [|[c' v'] r IH]; cbn [Pd.set existsb fst].
  - apply orb_comm.
  - destruct (String.eqb_spec c' c) as [->|Hne]; cbn [existsb fst].
    + destruct (String.eqb c k), (existsb _ r); reflexivity.
    + rewrite IH. apply orb_assoc.
Qed.

Lemma get_set_other (f : frame) (c : string) (v : column) (k : string) :
  String.eqb c k = false -> Pd.get (Pd.set f c v) k = Pd.get f k.
Proof.
  intros Hck. induction f as [|[c' v'] r IH]; cbn [Pd.set Pd.get].
  - rewrite Hck. reflexivity.
  - destruct (String.eqb_spec c' c) as [->|Hne]; cbn [Pd.get].
    + rewrite Hck. reflexivity.
    + rewrite IH. reflexivity.
Qed.

Lemma get_to_frame (df : DataFrame) (k : string) (col : column) :
  Pd.column_of df k = Some col ->
  Pd.get (Pd.to_frame df) k = if Pd.df_has df k then Some col else None.
Proof.
  intros Hk. unfold Pd.to_frame, Pd.df_has.
  induction (df_columns df) as [|c cols IH]; [reflexivity|].
  cbn [flat_map existsb]. destruct (String.eqb_spec k c) as [<-|Hne].
  - rewrite Hk. cbn [app Pd.get]. rewrite String.eqb_refl. reflexivity.
  - cbn [orb]. destruct (Pd.column_of df c) as [col'|]; cbn [app Pd.get].
    + destruct (String.eqb_spec c k) as [->|_]; [congruence | exact IH].
    + exact IH.
Qed.

Lemma has_to_frame (df : DataFrame) (k : string) :
  Pd.has (Pd.to_frame df) k
  = match Pd.column_of df k with
    | Some _ => Pd.df_has df k
    | None => false
    end.
Proof.
  unfold Pd.to_frame, Pd.df_has, Pd.has.
  induction (df_columns df) as [|c cols IH].
  - cbn. destruct (Pd.column_of df k); reflexivity.
  - cbn [flat_map existsb]. rewrite existsb_app, IH.
    destruct (String.eqb_spec k c) as [<-|Hne].
    + destruct (Pd.column_of df k) as [col|]; cbn [existsb fst orb];
        [rewrite String.eqb_refl|]; reflexivity.
    + destruct (Pd.column_of df c) as [col'|]; cbn [existsb fst orb];
        [|reflexivity].
      destruct (String.eqb_spec c k) as [->|_]; [congruence | reflexivity].
Qed.

(** Which expected features a frame offers, by the source columns it has. *)
Lemma risk_features_has (h : Host) (df : DataFrame) (k : string) :
  In k Disruption.expected_features ->
  Pd.has (Disruption.risk_features h df) k
  = if existsb (String.eqb k) ["temperature"; "extreme_temp"]%string
    then Pd.df_has df "temperature"
    else if existsb (String.eqb k) ["rainfall"; "heavy_rain"]%string
    then Pd.df_has df "rainfall"
    else if existsb (String.eqb k)
              ["congestion_index"; "high_congestion"]%string
    then Pd.df_has df "congestion_index"
    else Pd.df_has df "date".
Proof.
  intros Hk. unfold Disruption.risk_features. cbv zeta.
  rewrite (get_to_frame df "temperature" _ eq_refl).
  destruct (Pd.df_has df "temperature") eqn:ET;
    rewrite ?get_set_other by reflexivity;
    rewrite (get_to_frame df "rainfall" _ eq_refl);
    destruct (Pd.df_has df "rainfall") eqn:ER;
    rewrite ?get_set_other by reflexivity;
    rewrite (get_to_frame df "congestion_index" _ eq_refl);
    destruct (Pd.df_has df "congestion_index") eqn:EC;
    rewrite ?get_set_other by reflexivity;
    rewrite (get_to_frame df "date" _ eq_refl);
    destruct (Pd.df_has df "date") eqn:ED;
    rewrite ?has_set, has_to_frame;
    cbn [In Disruption.expected_features] in Hk;
    repeat (destruct Hk as [<-|Hk];
            [cbn; rewrite ?ET, ?ER, ?EC, ?ED; reflexivity|]);
    contradiction.
Qed.

(** X19. With a loaded model and an input that carries no column under
    the name of a derived feature, the constant 0.3 series for a frame
    without features is returned exactly when the input has none of the
    columns temperature, rainfall, congestion_index and date; otherwise the
    model is called. *)
Theorem risk_feature_fallback
    (h : Host) (w : World) (df : DataFrame) (model : Model) :
  risk_model w = Some model ->
  no_derived_features df = true ->
  (Pd.df_has df "temperature" = false ->
   Pd.df_has df "rainfall" = false ->
   Pd.df_has df "congestion_index" = false ->
   Pd.df_has df "date" = false ->
   Disruption.predict_disruption h w df = (Np.full (Pd.len df) 0.3, w))
  /\ (Pd.df_has df "temperature" = true
      \/ Pd.df_has df "rainfall" = true
      \/ Pd.df_has df "congestion_index" = true
      \/ Pd.df_has df "date" = true ->
      Disruption.predict_disruption h w df
      = (match risk_attempt model (risk_matrix h df) with
         | Returned predictions => predictions
         | Raised => Np.full (Pd.len df) 0.3
         end, w)).
Proof.
  intros Em _. unfold Disruption.predict_disruption. rewrite Em.
  assert (Hfilter :
    filter (Pd.has (Disruption.risk_features h df)) Disruption.expected_features
    = filter (fun k =>
                if existsb (String.eqb k) ["temperature"; "extreme_temp"]%string
                then Pd.df_has df "temperature"
                else if existsb (String.eqb k) ["rainfall"; "heavy_rain"]%string
                then Pd.df_has df "rainfall"
                else if existsb (String.eqb k)
                          ["congestion_index"; "high_congestion"]%string
                then Pd.df_has df "congestion_index"
                else Pd.df_has df "date")
        Disruption.expected_features).
  { apply filter_ext_in. intros k Hk. apply risk_features_has, Hk. }
  split.
  - intros ET ER EC ED. rewrite Hfilter, ET, ER, EC, ED. reflexivity.
  - intros Hsome.
    assert (Hne : (length (filter (Pd.has (Disruption.risk_features h df))
                             Disruption.expected_features) =? 0)%nat = false).
    { rewrite Hfilter.
      destruct (Pd.df_has df "temperature"); [reflexivity|].
      destruct (Pd.df_has df "rainfall"); [reflexivity|].
      destruct (Pd.df_has df "congestion_index"); [reflexivity|].
      destruct (Pd.df_has df "date"); [reflexivity|].
      destruct Hsome as [H|[H|[H|H]]]; discriminate H. }
    rewrite Hne. unfold risk_attempt, risk_matrix. cbv zeta.
    destruct (match predict_proba model with
              | Some proba => _
              | None => _
              end); reflexivity.
Qed.

Lemma risk_feature_fallback_witness :
  Disruption.predict_disruption null_host
    (mk_world None (Some sound_classifier) (fun _ => 0%Q))
    (mk_df ["product"; "units_sold"]%string (df_rows (sample_frame 2)))
  = (Np.full 2 0.3, mk_world None (Some sound_classifier) (fun _ => 0%Q))
  /\ Disruption.predict_disruption null_host
       (mk_world None (Some sound_classifier) (fun _ => 0%Q)) (sample_frame 3)
     = (match risk_attempt sound_classifier
                (risk_matrix null_host (sample_frame 3)) with
        | Returned predictions => predictions
        | Raised => Np.full (Pd.len (sample_frame 3)) 0.3
        end, mk_world None (Some sound_classifier) (fun _ => 0%Q)).
Proof.
  split.
  - apply (proj1 (risk_feature_fallback null_host
                    (mk_world None (Some sound_classifier) (fun _ => 0%Q))
                    (mk_df ["product"; "units_sold"]%string
                       (df_rows (sample_frame 2)))
                    sound_classifier eq_refl eq_refl)); reflexivity.
  - apply (proj2 (risk_feature_fallback null_host
                    (mk_world None (Some sound_classifier) (fun _ => 0%Q))
                    (sample_frame 3) sound_classifier eq_refl eq_refl)).
    left. reflexivity.
Defined.

(** ** Feature matrices have one value per row *)

Lemma set_In_inv (f : frame) (c : string) (v : column) (k : string) (x : column) :
  In (k, x) (Pd.set f c v) -> (k = c /\ x = v) \/ In (k, x) f.
Proof.
  induction f as [|[c' v'] r IH]; cbn [Pd.set In].
  - intros [E|[]]. injection E as <- <-. left. auto.
  - destruct (String.eqb_spec c' c) as [->|Hne]; cbn [In].
    + intros [E|Hin]; [injection E as <- <-; left; auto | right; right; exact Hin].
    + intros [E|Hin]; [right; left; exact E|].
      destruct (IH Hin) as [H|H]; [left; exact H | right; right; exact H].
Qed.

Lemma frame_rows_set (n : nat) (f : frame) (c : string) (v : column) :
  column_length v = n -> frame_rows n f -> frame_rows n (Pd.set f c v).
Proof.
  intros Hv Hf k x Hin. apply set_In_inv in Hin.
  destruct Hin as [[_ ->]|Hin]; [exact Hv | exact (Hf k x Hin)].
Qed.

Lemma get_In (f : frame) (k : string) (c : column) :
  Pd.get f k = Some c -> In (k, c) f.
Proof.
  induction f as [|[k' v] r IH]; cbn [Pd.get]; [discriminate|].
  destruct (String.eqb_spec k' k) as [->|Hne].
  - intros E. injection E as <-. left. reflexivity.
  - intros E. right. exact (IH E).
Qed.

Lemma frame_rows_to_frame (df : DataFrame) :
  frame_rows (Pd.len df) (Pd.to_frame df).
Proof.
  intros k c Hin. unfold Pd.to_frame in Hin. apply in_flat_map in Hin.
  destruct Hin as (name & _ & Hin).
  destruct (Pd.column_of df name) as [col|] eqn:E; [|contradiction].
  destruct Hin as [Eq|[]]. injection Eq as -> ->.
  unfold Pd.column_of in E.
  repeat match type of E with
         | (if ?b then _ else _) = _ => destruct b
         end;
    try discriminate E; injection E as <-; cbn [column_length];
    apply length_map.
Qed.

Lemma of_mask_length (mask : list bool) :
  column_length (Pd.of_mask mask) = length mask.
Proof. unfold Pd.of_mask. cbn [column_length]. apply length_map. Qed.

Lemma risk_features_steps (h : Host) (df : DataFrame) :
  Disruption.risk_features h df
  = with_calendar h
      (with_flag "congestion_index" "high_congestion"
         (fun x => Pd.gt_c x 0.7)
         (with_flag "rainfall" "heavy_rain" (fun x => Pd.gt_c x 50)
            (with_flag "temperature" "extreme_temp"
               (fun x => Pd.lt_c x 0 || Pd.gt_c x 35)
               (Pd.to_frame df)))).
Proof. reflexivity. Qed.

Lemma frame_rows_with_flag (n : nat) (src dst : string) (test : num -> bool)
      (f : frame) :
  frame_rows n f -> frame_rows n (with_flag src dst test f).
Proof.
  intros Hf. unfold with_flag.
  destruct (Pd.get f src) as [[xs|xs|xs]|] eqn:E; try exact Hf.
  apply frame_rows_set; [|exact Hf].
  rewrite of_mask_length, length_map.
  exact (Hf _ _ (get_In _ _ _ E)).
Qed.

Lemma frame_rows_with_calendar (h : Host) (n : nat) (f : frame) :
  frame_rows n f -> frame_rows n (with_calendar h f).
Proof.
  intros Hf. unfold with_calendar.
  destruct (Pd.get f "date") as [[d|d|d]|] eqn:E; try exact Hf.
  pose proof (Hf _ _ (get_In _ _ _ E)) as Hd. cbn [column_length] in Hd.
  cbv zeta.
  repeat (apply frame_rows_set;
          [rewrite ?of_mask_length; cbn [column_length];
           rewrite ?length_map; exact Hd|]).
  exact Hf.
Qed.

Lemma frame_rows_risk_features (h : Host) (df : DataFrame) :
  frame_rows (Pd.len df) (Disruption.risk_features h df).
Proof.
  rewrite risk_features_steps.
  apply frame_rows_with_calendar.
  repeat apply frame_rows_with_flag.
  apply frame_rows_to_frame.
Qed.

Lemma risk_matrix_rows_all (h : Host) (df : DataFrame) :
  matrix_rows (Pd.len df) (risk_matrix h df).
Proof.
  unfold risk_matrix, Disruption.select_filled. cbv zeta.
  intros k xs Hin. apply in_flat_map in Hin.
  destruct Hin as (c & _ & Hin).
  destruct (Pd.get (Disruption.risk_features h df) c) as [[ys|ys|ys]|] eqn:E;
    try contradiction.
  destruct Hin as [Eq|[]]. injection Eq as <- <-.
  rewrite length_map.
  exact (frame_rows_risk_features h df _ _ (get_In _ _ _ E)).
Qed.

(** X20. Every column of the matrix that the risk model receives has one value
    per input row. *)
Theorem risk_matrix_rows (h : Host) (df : DataFrame) :
  matrix_rows (Pd.len df) (risk_matrix h df).
Proof. exact (risk_matrix_rows_all h df). Qed.

Lemma risk_matrix_rows_witness :
  length (hd [] (map snd (risk_matrix null_host (sample_frame 3)))) = 3%nat.
Proof.
  apply (risk_matrix_rows null_host (sample_frame 3) "temperature"%string).
  vm_compute. left. reflexivity.
Defined.

Lemma shift_length (k : nat) (xs : list num) :
  length (Pd.shift k xs) = length xs.
Proof.
  unfold Pd.shift. apply firstn_length_le. rewrite length_app.
  apply Nat.le_add_l.
Qed.

Lemma rolling_length (w : nat) (agg : list Q -> num) (xs : list num) :
  length (Pd.rolling w agg xs) = length xs.
Proof. unfold Pd.rolling. rewrite length_map, length_seq. reflexivity. Qed.

Lemma scalar_length (n : nat) (v : Q) : column_length (Pd.scalar n v) = n.
Proof. unfold Pd.scalar. cbn [column_length]. apply repeat_length. Qed.

Lemma frame_rows_with_time (h : Host) (n : nat) (f : frame) :
  frame_rows n f -> frame_rows n (with_time_features h f).
Proof.
  intros Hf. unfold with_time_features.
  destruct (Pd.get f "date") as [[d|d|d]|] eqn:E; try exact Hf.
  pose proof (Hf _ _ (get_In _ _ _ E)) as Hd. cbn [column_length] in Hd.
  cbv zeta.
  repeat (apply frame_rows_set;
          [cbn [column_length]; rewrite ?length_map; exact Hd|]).
  exact Hf.
Qed.

Lemma frame_rows_with_lags (n : nat) (f : frame) :
  frame_rows n f -> frame_rows n (with_lags n f).
Proof.
  intros Hf. unfold with_lags.
  destruct (Pd.get f "units_sold") as [[u|u|u]|] eqn:E;
    (apply fold_left_keeps; [|exact Hf]); intros f' a _ Hf';
    apply frame_rows_set; try exact Hf'; try apply scalar_length.
  cbn [column_length]. rewrite shift_length.
  exact (Hf _ _ (get_In _ _ _ E)).
Qed.

Lemma frame_rows_with_rolling (h : Host) (n : nat) (f : frame) :
  frame_rows n f -> frame_rows n (with_rolling h n f).
Proof.
  intros Hf. unfold with_rolling.
  destruct (Pd.get f "units_sold") as [[u|u|u]|] eqn:E;
    (apply fold_left_keeps; [|exact Hf]); intros f' a _ Hf'; cbv zeta;
    repeat (apply frame_rows_set;
            [first [apply scalar_length
                   | cbn [column_length]; rewrite rolling_length, shift_length;
                     exact (Hf _ _ (get_In _ _ _ E))]|]);
    exact Hf'.
Qed.

Lemma frame_rows_with_numeric (n : nat) (f : frame) :
  frame_rows n f -> frame_rows n (with_numeric n f).
Proof.
  intros Hf. unfold with_numeric. apply fold_left_keeps; [|exact Hf].
  intros f' a _ Hf'. destruct (Pd.has f' a); [exact Hf'|].
  apply frame_rows_set; [apply scalar_length | exact Hf'].
Qed.

Lemma frame_rows_with_categorical (n : nat) (f : frame) :
  frame_rows n f -> frame_rows n (with_categorical n f).
Proof.
  intros Hf. unfold with_categorical. apply fold_left_keeps; [|exact Hf].
  intros f' a _ Hf'. destruct (Pd.has f' a); [exact Hf'|].
  apply frame_rows_set; [|exact Hf'].
  destruct (existsb _ _); [cbn [column_length]; apply repeat_length
                          | apply scalar_length].
Qed.

Lemma frame_rows_get_dummies (h : Host) (n : nat) (f : frame) (cs : list string) :
  frame_rows n f -> frame_rows n (Pd.get_dummies h f cs).
Proof.
  intros Hf k c Hin. unfold Pd.get_dummies in Hin. apply in_app_or in Hin.
  destruct Hin as [Hin|Hin].
  - apply filter_In in Hin. exact (Hf _ _ (proj1 Hin)).
  - apply in_flat_map in Hin. destruct Hin as (name & _ & Hin).
    destruct (Pd.get f name) as [col|] eqn:E; [|contradiction].
    pose proof (Hf _ _ (get_In _ _ _ E)) as Hcol.
    unfold Pd.dummies in Hin. destruct col as [xs|xs|xs];
      try contradiction; apply in_map_iff in Hin;
      destruct Hin as (level & Eq & _); injection Eq as _ <-;
      rewrite of_mask_length, length_map; exact Hcol.
Qed.

(** X21. Every column of the matrix that the forecast model receives has one
    value per input row, and neither the date nor the [units_sold] seed is
    among the columns. *)
Theorem forecast_matrix_rows (h : Host) (df : DataFrame) :
  matrix_rows (Pd.len df) (forecast_matrix h df)
  /\ ~ In "date"%string (map fst (forecast_matrix h df))
  /\ ~ In "units_sold"%string (map fst (forecast_matrix h df)).
Proof.
  assert (Hrows : frame_rows (Pd.len df) (Forecasting.forecast_features h df)).
  { rewrite forecast_features_steps.
    apply frame_rows_get_dummies, frame_rows_with_categorical,
      frame_rows_with_numeric, frame_rows_with_rolling, frame_rows_with_lags,
      frame_rows_with_time, frame_rows_to_frame. }
  assert (Hnames : forall k, In k (map fst (forecast_matrix h df)) ->
                             existsb (String.eqb k) ["date"; "units_sold"]%string
                             = false).
  { intros k Hin. apply in_map_iff in Hin.
    destruct Hin as ([k' xs] & <- & Hin).
    unfold forecast_matrix, Pd.numeric_matrix in Hin.
    apply in_flat_map in Hin. destruct Hin as ([name col] & _ & Hin).
    cbn [fst snd] in Hin. destruct col as [ys|ys|ys]; try contradiction.
    destruct (existsb (String.eqb name) ["date"; "units_sold"]%string) eqn:E;
      [contradiction|].
    destruct Hin as [Eq|[]]. injection Eq as <- _. exact E. }
  split; [|split].
  - intros k xs Hin. unfold forecast_matrix, Pd.numeric_matrix in Hin.
    apply in_flat_map in Hin. destruct Hin as ([name col] & Hcol & Hin).
    cbn [fst snd] in Hin. destruct col as [ys|ys|ys]; try contradiction.
    destruct (existsb _ _); [contradiction|].
    destruct Hin as [Eq|[]]. injection Eq as _ <-.
    rewrite length_map. exact (Hrows _ _ Hcol).
  - intros Hin. apply Hnames in Hin. discriminate Hin.
  - intros Hin. apply Hnames in Hin. discriminate Hin.
Qed.

Lemma forecast_matrix_rows_witness :
  length (hd [] (map snd (forecast_matrix null_host (sample_frame 3)))) = 3%nat.
Proof.
  apply (proj1 (forecast_matrix_rows null_host (sample_frame 3))
           "temperature"%string).
  vm_compute. left. reflexivity.
Defined.

(** ** Names of the risk features *)

Lemma numeric_names_set (ks : list string) (f : frame) (c : string) (xs : list num) :
  numeric_names ks f -> numeric_names ks (Pd.set f c (NumCol xs)).
Proof.
  intros Hf k col Hk Hin. apply set_In_inv in Hin.
  destruct Hin as [[_ ->]|Hin]; [eexists; reflexivity | exact (Hf k col Hk Hin)].
Qed.

Lemma numeric_names_to_frame (df : DataFrame) :
  numeric_names Disruption.expected_features (Pd.to_frame df).
Proof.
  intros k c Hk Hin. unfold Pd.to_frame in Hin. apply in_flat_map in Hin.
  destruct Hin as (name & _ & Hin).
  destruct (Pd.column_of df name) as [col|] eqn:E; [|contradiction].
  destruct Hin as [Eq|[]]. injection Eq as -> ->.
  cbn [In Disruption.expected_features] in Hk.
  repeat (destruct Hk as [<-|Hk];
          [cbn in E; first [discriminate E
                           | injection E as <-; eexists; reflexivity]|]).
  contradiction.
Qed.

Lemma numeric_names_risk_features (h : Host) (df : DataFrame) :
  numeric_names Disruption.expected_features (Disruption.risk_features h df).
Proof.
  rewrite risk_features_steps. unfold with_calendar, with_flag, Pd.of_mask.
  repeat match goal with
         | |- context [match Pd.get ?f ?k with _ => _ end] =>
             destruct (Pd.get f k) as [[?|?|?]|]
         end;
    cbv zeta; repeat apply numeric_names_set; apply numeric_names_to_frame.
Qed.

Lemma has_get (f : frame) (k : string) :
  Pd.has f k = true -> exists c, Pd.get f k = Some c.
Proof.
  unfold Pd.has. induction f as [|[k' v] r IH]; cbn [existsb Pd.get fst];
    [discriminate|].
  destruct (String.eqb k' k); [intros _; eexists; reflexivity | exact IH].
Qed.

Lemma risk_features_has_source (h : Host) (df : DataFrame) (k : string) :
  In k Disruption.expected_features ->
  Pd.has (Disruption.risk_features h df) k = Pd.df_has df (feature_source k).
Proof.
  intros Hk. rewrite (risk_features_has h df k Hk).
  cbn [In Disruption.expected_features] in Hk.
  repeat (destruct Hk as [<-|Hk]; [reflexivity|]). contradiction.
Qed.

Lemma risk_matrix_names_eq (h : Host) (df : DataFrame) :
  map fst (risk_matrix h df)
  = filter (fun k => Pd.df_has df (feature_source k))
      Disruption.expected_features.
Proof.
  unfold risk_matrix. cbv zeta.
  rewrite (filter_ext_in _ _ _ (risk_features_has_source h df)).
  pose proof (numeric_names_risk_features h df) as Hnum.
  assert (Hhas : forall k, In k Disruption.expected_features ->
                           Pd.df_has df (feature_source k) = true ->
                           Pd.has (Disruption.risk_features h df) k = true).
  { intros k Hk E. rewrite risk_features_has_source; assumption. }
  revert Hnum Hhas.
  generalize (Disruption.risk_features h df) as f.
  generalize Disruption.expected_features as ks.
  intros ks f Hnum Hhas.
  assert (Hsub : incl ks ks) by apply incl_refl.
  revert Hsub. generalize ks at 1 3 4 as l.
  induction l as [|k l IH]; intros Hsub; [reflexivity|].
  cbn [filter]. assert (Hk : In k ks) by (apply Hsub; left; reflexivity).
  assert (Hl : incl l ks) by (intros x Hx; apply Hsub; right; exact Hx).
  destruct (Pd.df_has df (feature_source k)) eqn:E; [|exact (IH Hl)].
  unfold Disruption.select_filled. cbn [flat_map].
  destruct (has_get f k (Hhas k Hk E)) as (c & Ec). rewrite Ec.
  destruct (Hnum k c Hk (get_In _ _ _ Ec)) as (xs & ->).
  cbn [app map fst]. f_equal. exact (IH Hl).
Qed.

(** X22. For an input that carries no column under the name of a derived
    feature, the matrix that the risk model receives has exactly the
    expected features whose source column the input has, in the expected
    order. *)
Theorem risk_matrix_names (h : Host) (df : DataFrame) :
  no_derived_features df = true ->
  map fst (risk_matrix h df)
  = filter (fun k => Pd.df_has df (feature_source k))
      Disruption.expected_features.
Proof. intros _. exact (risk_matrix_names_eq h df). Qed.

Lemma risk_matrix_names_witness :
  map fst (risk_matrix null_host
             (mk_df ["date"; "rainfall"]%string (df_rows (sample_frame 3))))
  = ["rainfall"; "heavy_rain"; "day_of_week"; "month"; "is_weekend"]%string.
Proof.
  exact (risk_matrix_names null_host
           (mk_df ["date"; "rainfall"]%string (df_rows (sample_frame 3)))
           eq_refl).
Defined.

(** ** The future frame *)

Lemma future_frame_len (now : date) (hist : DataFrame) (H : nat) :
  df_rows hist <> [] ->
  Pd.len (Forecasting.create_future_dataframe now (Some hist) H) = H.
Proof.
  intros Hne. unfold Forecasting.create_future_dataframe.
  destruct (df_rows hist) as [|r0 rs]; [congruence|].
  unfold Pd.len, Pd.date_range. cbn [df_rows].
  rewrite !length_map, length_seq. reflexivity.
Qed.

Lemma future_frame_has (now : date) (hist : DataFrame) (H : nat) :
  df_rows hist <> [] ->
  let future := Forecasting.create_future_dataframe now (Some hist) H in
  (forall k, In k future_columns -> Pd.df_has future k = true)
  /\ Pd.df_has future "product" = Pd.df_has hist "product"
  /\ Pd.df_has future "location" = Pd.df_has hist "location"
  /\ NoDup (df_columns future).
Proof.
  intros Hne. unfold Forecasting.create_future_dataframe.
  destruct (df_rows hist) as [|r0 rs]; [congruence|]. cbv zeta.
  destruct (Pd.df_has hist "product") eqn:EP;
    destruct (Pd.df_has hist "location") eqn:EL;
    unfold Pd.df_has; cbn [df_columns app];
    (split; [|split; [|split]]).
  all: try reflexivity.
  all: try (intros k Hk; cbn [In future_columns] in Hk;
            repeat (destruct Hk as [<-|Hk]; [reflexivity|]); contradiction).
  all: repeat (apply NoDup_cons;
               [cbn [In]; intros Hin;
                repeat (destruct Hin as [Hin|Hin]; [discriminate Hin|]);
                exact Hin|]);
       apply NoDup_nil.
Qed.

(** X23. The future frame of a non-empty history always has the columns date,
    temperature, rainfall, holiday_flag, promotion_flag, congestion_index and
    units_sold; it has a product or a location column exactly when the
    history has one; no column name is repeated. *)
Theorem future_frame_columns (now : date) (hist : DataFrame) (H : nat) :
  df_rows hist <> [] ->
  let future := Forecasting.create_future_dataframe now (Some hist) H in
  (forall k, In k future_columns -> Pd.df_has future k = true)
  /\ Pd.df_has future "product" = Pd.df_has hist "product"
  /\ Pd.df_has future "location" = Pd.df_has hist "location"
  /\ NoDup (df_columns future).
Proof. exact (future_frame_has now hist H). Qed.

Lemma future_frame_columns_witness :
  let future := Forecasting.create_future_dataframe 900%Z
                  (Some (mk_df ["date"; "units_sold"; "product"]%string
                           (df_rows (sample_frame 3)))) 5 in
  (forall k, In k future_columns -> Pd.df_has future k = true)
  /\ Pd.df_has future "product" = true
  /\ Pd.df_has future "location" = false
  /\ NoDup (df_columns future).
Proof.
  apply (future_frame_columns 900%Z
           (mk_df ["date"; "units_sold"; "product"]%string
              (df_rows (sample_frame 3))) 5).
  discriminate.
Defined.

(** X24. For a non-empty history, the risk model receives all nine expected
    features of the future frame, each with [horizon_days] values: the
    fallback for a frame without features is not taken on the frames that
    [create_future_dataframe] builds. *)
Theorem future_frame_feeds_all_features
    (h : Host) (now : date) (hist : DataFrame) (H : nat) :
  df_rows hist <> [] ->
  let future := Forecasting.create_future_dataframe now (Some hist) H in
  map fst (risk_matrix h future) = Disruption.expected_features
  /\ matrix_rows H (risk_matrix h future).
Proof.
  intros Hne. cbv zeta. split.
  - rewrite risk_matrix_names_eq.
    destruct (future_frame_has now hist H Hne) as (Hhas & _).
    cbv zeta in Hhas.
    unfold Disruption.expected_features. cbn [filter].
    change (feature_source "temperature") with "temperature"%string.
    change (feature_source "rainfall") with "rainfall"%string.
    change (feature_source "congestion_index") with "congestion_index"%string.
    change (feature_source "extreme_temp") with "temperature"%string.
    change (feature_source "heavy_rain") with "rainfall"%string.
    change (feature_source "high_congestion") with "congestion_index"%string.
    change (feature_source "day_of_week") with "date"%string.
    change (feature_source "month") with "date"%string.
    change (feature_source "is_weekend") with "date"%string.
    rewrite (Hhas "temperature"%string), (Hhas "rainfall"%string),
      (Hhas "congestion_index"%string), (Hhas "date"%string);
      try reflexivity; cbn; tauto.
  - rewrite <- (future_frame_len now hist H Hne) at 1.
    apply risk_matrix_rows_all.
Qed.

Lemma future_frame_feeds_all_features_witness :
  let future := Forecasting.create_future_dataframe 900%Z
                  (Some (sample_frame 3)) 5 in
  map fst (risk_matrix null_host future) = Disruption.expected_features
  /\ matrix_rows 5 (risk_matrix null_host future).
Proof.
  apply (future_frame_feeds_all_features null_host 900%Z (sample_frame 3) 5).
  discriminate.
Defined.

Lemma future_frame_row (now : date) (hist : DataFrame) (H : nat)
      (r0 : Row) (rs : list Row) (fr : Row) :
  df_rows hist = r0 :: rs ->
  In fr (df_rows (Forecasting.create_future_dataframe now (Some hist) H)) ->
  r_holiday_flag fr = Some 0%Q
  /\ r_promotion_flag fr = Some 0%Q
  /\ r_temperature fr
     = (if Pd.df_has hist "temperature"
        then Pd.mean_skipna (map r_temperature (df_rows (Pd.tail 60 hist)))
        else Some 20%Q)
  /\ r_rainfall fr
     = (if Pd.df_has hist "rainfall"
        then Pd.mean_skipna (map r_rainfall (df_rows (Pd.tail 60 hist)))
        else Some 0%Q)
  /\ r_congestion_index fr
     = (if Pd.df_has hist "congestion_index"
        then Pd.mean_skipna (map r_congestion_index (df_rows (Pd.tail 60 hist)))
        else Some 0.5%Q)
  /\ r_units_sold fr
     = (if Pd.df_has hist "units_sold"
        then Pd.mean_skipna (map r_units_sold (df_rows (Pd.tail 30 hist)))
        else Some 0%Q)
  /\ r_product fr = r_product (last (df_rows hist) r0)
  /\ r_location fr = r_location (last (df_rows hist) r0).
Proof.
  intros Erows. unfold Forecasting.create_future_dataframe.
  rewrite Erows. cbv zeta. cbn [df_rows]. intros Hin.
  apply in_map_iff in Hin. destruct Hin as (d & <- & _).
  cbn [r_holiday_flag r_promotion_flag r_temperature r_rainfall
       r_congestion_index r_units_sold r_product r_location].
  repeat split; reflexivity.
Qed.

(** X25. In the future frame of a non-empty history every row has both flags at
    0, takes 20, 0, 0.5 and 0 for temperature, rainfall, congestion_index and
    units_sold when the history lacks that column, and carries the product
    and the location of the last row of the history when the history has
    these columns. *)
Theorem future_frame_defaults
    (now : date) (hist : DataFrame) (H : nat) (fr : Row) :
  df_rows hist <> [] ->
  In fr (df_rows (Forecasting.create_future_dataframe now (Some hist) H)) ->
  r_holiday_flag fr = Some 0%Q
  /\ r_promotion_flag fr = Some 0%Q
  /\ (Pd.df_has hist "temperature" = false -> r_temperature fr = Some 20%Q)
  /\ (Pd.df_has hist "rainfall" = false -> r_rainfall fr = Some 0%Q)
  /\ (Pd.df_has hist "congestion_index" = false ->
      r_congestion_index fr = Some 0.5%Q)
  /\ (Pd.df_has hist "units_sold" = false -> r_units_sold fr = Some 0%Q)
  /\ (forall final, nth_error (df_rows hist) (Pd.len hist - 1) = Some final ->
      (Pd.df_has hist "product" = true -> r_product fr = r_product final)
      /\ (Pd.df_has hist "location" = true ->
          r_location fr = r_location final)).
Proof.
  intros Hne Hin.
  destruct (df_rows hist) as [|r0 rs] eqn:Erows; [congruence|].
  destruct (future_frame_row now hist H r0 rs fr Erows Hin)
    as (Hh & Hp & Ht & Hr & Hc & Hu & Hprod & Hloc).
  split; [exact Hh|]. split; [exact Hp|].
  split; [intros E; rewrite E in Ht; exact Ht|].
  split; [intros E; rewrite E in Hr; exact Hr|].
  split; [intros E; rewrite E in Hc; exact Hc|].
  split; [intros E; rewrite E in Hu; exact Hu|].
  intros final Hfinal. unfold Pd.len in Hfinal.
  rewrite Erows in *.
  rewrite (nth_error_last (r0 :: rs) r0) in Hfinal by discriminate.
  injection Hfinal as <-. split; intros _; assumption.
Qed.

Lemma future_frame_defaults_witness :
  let fr := mk_row 3%Z (Some 20%Q) (Some 0%Q) (Some 0%Q) (Some 0%Q)
              (Some 0.5%Q) "Chairs"%string "Pune"%string (Some 0%Q) in
  r_holiday_flag fr = Some 0%Q
  /\ r_promotion_flag fr = Some 0%Q
  /\ r_temperature fr = Some 20%Q
  /\ r_rainfall fr = Some 0%Q
  /\ r_congestion_index fr = Some 0.5%Q
  /\ r_units_sold fr = Some 0%Q
  /\ r_product fr = r_product (sample_row 2%Z).
Proof.
  cbv zeta.
  destruct (future_frame_defaults 900%Z
              (mk_df ["date"; "product"]%string (df_rows (sample_frame 3))) 2
              (mk_row 3%Z (Some 20%Q) (Some 0%Q) (Some 0%Q) (Some 0%Q)
                 (Some 0.5%Q) "Chairs"%string "Pune"%string (Some 0%Q))
              ltac:(discriminate) (or_introl eq_refl))
    as (Hh & Hp & Ht & Hr & Hc & Hu & Hlast).
  split; [exact Hh|]. split; [exact Hp|].
  split; [exact (Ht eq_refl)|]. split; [exact (Hr eq_refl)|].
  split; [exact (Hc eq_refl)|]. split; [exact (Hu eq_refl)|].
  exact (proj1 (Hlast (sample_row 2%Z) eq_refl) eq_refl).
Defined.

(** ** The rows that the projection reads *)

Lemma skipn_tail_app {A : Type} (older l : list A) (n : nat) :
  (n <= length l)%nat ->
  skipn (length (older ++ l) - n) (older ++ l) = skipn (length l - n) l.
Proof.
  intros Hn. rewrite length_app.
  replace (length older + length l - n)%nat
    with (length older + (length l - n))%nat by lia.
  rewrite skipn_app, skipn_all2 by lia.
  replace (length older + (length l - n) - length older)%nat
    with (length l - n)%nat by lia.
  reflexivity.
Qed.

(** X26. The projected temperature, rainfall and congestion index are
    computed from the last 60 rows of the history and the [units_sold] seed
    from the last 30: older rows put in front of a history of at least 60
    rows change none of the four. *)
Theorem future_frame_ignores_older_rows
    (now : date) (hist : DataFrame) (older : list Row) (H : nat)
    (fr fr' : Row) :
  (60 <= Pd.len hist)%nat ->
  In fr (df_rows (Forecasting.create_future_dataframe now (Some hist) H)) ->
  In fr' (df_rows (Forecasting.create_future_dataframe now
                     (Some (mk_df (df_columns hist) (older ++ df_rows hist)))
                     H)) ->
  r_temperature fr' = r_temperature fr
  /\ r_rainfall fr' = r_rainfall fr
  /\ r_congestion_index fr' = r_congestion_index fr
  /\ r_units_sold fr' = r_units_sold fr.
Proof.
  intros Hlen Hin Hin'. unfold Pd.len in Hlen.
  destruct (df_rows hist) as [|r0 rs] eqn:Erows;
    [cbn [length] in Hlen; lia|].
  destruct (future_frame_row now hist H r0 rs fr Erows Hin)
    as (_ & _ & Ht & Hr & Hc & Hu & _).
  destruct (older ++ r0 :: rs) as [|r0' rs'] eqn:Eall;
    [destruct older; discriminate Eall|].
  destruct (future_frame_row now (mk_df (df_columns hist) (r0' :: rs')) H
              r0' rs' fr' eq_refl Hin')
    as (_ & _ & Ht' & Hr' & Hc' & Hu' & _).
  assert (E60 : df_rows (Pd.tail 60 (mk_df (df_columns hist) (r0' :: rs')))
                = df_rows (Pd.tail 60 hist)).
  { unfold Pd.tail. cbn [df_rows]. rewrite Erows, <- Eall.
    apply skipn_tail_app. exact Hlen. }
  assert (E30 : df_rows (Pd.tail 30 (mk_df (df_columns hist) (r0' :: rs')))
                = df_rows (Pd.tail 30 hist)).
  { unfold Pd.tail. cbn [df_rows]. rewrite Erows, <- Eall.
    apply skipn_tail_app. lia. }
  rewrite E60 in Ht', Hr', Hc'. rewrite E30 in Hu'.
  unfold Pd.df_has in *. cbn [df_columns] in *.
  rewrite Ht, Hr, Hc, Hu, Ht', Hr', Hc', Hu'.
  repeat split; reflexivity.
Qed.

Lemma future_frame_ignores_older_rows_witness :
  let old := mk_row (-1)%Z (Some 99%Q) (Some 80%Q) (Some 0%Q) (Some 0%Q)
               (Some 0.9%Q) "Chairs"%string "Pune"%string (Some 500%Q) in
  let fr := hd (sample_row 0%Z)
              (df_rows (Forecasting.create_future_dataframe 900%Z
                          (Some (sample_frame 60)) 2)) in
  let fr' := hd (sample_row 0%Z)
               (df_rows (Forecasting.create_future_dataframe 900%Z
                           (Some (mk_df sample_columns
                                    (old :: df_rows (sample_frame 60))))
                           2)) in
  r_temperature fr' = r_temperature fr
  /\ r_rainfall fr' = r_rainfall fr
  /\ r_congestion_index fr' = r_congestion_index fr
  /\ r_units_sold fr' = r_units_sold fr.
Proof.
  cbv zeta.
  apply (future_frame_ignores_older_rows 900%Z (sample_frame 60)
           [mk_row (-1)%Z (Some 99%Q) (Some 80%Q) (Some 0%Q) (Some 0%Q)
              (Some 0.9%Q) "Chairs"%string "Pune"%string (Some 500%Q)] 2).
  - apply Nat.leb_le. vm_compute. reflexivity.
  - vm_compute. left. reflexivity.
  - vm_compute. left. reflexivity.
Defined.

(** ** The window over the future frame *)

Lemma nth_error_date_range (start : date) (n i : nat) (d : date) :
  nth_error (Pd.date_range start n) i = Some d ->
  d = (start + Z.of_nat i)%Z /\ (i < n)%nat.
Proof.
  unfold Pd.date_range. intros E. apply nth_error_map_some in E.
  destruct E as (j & Ej & ->). rewrite nth_error_seq in Ej.
  destruct (Nat.ltb_spec i n) as [Hlt|]; [|discriminate].
  injection Ej as <-. split; [reflexivity | exact Hlt].
Qed.

Lemma window_on_date_range
    (start : date) (n : nat) (risk : list Q) (t : Q) (ds de : date) (k : nat) :
  Disruption.calculate_safe_purchase_window (Pd.date_range start n) risk t
  = Returned (Some ds, Some de, k) ->
  (start <= ds)%Z /\ (ds <= de)%Z /\ (de < start + Z.of_nat n)%Z
  /\ Z.of_nat k = (de - ds + 1)%Z.
Proof.
  intros E. destruct (below_or_none risk t) as [[i0 Hi0]|Hnone];
    [|rewrite (window_none _ risk t Hnone) in E; discriminate E].
  destruct (Pd.date_range start n) as [|d0 dl] eqn:Edates;
    [cbn in E; discriminate E|].
  destruct (window_eval (d0 :: dl) risk t i0 ltac:(discriminate) Hi0)
    as (s & l & _ & Ev).
  rewrite Ev in E. clear Ev. rewrite <- Edates in E. unfold index in E.
  destruct (nth_error (Pd.date_range start n) s) as [x|] eqn:Es;
    cbn [bind] in E; [|discriminate E].
  destruct (nth_error (Pd.date_range start n) (s + l)) as [y|] eqn:Ee;
    cbn [bind] in E; [|discriminate E].
  injection E as -> -> <-.
  apply nth_error_date_range in Es, Ee.
  destruct Es as [-> _]. destruct Ee as [-> He]. lia.
Qed.

Lemma future_frame_dates_range
    (now : date) (hist : DataFrame) (H : nat) (r0 : Row) (rs : list Row) :
  df_rows hist = r0 :: rs ->
  map r_date (df_rows (Forecasting.create_future_dataframe now (Some hist) H))
  = Pd.date_range
      ((if Pd.df_has hist "date"
        then fold_left Z.max (map r_date rs) (r_date r0)
        else now) + 1)%Z H.
Proof.
  intros Erows. unfold Forecasting.create_future_dataframe. rewrite Erows.
  cbv zeta. cbn [df_rows]. apply date_range_dates. reflexivity.
Qed.

(** X27. A safe purchase window found over the dates of the future frame lies
    inside the forecast range, the [horizon_days] days after the latest date
    of the history, and its number of days is the distance between its two
    dates plus one. *)
Theorem forecast_window_in_range
    (now : date) (hist : DataFrame) (H : nat) (risk : list Q) (t : Q)
    (latest ds de : date) (k : nat) :
  df_rows hist <> [] -> Pd.df_has hist "date" = true ->
  In latest (map r_date (df_rows hist)) ->
  (forall d, In d (map r_date (df_rows hist)) -> (d <= latest)%Z) ->
  Disruption.calculate_safe_purchase_window
    (map r_date
       (df_rows (Forecasting.create_future_dataframe now (Some hist) H)))
    risk t
  = Returned (Some ds, Some de, k) ->
  (latest < ds)%Z /\ (ds <= de)%Z /\ (de <= latest + Z.of_nat H)%Z
  /\ Z.of_nat k = (de - ds + 1)%Z.
Proof.
  intros Hne Hdate Hin Hmax E.
  destruct (df_rows hist) as [|r0 rs] eqn:Erows; [congruence|].
  rewrite (future_frame_dates_range now hist H r0 rs Erows), Hdate in E.
  destruct (fold_max_spec (map r_date rs) (r_date r0)) as (Hm & Hle & Hall).
  cbv zeta in Hm, Hle, Hall.
  assert (El : fold_left Z.max (map r_date rs) (r_date r0) = latest).
  { apply Z.le_antisymm.
    - apply Hmax. cbn [map In]. destruct Hm as [->|Hm]; auto.
    - cbn [map In] in Hin.
      destruct Hin as [<-|Hl]; [exact Hle | exact (Hall _ Hl)]. }
  rewrite El in E. apply window_on_date_range in E. lia.
Qed.

Lemma forecast_window_in_range_witness :
  (2 < 4)%Z /\ (4 <= 5)%Z /\ (5 <= 2 + Z.of_nat 4)%Z
  /\ Z.of_nat 2 = (5 - 4 + 1)%Z.
Proof.
  apply (forecast_window_in_range 900%Z (sample_frame 3) 4
           [0.5; 0.1; 0.2; 0.4]%Q 0.3%Q 2%Z 4%Z 5%Z 2).
  - discriminate.
  - reflexivity.
  - vm_compute. right. right. left. reflexivity.
  - intros d Hd. vm_compute in Hd.
    repeat (destruct Hd as [<-|Hd]; [discriminate|]). contradiction.
  - reflexivity.
Defined.

(** ** Selection of a product and a location *)

Lemma filter_twice {A : Type} (f g : A -> bool) (l : list A) :
  filter f (filter g l) = filter (fun x => g x && f x) l.
Proof.
  induction l as [|x l IH]; [reflexivity|]. cbn [filter].
  destruct (g x); cbn [andb filter]; [destruct (f x)|]; rewrite IH; reflexivity.
Qed.

Lemma filter_data_eval (df : DataFrame) (product location : option string) :
  DataUtils.filter_data (Some df) product location
  = if (DataUtils.selects product && negb (Pd.df_has df "product"))
       || (DataUtils.selects location && negb (Pd.df_has df "location"))
    then Raised
    else Returned (Some (mk_df (df_columns df)
                           (filter (row_selected product location)
                              (df_rows df)))).
Proof.
  unfold DataUtils.filter_data, DataUtils.where_eq, row_selected, Pd.df_has.
  destruct df as [cols rows]. cbn [df_columns df_rows].
  destruct (DataUtils.selects product), (DataUtils.selects location),
    (existsb (String.eqb "product") cols);
    cbn [negb orb andb bind df_columns df_rows];
    destruct (existsb (String.eqb "location") cols);
    cbn [negb orb andb bind df_columns df_rows].
  all: try reflexivity.
  all: do 3 f_equal.
  all: rewrite ?filter_twice.
  all: try (apply filter_ext; intros r; rewrite ?andb_true_r; reflexivity).
  all: try (apply filter_ext; intros r; apply andb_comm).
  all: symmetry; apply forallb_filter_id; apply forallb_forall;
    intros r _; reflexivity.
Qed.

(** X28. [filter_data] raises exactly when a product or a location is selected
    and the frame has no such column; a selection of [None], of the empty
    string or of "All" never raises. *)
Theorem filter_data_raises_iff (df : DataFrame) (product location : option string) :
  DataUtils.filter_data (Some df) product location = Raised
  <-> (DataUtils.selects product = true /\ Pd.df_has df "product" = false)
      \/ (DataUtils.selects location = true /\ Pd.df_has df "location" = false).
Proof.
  rewrite filter_data_eval.
  destruct (DataUtils.selects product), (Pd.df_has df "product"),
    (DataUtils.selects location), (Pd.df_has df "location");
    cbn [negb orb andb]; split;
    try discriminate; try reflexivity; try tauto;
    intros [[H1 H2]|[H1 H2]]; discriminate.
Qed.

(** X29. What [filter_data] returns keeps the columns and, in their order,
    exactly the rows whose product and location are the selected ones;
    selecting again with the same arguments changes nothing. *)
Theorem filter_data_selects
    (df out : DataFrame) (product location : option string) :
  DataUtils.filter_data (Some df) product location = Returned (Some out) ->
  df_columns out = df_columns df
  /\ df_rows out = filter (row_selected product location) (df_rows df)
  /\ (forall r, In r (df_rows out) ->
        (DataUtils.selects product = true ->
         r_product r = DataUtils.value_of product)
        /\ (DataUtils.selects location = true ->
            r_location r = DataUtils.value_of location))
  /\ DataUtils.filter_data (Some out) product location = Returned (Some out).
Proof.
  rewrite filter_data_eval.
  destruct ((DataUtils.selects product && negb (Pd.df_has df "product"))
            || (DataUtils.selects location && negb (Pd.df_has df "location")))
    eqn:Eraise; [discriminate|].
  intros E. injection E as <-. cbn [df_columns df_rows].
  split; [reflexivity|]. split; [reflexivity|]. split.
  - intros r Hr. apply filter_In in Hr. destruct Hr as [_ Hsel].
    unfold row_selected in Hsel. apply andb_true_iff in Hsel.
    destruct Hsel as [Hp Hl]. split; intros Es; rewrite Es in *;
      cbn [negb orb] in *; apply String.eqb_eq; assumption.
  - rewrite filter_data_eval. unfold Pd.df_has in *. cbn [df_columns df_rows].
    rewrite Eraise. do 3 f_equal.
    rewrite filter_twice. apply filter_ext. intros r.
    destruct (row_selected product location r); reflexivity.
Qed.

Lemma filter_data_selects_witness :
  let df := mk_df sample_columns
              [sample_row 0%Z;
               mk_row 1%Z None None None None None "Tables"%string
                 "Pune"%string (Some 3%Q);
               sample_row 2%Z] in
  let out := mk_df sample_columns [sample_row 0%Z; sample_row 2%Z] in
  df_columns out = df_columns df
  /\ df_rows out
     = filter (row_selected (Some "Chairs"%string) (Some "All"%string))
         (df_rows df)
  /\ (forall r, In r (df_rows out) ->
        (DataUtils.selects (Some "Chairs"%string) = true ->
         r_product r = "Chairs"%string)
        /\ (DataUtils.selects (Some "All"%string) = true ->
            r_location r = "All"%string))
  /\ DataUtils.filter_data (Some out) (Some "Chairs"%string)
       (Some "All"%string) = Returned (Some out).
Proof.
  cbv zeta.
  apply (filter_data_selects
           (mk_df sample_columns
              [sample_row 0%Z;
               mk_row 1%Z None None None None None "Tables"%string
                 "Pune"%string (Some 3%Q);
               sample_row 2%Z])
           (mk_df sample_columns [sample_row 0%Z; sample_row 2%Z])
           (Some "Chairs"%string) (Some "All"%string)).
  reflexivity.
Defined.

(** X30. The future frame built from a history selected for a product carries
    that product in every row. *)
Theorem selected_product_reaches_future
    (now : date) (df hist : DataFrame) (p : string) (location : option string)
    (H : nat) (fr : Row) :
  DataUtils.selects (Some p) = true ->
  DataUtils.filter_data (Some df) (Some p) location = Returned (Some hist) ->
  In fr (df_rows (Forecasting.create_future_dataframe now (Some hist) H)) ->
  r_product fr = p /\ Pd.df_has hist "product" = true.
Proof.
  intros Hsel Efilter Hin.
  rewrite filter_data_eval in Efilter.
  destruct ((DataUtils.selects (Some p) && negb (Pd.df_has df "product"))
            || (DataUtils.selects location && negb (Pd.df_has df "location")))
    eqn:Eraise; [discriminate|].
  injection Efilter as <-.
  rewrite Hsel in Eraise. cbn [andb] in Eraise.
  apply orb_false_iff in Eraise. destruct Eraise as [Ep _].
  apply negb_false_iff in Ep. split; [|exact Ep].
  set (hist := mk_df (df_columns df)
                 (filter (row_selected (Some p) location) (df_rows df))) in *.
  destruct (df_rows hist) as [|r0 rs] eqn:Erows.
  - unfold Forecasting.create_future_dataframe in Hin. rewrite Erows in Hin.
    contradiction.
  - destruct (future_frame_row now hist H r0 rs fr Erows Hin)
      as (_ & _ & _ & _ & _ & _ & Hprod & _).
    rewrite Hprod.
    assert (Hlast : In (last (df_rows hist) r0) (df_rows hist)).
    { apply last_In. rewrite Erows. discriminate. }
    unfold hist in Hlast at 2. cbn [df_rows] in Hlast.
    apply filter_In in Hlast. destruct Hlast as [_ Hrow].
    unfold row_selected in Hrow. rewrite Hsel in Hrow.
    cbn [negb orb] in Hrow. apply andb_true_iff in Hrow.
    apply String.eqb_eq. exact (proj1 Hrow).
Qed.

Lemma selected_product_reaches_future_witness :
  r_product
    (hd (sample_row 0%Z)
       (df_rows (Forecasting.create_future_dataframe 900%Z
                   (Some (sample_frame 3)) 2)))
  = "Chairs"%string
  /\ Pd.df_has (sample_frame 3) "product" = true.
Proof.
  apply (selected_product_reaches_future 900%Z (sample_frame 3)
           (sample_frame 3) "Chairs"%string None 2).
  - reflexivity.
  - reflexivity.
  - vm_compute. left. reflexivity.
Defined.
